(** * Interview Session Orchestrator: a shallow embedding

    The development follows the Python services of the Excel mock
    interviewer:

    - [Models]               : [Models/question.py], [Models/interview.py],
                               [Models/evaluation.py]
    - [LLMService]           : [services/llm_service.py]
    - [ExcelEvaluator]       : [services/excel_evaluator.py]
    - [QuestionBankService]  : [services/question_bank.py]
    - [FeedbackEngine]       : [services/feedback_engine.py]
    - [ConversationManager]  : [services/conversation_manager.py] together
                               with [utils/state_manager.py]

    They are followed by the rules in the words of the specification
    ([Spec]), the notions the statements use ([Derived]) and concrete
    inputs ([Sample]); the properties come last.

    Scores are Python floats in the source.  They are modelled as exact
    rationals ([Q]); [round(x, 2)] is rounding to the nearest hundredth
    with ties going to the even neighbour; the floats that are not
    numbers (NaN, the infinities) have no counterpart.  Text is modelled as byte
    strings with ASCII case mapping and ASCII white space.  Wall-clock
    time stamps carried by the dictionaries ([timestamp], [start_time],
    [last_updated], ...) and the expiry of stored sessions are not
    modelled.

    Effects are explicit: every operation takes the current [World] (the
    session store, the question bank with its usage counters and the
    evaluation cache) and returns the next one.  What the outside decides
    (the provider's answer, [random.choice], the clock) is an argument of
    the operation. *)

From Stdlib Require Import ZArith QArith Qminmax Qround List String Ascii Bool Lia Lqa.
From stdpp Require Import base gmap strings.
Import ListNotations.

Local Open Scope string_scope.

(* ===================================================================== *)
(** * The Python runtime *)
(* ===================================================================== *)

(** Two library functions the services call are not part of the
  repository: the built-in [hash] on strings (used for cache keys) and
  the square root behind [statistics.stdev].  They are taken as an
  interface. *)
Class Runtime := {
py_hash : string -> Z;
py_sqrt : Q -> Q
}.

(** What the proofs need from the square root. *)
Definition sqrt_nonneg (R : Runtime) : Prop :=
forall x : Q, (0 <= py_sqrt x)%Q.

(* ===================================================================== *)
(** * Numbers *)
(* ===================================================================== *)

Module Num.

Local Open Scope Q_scope.

(** [x <= y], [x >= y], [x < y], [x > y] on floats. *)
Definition leb (x y : Q) : bool := Qle_bool x y.
Definition geb (x y : Q) : bool := Qle_bool y x.
Definition ltb (x y : Q) : bool := negb (Qle_bool y x).
Definition gtb (x y : Q) : bool := negb (Qle_bool x y).

Definition of_nat (n : nat) : Q := inject_Z (Z.of_nat n).

(** Python's [sum]: starts from 0 and adds from the left. *)
Definition sum (l : list Q) : Q := fold_left Qplus l 0.

(** [sum(l) / len(l)]; the source only divides after checking that the
    list is not empty. *)
Definition mean (l : list Q) : Q := sum l / of_nat (length l).

(** [l[-3:]] *)
Definition last3 {A : Type} (l : list A) : list A :=
  skipn (length l - 3) l.

(** Nearest integer, ties to even: Python's [round]. *)
Definition round_half_even (q : Q) : Z :=
  let f := Qfloor q in
  let r := q - inject_Z f in
  if ltb r (1 # 2) then f
  else if ltb (1 # 2) r then (f + 1)%Z
  else if Z.even f then f else (f + 1)%Z.

(** [round(q, 2)] *)
Definition round2 (q : Q) : Q := round_half_even (q * 100) # 100.

(** [min(l)] and [max(l)] of a list whose head is given apart. *)
Definition list_min (x : Q) (l : list Q) : Q := fold_left Qmin l x.
Definition list_max (x : Q) (l : list Q) : Q := fold_left Qmax l x.

(** [statistics.variance]: the sample variance, for two or more values. *)
Definition variance (l : list Q) : Q :=
  let m := mean l in
  sum (map (fun x => (x - m) * (x - m)) l) / of_nat (length l - 1).

(** [statistics.stdev(l)] *)
Definition stdev {R : Runtime} (l : list Q) : Q := py_sqrt (variance l).

End Num.

(* ===================================================================== *)
(** * Text *)
(* ===================================================================== *)

Module Text.

Definition code (c : ascii) : nat := nat_of_ascii c.

Definition is_lower (c : ascii) : bool := (97 <=? code c)%nat && (code c <=? 122)%nat.
Definition is_AZ (c : ascii) : bool := (65 <=? code c)%nat && (code c <=? 90)%nat.
Definition is_digit (c : ascii) : bool := (48 <=? code c)%nat && (code c <=? 57)%nat.

(** White space as [str.split()] and [str.strip()] see it, in ASCII. *)
Definition is_space (c : ascii) : bool :=
  ((9 <=? code c)%nat && (code c <=? 13)%nat)
  || ((28 <=? code c)%nat && (code c <=? 32)%nat).

Definition upper_char (c : ascii) : ascii :=
  if is_lower c then ascii_of_nat (code c - 32) else c.
Definition lower_char (c : ascii) : ascii :=
  if is_AZ c then ascii_of_nat (code c + 32) else c.

Fixpoint map_chars (f : ascii -> ascii) (s : string) : string :=
  match s with
  | EmptyString => EmptyString
  | String c r => String (f c) (map_chars f r)
  end.

(** [s.upper()], [s.lower()] *)
Definition upper : string -> string := map_chars upper_char.
Definition lower : string -> string := map_chars lower_char.

(** [needle in hay] *)
Fixpoint contains (needle hay : string) : bool :=
  String.prefix needle hay
  || match hay with
     | EmptyString => false
     | String _ r => contains needle r
     end.

(** [any(w in s for w in ws)] *)
Definition any_in (ws : list string) (s : string) : bool :=
  existsb (fun w => contains w s) ws.

(** [s.split()] *)
Fixpoint split (s : string) : list string :=
  match s with
  | EmptyString => []
  | String c r =>
      if is_space c then split r
      else match r with
           | EmptyString => [String c EmptyString]
           | String c' _ =>
               if is_space c' then String c EmptyString :: split r
               else match split r with
                    | h :: t => String c h :: t
                    | [] => [String c EmptyString]
                    end
           end
  end.

(** [s.split(sep)] for a one-character separator *)
Fixpoint split_on (sep : ascii) (s : string) : list string :=
  match s with
  | EmptyString => [EmptyString]
  | String c r =>
      if Ascii.eqb c sep then EmptyString :: split_on sep r
      else match split_on sep r with
           | h :: t => String c h :: t
           | [] => [String c EmptyString]
           end
  end.

(** [bool(s.strip())] *)
Fixpoint has_non_space (s : string) : bool :=
  match s with
  | EmptyString => false
  | String c r => negb (is_space c) || has_non_space r
  end.

Fixpoint drop_while (p : ascii -> bool) (s : string) : string :=
  match s with
  | EmptyString => EmptyString
  | String c r => if p c then drop_while p r else s
  end.

Definition starts_with (p : ascii -> bool) (s : string) : bool :=
  match s with
  | String c _ => p c
  | EmptyString => false
  end.

(** The pattern [[A-Z]+\d+] anchored at the head of [s]; the result is
    what follows the longest match.  Letters and digits are disjoint
    classes, so the longest match is the only one that can be continued
    by a character outside both. *)
Definition match_cell (s : string) : option string :=
  if starts_with is_AZ s then
    let s1 := drop_while is_AZ s in
    if starts_with is_digit s1 then Some (drop_while is_digit s1) else None
  else None.

(** The pattern [[A-Z]+\d+:[A-Z]+\d+] anchored at the head of [s]. *)
Definition match_range (s : string) : bool :=
  match match_cell s with
  | Some (String c r) =>
      Ascii.eqb c ":" && match match_cell r with Some _ => true | None => false end
  | _ => false
  end.

(** [re.search]: the anchored matcher tried at every position. *)
Fixpoint search (m : string -> bool) (s : string) : bool :=
  m s || match s with
         | EmptyString => false
         | String _ r => search m r
         end.

Definition search_cell (s : string) : bool :=
  search (fun t => match match_cell t with Some _ => true | None => false end) s.
Definition search_range (s : string) : bool := search match_range s.

End Text.

(* ===================================================================== *)
(** * Data models *)
(* ===================================================================== *)

(** A call that may raise. *)
Inductive result (A : Type) : Type :=
| Ok (a : A)
| Raise (exn : string).
Arguments Ok {A} a.
Arguments Raise {A} exn.

Module QuestionType.
Inductive t := FORMULA | DATA_ANALYSIS | PROBLEM_SOLVING | SCENARIO | PRACTICAL.
#[global] Instance eq_dec : EqDecision t.
Proof. solve_decision. Defined.
Definition value (x : t) : string :=
  match x with
  | FORMULA => "formula"
  | DATA_ANALYSIS => "data_analysis"
  | PROBLEM_SOLVING => "problem_solving"
  | SCENARIO => "scenario"
  | PRACTICAL => "practical"
  end.
End QuestionType.

Module QuestionDifficulty.
Inductive t := BASIC | INTERMEDIATE | ADVANCED.
#[global] Instance eq_dec : EqDecision t.
Proof. solve_decision. Defined.
Definition value (x : t) : string :=
  match x with
  | BASIC => "basic"
  | INTERMEDIATE => "intermediate"
  | ADVANCED => "advanced"
  end.
(** The call [QuestionDifficulty(s)]: a lookup by value, [ValueError]
    when no member has it. *)
Definition of_value (s : string) : result t :=
  if String.eqb s "basic" then Ok BASIC
  else if String.eqb s "intermediate" then Ok INTERMEDIATE
  else if String.eqb s "advanced" then Ok ADVANCED
  else Raise "ValueError".
(** [difficulty_order = [BASIC, INTERMEDIATE, ADVANCED]] with
    [difficulty_order.index] and [difficulty_order[i]]. *)
Definition index (x : t) : Z :=
  match x with BASIC => 0 | INTERMEDIATE => 1 | ADVANCED => 2 end.
Definition at_index (i : Z) : t :=
  if (i =? 0)%Z then BASIC else if (i =? 1)%Z then INTERMEDIATE else ADVANCED.
End QuestionDifficulty.

Module QuestionCategory.
Inductive t :=
  | BASIC_FUNCTIONS | ADVANCED_FUNCTIONS | DATA_MANIPULATION | PIVOT_TABLES
  | CHARTS_VISUALIZATION | CONDITIONAL_LOGIC | LOOKUP_FUNCTIONS
  | STATISTICAL_ANALYSIS | FINANCIAL_MODELING | AUTOMATION_MACROS.
#[global] Instance eq_dec : EqDecision t.
Proof. solve_decision. Defined.
End QuestionCategory.

Module InterviewStatus.
Inductive t := PENDING | IN_PROGRESS | COMPLETED | CANCELLED | PAUSED | EXPIRED.
#[global] Instance eq_dec : EqDecision t.
Proof. solve_decision. Defined.
End InterviewStatus.

Module SkillLevel.
Inductive t := BEGINNER | INTERMEDIATE | ADVANCED.
Definition value (x : t) : string :=
  match x with
  | BEGINNER => "beginner"
  | INTERMEDIATE => "intermediate"
  | ADVANCED => "advanced"
  end.
End SkillLevel.

Module HireRecommendation.
Inductive t := STRONG_HIRE | HIRE | CONDITIONAL_HIRE | NO_HIRE | STRONG_NO_HIRE.
#[global] Instance eq_dec : EqDecision t.
Proof. solve_decision. Defined.
End HireRecommendation.

Module SkillAssessment.
Inductive t := EXPERT | ADVANCED | INTERMEDIATE | BASIC | BEGINNER | INSUFFICIENT_DATA.
#[global] Instance eq_dec : EqDecision t.
Proof. solve_decision. Defined.
End SkillAssessment.

Module Models.

Local Open Scope Q_scope.

(** [ExcelQuestion]: the fields the services read, and the usage
    counters.  Keywords, sample answers, tags and time limits are
    descriptive only and are left out. *)
Record ExcelQuestion := {
  id : string;
  question_text : string;
  question_type : QuestionType.t;
  difficulty : QuestionDifficulty.t;
  category : option QuestionCategory.t;
  times_used : nat;
  average_score : option Q;
  pass_rate : option Q;
  average_response_time : option Q;
  is_active : bool
}.

(** [ExcelQuestion.update_usage_stats] *)
Definition update_usage_stats (q : ExcelQuestion) (score response_time : Q)
  : ExcelQuestion :=
  let times_used' := S (times_used q) in
  let n := Num.of_nat times_used' in
  let average_score' :=
    match average_score q with
    | None => score
    | Some a => (a * (n - 1) + score) / n
    end in
  let average_response_time' :=
    match average_response_time q with
    | None => response_time
    | Some a => (a * (n - 1) + response_time) / n
    end in
  let passing_threshold := 60 in
  let pass_rate' :=
    if Num.geb score passing_threshold then
      match pass_rate q with
      | None => 100
      | Some p =>
          let previous_passes := (p / 100) * (n - 1) in
          let new_passes := previous_passes + 1 in
          (new_passes / n) * 100
      end
    else
      match pass_rate q with
      | None => 0
      | Some p =>
          let previous_passes := (p / 100) * (n - 1) in
          (previous_passes / n) * 100
      end in
  {| id := id q;
     question_text := question_text q;
     question_type := question_type q;
     difficulty := difficulty q;
     category := category q;
     times_used := times_used';
     average_score := Some average_score';
     pass_rate := Some pass_rate';
     average_response_time := Some average_response_time';
     is_active := is_active q |}.

(** [EvaluationCriteria]: the five sub-scores. *)
Record EvaluationCriteria := {
  c_technical_accuracy : Q;
  c_communication_clarity : Q;
  c_problem_solving_approach : Q;
  c_completeness : Q;
  c_efficiency : Q
}.

(** [EvaluationCriteria.calculate_overall_score]: the weighted score of
    the model class.  No service calls it. *)
Definition calculate_overall_score (c : EvaluationCriteria) : Q :=
  let weighted_sum :=
    c_technical_accuracy c * (35 # 100) +
    c_communication_clarity c * (15 # 100) +
    c_problem_solving_approach c * (25 # 100) +
    c_completeness c * (15 # 100) +
    c_efficiency c * (10 # 100) in
  Num.round2 weighted_sum.

(** [Interview], as [start_interview] reads it. *)
Record Interview := {
  i_id : string;
  i_candidate_name : string;
  i_position : string;
  i_skill_level : SkillLevel.t
}.

End Models.

(* ===================================================================== *)
(** * The evaluation dictionary *)
(* ===================================================================== *)

Module Eval.

(** [technical_indicators], [communication_indicators],
    [completeness_indicators] *)
Record TechnicalIndicators := {
  mentions_formulas : bool;
  mentions_steps : bool;
  mentions_specific_functions : bool;
  mentions_cell_references : bool;
  mentions_ranges : bool
}.

Record CommunicationIndicators := {
  uses_explanation : bool;
  provides_examples : bool;
  structured_response : bool;
  appropriate_length : bool
}.

Record CompletenessIndicators := {
  addresses_how : bool;
  addresses_what : bool;
  addresses_when : bool;
  provides_alternatives : bool
}.

(** The dictionary [_perform_local_analysis] returns. *)
Record LocalAnalysis := {
  response_length : nat;
  word_count : nat;
  excel_functions_mentioned : list string;
  excel_concepts_mentioned : list string;
  keyword_density : Q;
  technical_indicators : TechnicalIndicators;
  communication_indicators : CommunicationIndicators;
  completeness_indicators : CompletenessIndicators
}.

(** The dictionary [_calculate_score_adjustments] returns. *)
Record Adjustments := {
  adj_technical_accuracy : Q;
  adj_communication_clarity : Q;
  adj_problem_solving_approach : Q;
  adj_completeness : Q;
  adj_efficiency : Q
}.

(** The evaluation dictionary.  The first ten keys are the ones the
    provider is asked for; the evaluator adds the others, so they are
    optional. *)
Record Evaluation := {
  technical_accuracy : Q;
  communication_clarity : Q;
  problem_solving_approach : Q;
  completeness : Q;
  efficiency : Q;
  overall_score : Q;
  feedback : string;
  strengths : list string;
  areas_for_improvement : list string;
  next_difficulty_level : string;
  local_analysis : option LocalAnalysis;
  score_adjustments : option Adjustments;
  confidence_score : option Q;
  evaluation_time : option Q;
  evaluation_method : option string
}.

(** The five sub-scores in the order of [score_fields]. *)
Definition sub_scores (e : Evaluation) : list Q :=
  [technical_accuracy e; communication_clarity e; problem_solving_approach e;
   completeness e; efficiency e].


(** [e["evaluation_method"] = m] and [e["evaluation_time"] = t] *)
Definition set_method (m : string) (e : Evaluation) : Evaluation :=
  {| technical_accuracy := technical_accuracy e;
     communication_clarity := communication_clarity e;
     problem_solving_approach := problem_solving_approach e;
     completeness := completeness e;
     efficiency := efficiency e;
     overall_score := overall_score e;
     feedback := feedback e;
     strengths := strengths e;
     areas_for_improvement := areas_for_improvement e;
     next_difficulty_level := next_difficulty_level e;
     local_analysis := local_analysis e;
     score_adjustments := score_adjustments e;
     confidence_score := confidence_score e;
     evaluation_time := evaluation_time e;
     evaluation_method := Some m |}.

Definition set_time (t : Q) (e : Evaluation) : Evaluation :=
  {| technical_accuracy := technical_accuracy e;
     communication_clarity := communication_clarity e;
     problem_solving_approach := problem_solving_approach e;
     completeness := completeness e;
     efficiency := efficiency e;
     overall_score := overall_score e;
     feedback := feedback e;
     strengths := strengths e;
     areas_for_improvement := areas_for_improvement e;
     next_difficulty_level := next_difficulty_level e;
     local_analysis := local_analysis e;
     score_adjustments := score_adjustments e;
     confidence_score := confidence_score e;
     evaluation_time := Some t;
     evaluation_method := evaluation_method e |}.

End Eval.

(* ===================================================================== *)
(** * services/llm_service.py *)
(* ===================================================================== *)

Module LLMService.

Import Eval.
Local Open Scope Q_scope.

(** A JSON value found under a score key: a number (Python's [bool] is
    an [int], so [true] and [false] count as 1 and 0), or anything
    else. *)
Inductive JValue :=
  | JNumber (q : Q)
  | JOther.

(** The object [json.loads] returned, read at the ten required keys.
    A key that is present under [feedback], [strengths],
    [areas_for_improvement] or [next_difficulty_level] is taken to
    carry a value of the type the prompt asks for. *)
Record ProviderJSON := {
  j_technical_accuracy : option JValue;
  j_communication_clarity : option JValue;
  j_problem_solving_approach : option JValue;
  j_completeness : option JValue;
  j_efficiency : option JValue;
  j_overall_score : option JValue;
  j_feedback : option string;
  j_strengths : option (list string);
  j_areas_for_improvement : option (list string);
  j_next_difficulty_level : option string
}.

(** What one call of [generate_response] followed by [json.loads] can
    come to. *)
Inductive ProviderOutcome :=
  | ProviderError                (* [generate_response] raises *)
  | ParseError                   (* [json.JSONDecodeError] *)
  | ParsedNonObject              (* valid JSON that is not an object *)
  | ParsedObject (j : ProviderJSON).

(** [_get_fallback_evaluation] *)
Definition base_scores (difficulty : string) : Q :=
  if String.eqb difficulty "basic" then 65
  else if String.eqb difficulty "intermediate" then 55
  else if String.eqb difficulty "advanced" then 45
  else 55.

Definition _get_fallback_evaluation (difficulty : string) : Evaluation :=
  let base_score := base_scores difficulty in
  {| technical_accuracy := base_score;
     communication_clarity := base_score;
     problem_solving_approach := base_score;
     completeness := base_score;
     efficiency := base_score;
     overall_score := base_score;
     feedback :=
       "Unable to fully evaluate response due to technical issues. Based on "
       ++ difficulty ++
       " level expectations, this appears to be a reasonable attempt. Please provide more specific Excel details for better assessment.";
     strengths :=
       ["Attempted to answer the question"; "Showed understanding of the problem"];
     areas_for_improvement :=
       ["Provide specific Excel formulas and functions";
        "Explain step-by-step process";
        "Include practical examples"];
     next_difficulty_level := difficulty;
     local_analysis := None;
     score_adjustments := None;
     confidence_score := None;
     evaluation_time := None;
     evaluation_method := None |}.

(** The loop over [score_fields]: a value that is not a number, or is
    outside [0, 100], is replaced. *)
Definition valid_score (v : JValue) : Q :=
  match v with
  | JNumber score =>
      if Num.ltb score 0 || Num.gtb score 100
      then Qmax 0 (Qmin 100 score)
      else score
  | JOther => Qmax 0 (Qmin 100 50)
  end.

(** The checks after [json.loads], on an object. *)
Definition validate (j : ProviderJSON) : result Evaluation :=
  match j_technical_accuracy j, j_communication_clarity j,
        j_problem_solving_approach j, j_completeness j, j_efficiency j,
        j_overall_score j, j_feedback j, j_strengths j,
        j_areas_for_improvement j, j_next_difficulty_level j with
  | Some ta, Some cc, Some ps, Some co, Some ef, Some _, Some fb, Some st,
    Some ar, Some nd =>
      let scores :=
        [valid_score ta; valid_score cc; valid_score ps; valid_score co;
         valid_score ef] in
      Ok {| technical_accuracy := valid_score ta;
            communication_clarity := valid_score cc;
            problem_solving_approach := valid_score ps;
            completeness := valid_score co;
            efficiency := valid_score ef;
            overall_score :=
              Num.round2 (Num.sum scores / Num.of_nat (length scores));
            feedback := fb;
            strengths := st;
            areas_for_improvement := ar;
            next_difficulty_level := nd;
            local_analysis := None;
            score_adjustments := None;
            confidence_score := None;
            evaluation_time := None;
            evaluation_method := None |}
  | _, _, _, _, _, _, _, _, _, _ => Raise "ValueError"
  end.

(** [evaluate_excel_response]: every exception of the [try] block ends
    in the fallback evaluation. *)
Definition evaluate_excel_response
    (question candidate_response difficulty : string)
    (outcome : ProviderOutcome) : Evaluation :=
  match outcome with
  | ProviderError => _get_fallback_evaluation difficulty
  | ParseError => _get_fallback_evaluation difficulty
  | ParsedNonObject => _get_fallback_evaluation difficulty
  | ParsedObject j =>
      match validate j with
      | Ok evaluation => evaluation
      | Raise _ => _get_fallback_evaluation difficulty
      end
  end.

End LLMService.

(* ===================================================================== *)
(** * services/excel_evaluator.py *)
(* ===================================================================== *)

Module ExcelEvaluator.

Import Eval.
Local Open Scope Q_scope.

(** [self.excel_functions], in the order of its three levels. *)
Definition excel_functions_basic : list string :=
  ["SUM"; "AVERAGE"; "COUNT"; "MIN"; "MAX"; "IF"; "ROUND"; "ABS";
   "TODAY"; "NOW"; "LEN"; "TRIM"; "UPPER"; "LOWER"; "CONCATENATE"].
Definition excel_functions_intermediate : list string :=
  ["VLOOKUP"; "HLOOKUP"; "INDEX"; "MATCH"; "COUNTIF"; "SUMIF"; "AVERAGEIF";
   "COUNTIFS"; "SUMIFS"; "AVERAGEIFS"; "IFERROR"; "IFNA"; "CHOOSE";
   "INDIRECT"; "OFFSET"; "LEFT"; "RIGHT"; "MID"; "FIND"; "SEARCH"; "SUBSTITUTE"].
Definition excel_functions_advanced : list string :=
  ["XLOOKUP"; "FILTER"; "SORT"; "UNIQUE"; "SEQUENCE"; "LAMBDA";
   "POWER QUERY"; "PIVOT"; "DAX"; "SOLVER"; "GOAL SEEK";
   "ARRAY"; "SPILL"; "DYNAMIC"; "POWER PIVOT"].

(** [self.excel_concepts] *)
Definition excel_concepts : list string :=
  ["cell reference"; "relative reference"; "absolute reference"; "mixed reference";
   "range"; "worksheet"; "workbook"; "formula bar"; "name box";
   "conditional formatting"; "data validation"; "pivot table"; "chart";
   "filter"; "sort"; "freeze panes"; "split"; "macro"; "VBA"].

Definition count_true (l : list bool) : nat :=
  length (List.filter (fun b => b) l).

(** [_perform_local_analysis].  [excel_functions_mentioned] is
    [list(set(mentioned_functions))] in the source: the functions are
    pairwise distinct, so it is [mentioned_functions] in some order. *)
Definition _perform_local_analysis
    (question response difficulty question_type : string) : LocalAnalysis :=
  let word_count := length (Text.split response) in
  let response_upper := Text.upper response in
  let response_lower := Text.lower response in
  let all_functions :=
    (excel_functions_basic ++ excel_functions_intermediate
     ++ excel_functions_advanced)%list in
  let mentioned_functions :=
    List.filter (fun func => Text.contains (Text.upper func) response_upper)
                all_functions in
  let mentioned_concepts :=
    List.filter (fun concept => Text.contains (Text.lower concept) response_lower)
                excel_concepts in
  let total_keywords := (length mentioned_functions + length mentioned_concepts)%nat in
  {| response_length := String.length response;
     word_count := word_count;
     excel_functions_mentioned := mentioned_functions;
     excel_concepts_mentioned := mentioned_concepts;
     keyword_density :=
       if (0 <? word_count)%nat
       then Num.of_nat total_keywords / Num.of_nat word_count
       else 0;
     technical_indicators :=
       {| mentions_formulas :=
            Text.any_in ["formula"; "function"; "="] response_lower;
          mentions_steps :=
            Text.any_in ["first"; "then"; "next"; "step"] response_lower;
          mentions_specific_functions := (0 <? length mentioned_functions)%nat;
          mentions_cell_references := Text.search_cell (Text.upper response);
          mentions_ranges :=
            Text.contains ":" response
            && Text.search_range (Text.upper response) |};
     communication_indicators :=
       {| uses_explanation :=
            Text.any_in ["because"; "since"; "therefore"; "so that"] response_lower;
          provides_examples :=
            Text.any_in ["example"; "for instance"; "such as"] response_lower;
          structured_response :=
            (2 <? length (List.filter Text.has_non_space
                                      (Text.split_on "." response)))%nat;
          appropriate_length :=
            (20 <=? word_count)%nat && (word_count <=? 200)%nat |};
     completeness_indicators :=
       {| addresses_how :=
            Text.any_in ["how"; "method"; "approach"; "way"] response_lower;
          addresses_what :=
            Text.any_in ["what"; "which"; "function"; "feature"] response_lower;
          addresses_when :=
            Text.any_in ["when"; "situation"; "case"] response_lower;
          provides_alternatives :=
            Text.any_in ["alternatively"; "also"; "another"; "or"] response_lower |}
  |}.

(** [_calculate_score_adjustments] *)
Definition _calculate_score_adjustments
    (analysis : LocalAnalysis) (difficulty : string) : Adjustments :=
  let tech_indicators := technical_indicators analysis in
  let comm_indicators := communication_indicators analysis in
  let comp_indicators := completeness_indicators analysis in
  let technical :=
    0 + (if mentions_specific_functions tech_indicators then 5 else 0)
      + (if mentions_cell_references tech_indicators then 3 else 0)
      + (if mentions_ranges tech_indicators then 2 else 0) in
  let communication :=
    0 + (if uses_explanation comm_indicators then 4 else 0)
      + (if provides_examples comm_indicators then 3 else 0)
      + (if structured_response comm_indicators then 2 else 0)
      - (if negb (appropriate_length comm_indicators) then 5 else 0) in
  let problem_solving :=
    0 + (if mentions_steps tech_indicators then 4 else 0)
      + (if Num.gtb (keyword_density analysis) (1 # 10) then 2 else 0) in
  let completeness_score :=
    Num.of_nat (count_true [addresses_how comp_indicators;
                            addresses_what comp_indicators;
                            addresses_when comp_indicators;
                            provides_alternatives comp_indicators]) * 2 in
  {| adj_technical_accuracy := technical;
     adj_communication_clarity := communication;
     adj_problem_solving_approach := problem_solving;
     adj_completeness := 0 + completeness_score;
     adj_efficiency := 0 |}.

(** [_calculate_confidence] *)
Definition _calculate_confidence (analysis : LocalAnalysis) : Q :=
  let word_count := word_count analysis in
  let length_factor :=
    if (30 <=? word_count)%nat && (word_count <=? 150)%nat then 9 # 10
    else if (15 <=? word_count)%nat && (word_count <=? 200)%nat then 7 # 10
    else 5 # 10 in
  let content_factor :=
    if (0 <? length (excel_functions_mentioned analysis))%nat
    then 8 # 10 else 6 # 10 in
  let confidence_factors := [length_factor; content_factor] in
  Num.round2 (Num.sum confidence_factors / Num.of_nat (length confidence_factors)).

(** One pass of the loop of [_enhance_evaluation]:
    [max(0, min(100, original + min(15, max(-15, adjustment))))]. *)
Definition adjust (original_score adjustment : Q) : Q :=
  let adjusted_score := original_score + Qmin 15 (Qmax (-15) adjustment) in
  Qmax 0 (Qmin 100 adjusted_score).

(** [_enhance_evaluation] *)
Definition _enhance_evaluation
    (ai_evaluation : Evaluation) (local_analysis : LocalAnalysis)
    (question response difficulty : string) : Evaluation :=
  let adjustments := _calculate_score_adjustments local_analysis difficulty in
  let ta := adjust (technical_accuracy ai_evaluation) (adj_technical_accuracy adjustments) in
  let cc := adjust (communication_clarity ai_evaluation) (adj_communication_clarity adjustments) in
  let ps := adjust (problem_solving_approach ai_evaluation) (adj_problem_solving_approach adjustments) in
  let co := adjust (completeness ai_evaluation) (adj_completeness adjustments) in
  let ef := adjust (efficiency ai_evaluation) (adj_efficiency adjustments) in
  let scores := [ta; cc; ps; co; ef] in
  {| technical_accuracy := ta;
     communication_clarity := cc;
     problem_solving_approach := ps;
     completeness := co;
     efficiency := ef;
     overall_score := Num.round2 (Num.sum scores / Num.of_nat (length scores));
     feedback := feedback ai_evaluation;
     strengths := strengths ai_evaluation;
     areas_for_improvement := areas_for_improvement ai_evaluation;
     next_difficulty_level := next_difficulty_level ai_evaluation;
     local_analysis := Some local_analysis;
     score_adjustments := Some adjustments;
     confidence_score := Some (_calculate_confidence local_analysis);
     evaluation_time := evaluation_time ai_evaluation;
     evaluation_method := evaluation_method ai_evaluation |}.

(** [_get_fallback_evaluation]: what [evaluate_response] returns from
    its [except] branch.  With text arguments nothing inside its [try]
    block raises, so [evaluate_response] below never gets there. *)
Definition _get_fallback_evaluation (difficulty question_type : string)
  : Evaluation :=
  let base_score :=
    if String.eqb difficulty "basic" then 60
    else if String.eqb difficulty "intermediate" then 50
    else if String.eqb difficulty "advanced" then 40
    else 50 in
  {| technical_accuracy := base_score;
     communication_clarity := base_score - 5;
     problem_solving_approach := base_score;
     completeness := base_score - 10;
     efficiency := base_score - 5;
     overall_score := base_score - 5;
     feedback :=
       "Unable to fully evaluate response due to technical issues. Based on "
       ++ difficulty ++
       " level expectations, this appears to be a reasonable attempt. Please provide more specific Excel details for better assessment.";
     strengths := ["Attempted to answer the question"];
     areas_for_improvement :=
       ["Provide specific Excel formulas and functions";
        "Explain step-by-step process clearly";
        "Include practical examples and use cases"];
     next_difficulty_level := difficulty;
     local_analysis := None;
     score_adjustments := None;
     confidence_score := Some (3 # 10);
     evaluation_time := None;
     evaluation_method := Some "fallback" |}.

(** The key [f"{hash(question)}_{hash(response)}_{difficulty}"]: the
    two integers contain no underscore, so the text determines the
    triple and the triple is used as the key. *)
Definition CacheKey : Type := Z * Z * string.

Definition _generate_cache_key {R : Runtime}
    (question response difficulty : string) : CacheKey :=
  (py_hash question, py_hash response, difficulty).

(** The evaluator object: [evaluation_cache] and [evaluation_count]
    (the running average of the evaluation time is left out). *)
Record Evaluator := {
  evaluation_cache : gmap (Z * Z * string) Evaluation;
  evaluation_count : nat
}.

(** [evaluate_response].  [outcome] is what the provider call of this
    evaluation comes to (it is not consulted on a cache hit) and
    [elapsed] what the clock measures. *)
Definition evaluate_response {R : Runtime}
    (ev : Evaluator)
    (question_text candidate_response difficulty question_type : string)
    (outcome : LLMService.ProviderOutcome) (elapsed : Q)
  : Evaluator * Evaluation :=
  let cache_key := _generate_cache_key question_text candidate_response difficulty in
  match evaluation_cache ev !! cache_key with
  | Some cached_result => (ev, set_method "cached" cached_result)
  | None =>
      let local_analysis :=
        _perform_local_analysis question_text candidate_response difficulty
                                question_type in
      let ai_evaluation :=
        LLMService.evaluate_excel_response question_text candidate_response
                                           difficulty outcome in
      let enhanced_evaluation :=
        _enhance_evaluation ai_evaluation local_analysis question_text
                            candidate_response difficulty in
      ({| evaluation_cache := <[cache_key := enhanced_evaluation]> (evaluation_cache ev);
          evaluation_count := S (evaluation_count ev) |},
       set_method "ai_enhanced" (set_time elapsed enhanced_evaluation))
  end.



End ExcelEvaluator.

(* ===================================================================== *)
(** * services/question_bank.py *)
(* ===================================================================== *)

Module QuestionBankService.

Import Models.
Local Open Scope Q_scope.

Definition mk_question (i text : string) (ty : QuestionType.t)
    (d : QuestionDifficulty.t) (c : QuestionCategory.t) : ExcelQuestion :=
  {| id := i; question_text := text; question_type := ty; difficulty := d;
     category := Some c; times_used := 0; average_score := None;
     pass_rate := None; average_response_time := None; is_active := true |}.

(** [_load_questions]: the catalogue of the source. *)
Definition questions_data : list ExcelQuestion :=
  [
   mk_question "basic_001"
     "How would you calculate the sum of values in cells A1 to A10?"
     QuestionType.FORMULA QuestionDifficulty.BASIC QuestionCategory.BASIC_FUNCTIONS;
   mk_question "basic_002"
     "Explain how to create a basic pivot table from a data set."
     QuestionType.DATA_ANALYSIS QuestionDifficulty.BASIC QuestionCategory.PIVOT_TABLES;
   mk_question "basic_003"
     "How do you use VLOOKUP to find a value in another table?"
     QuestionType.FORMULA QuestionDifficulty.BASIC QuestionCategory.LOOKUP_FUNCTIONS;
   mk_question "basic_004"
     "How would you apply conditional formatting to highlight cells based on their values?"
     QuestionType.DATA_ANALYSIS QuestionDifficulty.BASIC QuestionCategory.DATA_MANIPULATION;
   mk_question "basic_005"
     "What is the difference between relative and absolute cell references?"
     QuestionType.FORMULA QuestionDifficulty.BASIC QuestionCategory.BASIC_FUNCTIONS;
   mk_question "inter_001"
     "You have sales data with duplicate entries. How would you identify and remove duplicates while preserving the most recent record?"
     QuestionType.DATA_ANALYSIS QuestionDifficulty.INTERMEDIATE QuestionCategory.DATA_MANIPULATION;
   mk_question "inter_002"
     "Explain INDEX-MATCH combination and when you'd use it over VLOOKUP."
     QuestionType.FORMULA QuestionDifficulty.INTERMEDIATE QuestionCategory.LOOKUP_FUNCTIONS;
   mk_question "inter_003"
     "How would you create a dynamic dashboard that updates when new data is added?"
     QuestionType.SCENARIO QuestionDifficulty.INTERMEDIATE QuestionCategory.DATA_MANIPULATION;
   mk_question "inter_004"
     "Describe how to use data validation to create dropdown lists and prevent invalid data entry."
     QuestionType.DATA_ANALYSIS QuestionDifficulty.INTERMEDIATE QuestionCategory.DATA_MANIPULATION;
   mk_question "inter_005"
     "How would you use COUNTIFS and SUMIFS for multi-criteria analysis?"
     QuestionType.FORMULA QuestionDifficulty.INTERMEDIATE QuestionCategory.CONDITIONAL_LOGIC;
   mk_question "adv_001"
     "You need to analyze sales performance across multiple dimensions (time, region, product) with complex calculations. Describe your approach using advanced Excel features."
     QuestionType.PROBLEM_SOLVING QuestionDifficulty.ADVANCED QuestionCategory.STATISTICAL_ANALYSIS;
   mk_question "adv_002"
     "Describe how you'd build an automated financial model that handles scenario analysis and sensitivity testing."
     QuestionType.PRACTICAL QuestionDifficulty.ADVANCED QuestionCategory.FINANCIAL_MODELING;
   mk_question "adv_003"
     "You have messy data from multiple sources that needs cleaning and standardization before analysis. Walk through your process."
     QuestionType.DATA_ANALYSIS QuestionDifficulty.ADVANCED QuestionCategory.DATA_MANIPULATION;
   mk_question "adv_004"
     "How would you implement array formulas or dynamic arrays to perform complex calculations across multiple ranges?"
     QuestionType.FORMULA QuestionDifficulty.ADVANCED QuestionCategory.ADVANCED_FUNCTIONS;
   mk_question "adv_005"
     "Explain how you would create a real-time executive dashboard that pulls data from multiple databases and updates automatically."
     QuestionType.SCENARIO QuestionDifficulty.ADVANCED QuestionCategory.AUTOMATION_MACROS
  ].

(** [x in l] on a list of identifiers *)
Definition mem (x : string) (l : list string) : bool :=
  existsb (String.eqb x) l.

(** [random.choice] on a list that is not empty; [pick] stands for the
    generator's draw. *)
Definition choice {A : Type} (pick : nat) (l : list A) : option A :=
  nth_error l (pick mod length l).

(** [get_question_by_id] *)
Definition get_question_by_id (questions : list ExcelQuestion)
    (question_id : string) : option ExcelQuestion :=
  List.find (fun q => String.eqb (id q) question_id) questions.

(** [get_random_question] *)
Definition get_random_question (questions : list ExcelQuestion)
    (difficulty : option QuestionDifficulty.t)
    (question_type : option QuestionType.t)
    (category : option QuestionCategory.t)
    (exclude_ids : list string) (pick : nat) : option ExcelQuestion :=
  let filtered0 := List.filter is_active questions in
  let filtered1 :=
    match difficulty with
    | Some d =>
        List.filter (fun q => bool_decide (Models.difficulty q = d)) filtered0
    | None => filtered0
    end in
  let filtered2 :=
    match question_type with
    | Some t =>
        List.filter (fun q => bool_decide (Models.question_type q = t)) filtered1
    | None => filtered1
    end in
  let filtered3 :=
    match category with
    | Some c =>
        List.filter (fun q => bool_decide (Models.category q = Some c)) filtered2
    | None => filtered2
    end in
  let filtered_questions :=
    match exclude_ids with
    | [] => filtered3
    | _ :: _ => List.filter (fun q => negb (mem (id q) exclude_ids)) filtered3
    end in
  match filtered_questions with
  | [] => None
  | _ :: _ => choice pick filtered_questions
  end.

(** The first part of [get_adaptive_question]: the value of its local
    [target_difficulty]. *)
Definition target_difficulty (current_difficulty : string)
    (previous_scores : list Q) : result QuestionDifficulty.t :=
  match previous_scores with
  | _ :: _ =>
      let recent_scores := Num.last3 previous_scores in
      let avg_recent_score :=
        Num.sum recent_scores / Num.of_nat (length recent_scores) in
      if Num.geb avg_recent_score 85 then Ok QuestionDifficulty.ADVANCED
      else if Num.geb avg_recent_score 70 then Ok QuestionDifficulty.INTERMEDIATE
      else if Num.geb avg_recent_score 50 then
        QuestionDifficulty.of_value current_difficulty
      else
        match QuestionDifficulty.of_value current_difficulty with
        | Ok current =>
            let current_index := QuestionDifficulty.index current in
            Ok (QuestionDifficulty.at_index (Z.max 0 (current_index - 1)))
        | Raise exn => Raise exn
        end
  | [] => QuestionDifficulty.of_value current_difficulty
  end.

(** The loop [for offset in [-1, 1, -2, 2]] of
    [get_adaptive_question]. *)
Fixpoint try_offsets (questions : list ExcelQuestion) (current_index : Z)
    (asked_question_ids : list string) (pick : nat) (offsets : list Z)
  : option ExcelQuestion :=
  match offsets with
  | [] => None
  | offset :: rest =>
      let new_index := (current_index + offset)%Z in
      if (0 <=? new_index)%Z && (new_index <? 3)%Z then
        match get_random_question questions
                (Some (QuestionDifficulty.at_index new_index)) None None
                asked_question_ids pick with
        | Some question => Some question
        | None => try_offsets questions current_index asked_question_ids pick rest
        end
      else try_offsets questions current_index asked_question_ids pick rest
  end.

(** [get_adaptive_question].  [pick_type] is the draw among
    [preferred_types], [pick] the draw among the candidates. *)
Definition get_adaptive_question (questions : list ExcelQuestion)
    (current_difficulty : string) (previous_scores : list Q)
    (asked_question_ids : list string)
    (preferred_types : list QuestionType.t) (pick_type pick : nat)
  : result (option ExcelQuestion) :=
  match target_difficulty current_difficulty previous_scores with
  | Raise exn => Raise exn
  | Ok target =>
      let question :=
        get_random_question questions (Some target)
          (match preferred_types with
           | [] => None
           | _ :: _ => choice pick_type preferred_types
           end)
          None asked_question_ids pick in
      match question with
      | Some q => Ok (Some q)
      | None =>
          let current_index := QuestionDifficulty.index target in
          Ok (try_offsets questions current_index asked_question_ids pick
                          [-1; 1; -2; 2]%Z)
      end
  end.

(** [update_question_stats]: the counters of the first question with
    that identifier are updated in place. *)
Fixpoint update_question_stats (questions : list ExcelQuestion)
    (question_id : string) (score response_time : Q) : list ExcelQuestion :=
  match questions with
  | [] => []
  | q :: rest =>
      if String.eqb (id q) question_id
      then update_usage_stats q score response_time :: rest
      else q :: update_question_stats rest question_id score response_time
  end.

End QuestionBankService.

(* ===================================================================== *)
(** * services/feedback_engine.py *)
(* ===================================================================== *)

Module FeedbackEngine.

Import Eval.
Local Open Scope Q_scope.

(** One entry of [state["responses"]] ([response_data] of
    [process_response]). *)
Record ResponseData := {
  question_id : string;
  question_text : string;
  candidate_response : string;
  evaluation : Evaluation;
  response_time : Q
}.

(** The dictionary of [_calculate_performance_statistics].  The keys
    that some of its producers leave out are optional. *)
Record Stats := {
  s_overall_score : Q;
  s_dimension_averages : list (string * Q);
  s_consistency : option Q;
  s_performance_trend : option Q;
  s_score_range : option (Q * Q * Q)
}.

(** [d.get(key, default)] on a dictionary kept as an association list *)
Fixpoint get (d : list (string * Q)) (key : string) (default : Q) : Q :=
  match d with
  | [] => default
  | (k, v) :: rest => if String.eqb k key then v else get rest key default
  end.

(** [_calculate_performance_statistics] *)
Definition _calculate_performance_statistics {R : Runtime}
    (responses : list ResponseData) : Stats :=
  match responses with
  | [] =>
      {| s_overall_score := 0;
         s_dimension_averages := [];
         s_consistency := Some 0;
         s_performance_trend := None;
         s_score_range := None |}
  | _ :: _ =>
      let all_scores := map (fun r => overall_score (evaluation r)) responses in
      let dimension_scores :=
        [("technical_accuracy", map (fun r => technical_accuracy (evaluation r)) responses);
         ("communication_clarity", map (fun r => communication_clarity (evaluation r)) responses);
         ("problem_solving_approach", map (fun r => problem_solving_approach (evaluation r)) responses);
         ("completeness", map (fun r => completeness (evaluation r)) responses);
         ("efficiency", map (fun r => efficiency (evaluation r)) responses)] in
      let overall_score := Num.mean all_scores in
      let dimension_averages :=
        map (fun '(dim, scores) => (dim, Num.mean scores)) dimension_scores in
      let consistency :=
        100 - Qmin (if (1 <? length all_scores)%nat
                    then Num.stdev all_scores else 0) 25 in
      let trend :=
        if (3 <=? length all_scores)%nat then
          let first_half := firstn (length all_scores / 2) all_scores in
          let second_half := skipn (length all_scores / 2) all_scores in
          Num.mean second_half - Num.mean first_half
        else 0 in
      let lo := Num.list_min (hd 0 all_scores) (tl all_scores) in
      let hi := Num.list_max (hd 0 all_scores) (tl all_scores) in
      {| s_overall_score := Num.round2 overall_score;
         s_dimension_averages :=
           map (fun '(k, v) => (k, Num.round2 v)) dimension_averages;
         s_consistency := Some (Num.round2 consistency);
         s_performance_trend := Some (Num.round2 trend);
         s_score_range := Some (lo, hi, hi - lo) |}
  end.

(** The table [question_categories] of [_analyze_category_performance] *)
Definition question_categories (question_id : string) : string :=
  if String.eqb question_id "basic_001" then "Basic Functions"
  else if String.eqb question_id "basic_002" then "Pivot Tables"
  else if String.eqb question_id "basic_003" then "Lookup Functions"
  else if String.eqb question_id "basic_004" then "Data Manipulation"
  else if String.eqb question_id "basic_005" then "Basic Functions"
  else if String.eqb question_id "inter_001" then "Data Manipulation"
  else if String.eqb question_id "inter_002" then "Lookup Functions"
  else if String.eqb question_id "inter_003" then "Data Manipulation"
  else if String.eqb question_id "inter_004" then "Data Manipulation"
  else if String.eqb question_id "inter_005" then "Conditional Logic"
  else if String.eqb question_id "adv_001" then "Statistical Analysis"
  else if String.eqb question_id "adv_002" then "Financial Modeling"
  else if String.eqb question_id "adv_003" then "Data Manipulation"
  else if String.eqb question_id "adv_004" then "Advanced Functions"
  else if String.eqb question_id "adv_005" then "Automation"
  else "General".

(** [category_scores[category].append(score)], the dictionary in
    insertion order *)
Fixpoint append_score (d : list (string * list Q)) (category : string)
    (score : Q) : list (string * list Q) :=
  match d with
  | [] => [(category, [score])]
  | (k, scores) :: rest =>
      if String.eqb k category then (k, (scores ++ [score])%list) :: rest
      else (k, scores) :: append_score rest category score
  end.

Record CategoryAnalysis := {
  category_scores : list (string * Q);
  strongest_category : string * Q;
  weakest_category : string * Q;
  categories_above_threshold : list string;
  categories_needing_improvement : list string
}.

(** [max(items, key=...)] and [min(items, key=...)]: the first item
    with the greatest (least) value. *)
Definition max_item (x : string * Q) (l : list (string * Q)) : string * Q :=
  fold_left (fun best y => if Num.gtb (snd y) (snd best) then y else best) l x.
Definition min_item (x : string * Q) (l : list (string * Q)) : string * Q :=
  fold_left (fun best y => if Num.ltb (snd y) (snd best) then y else best) l x.

(** [_analyze_category_performance] *)
Definition _analyze_category_performance (responses : list ResponseData)
  : CategoryAnalysis :=
  let category_scores :=
    fold_left
      (fun d r => append_score d (question_categories (question_id r))
                               (overall_score (evaluation r)))
      responses [] in
  let category_averages :=
    map (fun '(c, scores) => (c, Num.round2 (Num.mean scores))) category_scores in
  {| category_scores := category_averages;
     strongest_category :=
       match category_averages with
       | x :: rest => max_item x rest
       | [] => ("General", 0)
       end;
     weakest_category :=
       match category_averages with
       | x :: rest => min_item x rest
       | [] => ("General", 0)
       end;
     categories_above_threshold :=
       map fst (List.filter (fun '(_, score) => Num.geb score 70) category_averages);
     categories_needing_improvement :=
       map fst (List.filter (fun '(_, score) => Num.ltb score 60) category_averages) |}.

(** [_determine_skill_level] *)
Definition _determine_skill_level (overall_score : Q) : SkillAssessment.t :=
  if Num.geb overall_score 90 then SkillAssessment.EXPERT
  else if Num.geb overall_score 80 then SkillAssessment.ADVANCED
  else if Num.geb overall_score 65 then SkillAssessment.INTERMEDIATE
  else if Num.geb overall_score 45 then SkillAssessment.BASIC
  else if Num.geb overall_score 25 then SkillAssessment.BEGINNER
  else SkillAssessment.INSUFFICIENT_DATA.

(** [_determine_hire_recommendation] *)
Definition _determine_hire_recommendation (overall_score : Q) (stats : Stats)
  : HireRecommendation.t :=
  let consistency := default 0 (s_consistency stats) in
  let trend := default 0 (s_performance_trend stats) in
  if Num.geb overall_score 85 && Num.geb consistency 70
  then HireRecommendation.STRONG_HIRE
  else if Num.geb overall_score 75 && Num.geb consistency 60
  then HireRecommendation.HIRE
  else if Num.geb overall_score 60 && (Num.geb consistency 50 || Num.gtb trend 5)
  then HireRecommendation.CONDITIONAL_HIRE
  else if Num.geb overall_score 40
  then HireRecommendation.NO_HIRE
  else HireRecommendation.STRONG_NO_HIRE.

(** [_get_default_feedback] *)
Definition _get_default_feedback (overall_score : Q) : string :=
  if Num.geb overall_score 80 then
    "Demonstrates strong Excel proficiency with good technical knowledge and problem-solving abilities. Continue building advanced skills through practical application."
  else if Num.geb overall_score 60 then
    "Shows solid understanding of Excel fundamentals with room for improvement in advanced features. Focus on expanding formula knowledge and data analysis techniques."
  else
    "Basic Excel knowledge demonstrated but significant improvement needed. Recommend comprehensive Excel training covering core functions, formulas, and data management.".

(** [_generate_detailed_feedback]: [narrative] is the stripped text of
    the provider, [None] when the call (or reading its result)
    raises. *)
Definition _generate_detailed_feedback (responses : list ResponseData)
    (stats : Stats) (narrative : option string) : string :=
  match narrative with
  | Some text => text
  | None => _get_default_feedback (s_overall_score stats)
  end.

(** [_generate_recommendations]; [stats["consistency"]] is a plain
    subscript and raises when the key is missing. *)
Definition _generate_recommendations (category_analysis : CategoryAnalysis)
    (stats : Stats) : result (list string) :=
  let r1 :=
    if Num.ltb (s_overall_score stats) 70
    then ["Focus on Excel fundamentals including basic formulas and functions"]
    else [] in
  let r2 :=
    if Num.ltb (get (s_dimension_averages stats) "technical_accuracy" 0) 60
    then ["Practice Excel formula syntax and function usage"]
    else [] in
  let r3 :=
    if Num.ltb (get (s_dimension_averages stats) "communication_clarity" 0) 60
    then ["Improve ability to explain Excel processes clearly and logically"]
    else [] in
  let r4 :=
    flat_map
      (fun category =>
         if String.eqb category "Lookup Functions"
         then ["Study VLOOKUP, INDEX-MATCH, and XLOOKUP functions"]
         else if String.eqb category "Pivot Tables"
         then ["Practice creating and customizing pivot tables"]
         else if String.eqb category "Data Manipulation"
         then ["Learn data cleaning and transformation techniques"]
         else if String.eqb category "Advanced Functions"
         then ["Explore array formulas and dynamic functions"]
         else [])
      (categories_needing_improvement category_analysis) in
  match s_consistency stats with
  | None => Raise "KeyError"
  | Some consistency =>
      let r5 :=
        if Num.ltb consistency 60
        then ["Focus on consistent application of Excel knowledge across different scenarios"]
        else [] in
      let recommendations := (r1 ++ r2 ++ r3 ++ r4 ++ r5)%list in
      match recommendations with
      | [] => Ok ["Continue practicing Excel skills in business contexts"]
      | _ :: _ => Ok (firstn 5 recommendations)
      end
  end.

(** The final assessment dictionary.  Keys that [_get_default_assessment]
    leaves out are optional.  The presentation keys ([executive_summary],
    [strengths_summary], [improvement_areas], [readiness_assessment],
    [benchmarking], dates and durations) are not carried, and an entry
    of [question_scores] is kept as the question's identifier with its
    score. *)
Record FinalAssessment := {
  a_interview_id : option string;
  a_overall_score : Q;
  a_skill_level_assessment : SkillAssessment.t;
  a_hire_recommendation : HireRecommendation.t;
  a_category_scores : option (list (string * Q));
  a_dimension_scores : option (list (string * Q));
  a_question_scores : option (list (string * Q));
  a_detailed_feedback : string;
  a_recommendations : list string;
  a_statistics : Stats;
  a_total_questions : nat
}.

(** [_get_default_assessment] *)
Definition _get_default_assessment (error_message : string) : FinalAssessment :=
  {| a_interview_id := None;
     a_overall_score := 0;
     a_skill_level_assessment := SkillAssessment.INSUFFICIENT_DATA;
     a_hire_recommendation := HireRecommendation.NO_HIRE;
     a_category_scores := None;
     a_dimension_scores := None;
     a_question_scores := None;
     a_detailed_feedback :=
       "Assessment could not be completed: " ++ error_message;
     a_recommendations := ["Complete technical assessment required"];
     a_statistics :=
       {| s_overall_score := 0;
          s_dimension_averages := [];
          s_consistency := None;
          s_performance_trend := None;
          s_score_range := None |};
     a_total_questions := 0 |}.

(** [generate_final_assessment] *)
Definition generate_final_assessment {R : Runtime}
    (interview_id : string) (responses : list ResponseData)
    (narrative : option string) : FinalAssessment :=
  match responses with
  | [] => _get_default_assessment "No responses provided"
  | _ :: _ =>
      let stats := _calculate_performance_statistics responses in
      let category_analysis := _analyze_category_performance responses in
      let skill_level := _determine_skill_level (s_overall_score stats) in
      let hire_recommendation :=
        _determine_hire_recommendation (s_overall_score stats) stats in
      let detailed_feedback :=
        _generate_detailed_feedback responses stats narrative in
      match _generate_recommendations category_analysis stats with
      | Raise exn =>
          _get_default_assessment ("Error generating assessment: " ++ exn)
      | Ok recommendations =>
          {| a_interview_id := Some interview_id;
             a_overall_score := s_overall_score stats;
             a_skill_level_assessment := skill_level;
             a_hire_recommendation := hire_recommendation;
             a_category_scores := Some (category_scores category_analysis);
             a_dimension_scores := Some (s_dimension_averages stats);
             a_question_scores :=
               Some (map (fun r => (question_id r, overall_score (evaluation r)))
                         responses);
             a_detailed_feedback := detailed_feedback;
             a_recommendations := recommendations;
             a_statistics := stats;
             a_total_questions := length responses |}
      end
  end.

(** [_calculate_percentile] *)
Definition _calculate_percentile (score : Q) : Z :=
  if Num.geb score 90 then 95
  else if Num.geb score 80 then 80
  else if Num.geb score 70 then 65
  else if Num.geb score 60 then 45
  else if Num.geb score 50 then 30
  else if Num.geb score 40 then 20
  else 10.

(** The dictionary of [_assess_role_readiness] *)
Record Readiness := {
  data_entry : string;
  financial_analyst : string;
  data_analyst : string;
  administrative : string
}.

(** [_assess_role_readiness] *)
Definition _assess_role_readiness (overall_score : Q)
    (category_analysis : CategoryAnalysis) : Readiness :=
  {| data_entry :=
       if Num.geb overall_score 50 then "Ready" else "Needs training";
     financial_analyst :=
       if Num.geb overall_score 70
          && QuestionBankService.mem "Financial Modeling"
               (categories_above_threshold category_analysis)
       then "Ready"
       else if Num.geb overall_score 60 then "Ready with training"
       else "Needs significant training";
     data_analyst :=
       if Num.geb overall_score 75
          && (3 <=? length (categories_above_threshold category_analysis))%nat
       then "Ready"
       else if Num.geb overall_score 65 then "Ready with training"
       else "Needs significant training";
     administrative :=
       if Num.geb overall_score 55 then "Ready" else "Needs basic training" |}.

End FeedbackEngine.

(* ===================================================================== *)
(** * services/conversation_manager.py and utils/state_manager.py *)
(* ===================================================================== *)

Module ConversationManager.

Import Models Eval FeedbackEngine.
Local Open Scope Q_scope.

(** One message of [conversation_history]. *)
Record Message := { role : string; content : string }.

(** The session dictionary kept by the state manager.
    [current_question] is the dictionary of the question being asked,
    absent until the first question is attached. *)
Record InterviewState := {
  interview_id : string;
  candidate_name : string;
  position : string;
  skill_level : string;
  status : InterviewStatus.t;
  current_question_index : nat;
  questions_asked : list string;
  responses : list ResponseData;
  scores : list Q;
  current_difficulty : string;
  conversation_history : list Message;
  current_question : option ExcelQuestion;
  final_assessment : option FinalAssessment
}.

(** The services and the store, as one value. *)
Record World := {
  store : gmap string InterviewState;
  questions : list ExcelQuestion;
  evaluator : ExcelEvaluator.Evaluator
}.

(** What the outside contributes to one request. *)
Record Oracle := {
  provider : LLMService.ProviderOutcome;
  elapsed : Q;
  pick : nat;
  narrative : option string
}.

(** [state_manager.get_interview_state] and [set_interview_state] *)
Definition get_interview_state (w : World) (interview_id : string)
  : option InterviewState :=
  store w !! interview_id.

Definition set_interview_state (w : World) (interview_id : string)
    (state : InterviewState) : World :=
  {| store := <[interview_id := state]> (store w);
     questions := questions w;
     evaluator := evaluator w |}.

(** [_get_next_question]: an exception of the question bank is logged
    and becomes [None]. *)
Definition _get_next_question (w : World) (state : InterviewState)
    (pick : nat) : option ExcelQuestion :=
  match QuestionBankService.get_adaptive_question (questions w)
          (current_difficulty state) (scores state) (questions_asked state)
          [] 0 pick with
  | Ok question => question
  | Raise _ => None
  end.

(** [_adjust_difficulty] *)
Definition _adjust_difficulty (scores : list Q) (current_difficulty : string)
  : string :=
  match scores with
  | [] => current_difficulty
  | _ :: _ =>
      let recent_scores :=
        if (3 <=? length scores)%nat then Num.last3 scores else scores in
      let avg_recent := Num.sum recent_scores / Num.of_nat (length recent_scores) in
      if Num.geb avg_recent 85 && negb (String.eqb current_difficulty "advanced") then
        if String.eqb current_difficulty "basic" then "intermediate"
        else if String.eqb current_difficulty "intermediate" then "advanced"
        else current_difficulty
      else if Num.ltb avg_recent 40 && negb (String.eqb current_difficulty "basic") then
        if String.eqb current_difficulty "advanced" then "intermediate"
        else if String.eqb current_difficulty "intermediate" then "basic"
        else current_difficulty
      else current_difficulty
  end.

(** [_should_continue_interview] *)
Definition _should_continue_interview (state : InterviewState) : bool :=
  let questions_asked := length (responses state) in
  let max_questions := 15%nat in
  if (questions_asked <? max_questions)%nat then
    let scores := scores state in
    if (5 <=? length scores)%nat then
      let avg_score := Num.sum scores / Num.of_nat (length scores) in
      if Num.ltb avg_score 25 then false
      else (questions_asked <? max_questions)%nat
    else (questions_asked <? max_questions)%nat
  else (questions_asked <? max_questions)%nat.

(** The three dictionaries [process_response] can return. *)
Record Progress := {
  questions_completed : nat;
  total_questions : nat;
  average_score : Q;
  progress_difficulty : string
}.

Record Summary := {
  sum_questions_completed : nat;
  sum_overall_score : Q;
  sum_skill_level : SkillAssessment.t;
  sum_hire_recommendation : HireRecommendation.t
}.

Inductive Response :=
  | RError (message : string)
  | RContinue (evaluation : Evaluation) (next_question : ExcelQuestion)
              (progress : Progress)
  | RCompleted (final_assessment : FinalAssessment) (summary : Summary).

(** [state["status"] = COMPLETED] and
    [state["final_assessment"] = final_assessment] *)
Definition completed (final_assessment : FinalAssessment) (state : InterviewState)
  : InterviewState :=
  {| interview_id := interview_id state;
     candidate_name := candidate_name state;
     position := position state;
     skill_level := skill_level state;
     status := InterviewStatus.COMPLETED;
     current_question_index := current_question_index state;
     questions_asked := questions_asked state;
     responses := responses state;
     scores := scores state;
     current_difficulty := current_difficulty state;
     conversation_history := conversation_history state;
     current_question := current_question state;
     final_assessment := Some final_assessment |}.

(** [_end_interview] *)
Definition _end_interview {R : Runtime} (w : World) (interview_id : string)
    (state : InterviewState) (narrative : option string) : World * Response :=
  let final_assessment :=
    generate_final_assessment interview_id (responses state) narrative in
  let state' := completed final_assessment state in
  (set_interview_state w interview_id state',
   RCompleted final_assessment
     {| sum_questions_completed := length (responses state');
        sum_overall_score := a_overall_score final_assessment;
        sum_skill_level := a_skill_level_assessment final_assessment;
        sum_hire_recommendation := a_hire_recommendation final_assessment |}).

(** The score line of the transcript carries the number as text; only
    its presence is modelled. *)
Definition score_message : Message :=
  {| role := "system"; content := "Score" |}.

(** The first block of updates of [process_response]: the response
    record, the score, the question index and the transcript. *)
Definition record_response (state : InterviewState) (question : ExcelQuestion)
    (candidate_response : string) (evaluation : Evaluation)
    (response_time_seconds : Q) : InterviewState :=
  let response_data :=
    {| question_id := Models.id question;
       question_text := Models.question_text question;
       candidate_response := candidate_response;
       evaluation := evaluation;
       response_time := response_time_seconds |} in
  {| interview_id := interview_id state;
     candidate_name := candidate_name state;
     position := position state;
     skill_level := skill_level state;
     status := status state;
     current_question_index := S (current_question_index state);
     questions_asked := questions_asked state;
     responses := (responses state ++ [response_data])%list;
     scores := (scores state ++ [overall_score evaluation])%list;
     current_difficulty := current_difficulty state;
     conversation_history :=
       (conversation_history state ++
        [ {| role := "assistant"; content := Models.question_text question |};
          {| role := "user"; content := candidate_response |};
          score_message ])%list;
     current_question := current_question state;
     final_assessment := final_assessment state |}.

(** [state["current_difficulty"] = new_difficulty] *)
Definition with_difficulty (new_difficulty : string) (state : InterviewState)
  : InterviewState :=
  {| interview_id := interview_id state;
     candidate_name := candidate_name state;
     position := position state;
     skill_level := skill_level state;
     status := status state;
     current_question_index := current_question_index state;
     questions_asked := questions_asked state;
     responses := responses state;
     scores := scores state;
     current_difficulty := new_difficulty;
     conversation_history := conversation_history state;
     current_question := current_question state;
     final_assessment := final_assessment state |}.

(** [state["current_question"] = question.dict()] followed by
    [state["questions_asked"].append(question.id)] *)
Definition attach_question (question : ExcelQuestion) (state : InterviewState)
  : InterviewState :=
  {| interview_id := interview_id state;
     candidate_name := candidate_name state;
     position := position state;
     skill_level := skill_level state;
     status := status state;
     current_question_index := current_question_index state;
     questions_asked := (questions_asked state ++ [Models.id question])%list;
     responses := responses state;
     scores := scores state;
     current_difficulty := current_difficulty state;
     conversation_history := conversation_history state;
     current_question := Some question;
     final_assessment := final_assessment state |}.

(** The straight-line part of [process_response], from the call of
    the evaluator to the update of the difficulty: the evaluation, the
    session dictionary after the updates, and the services after the
    evaluator's and the question bank's own updates. *)
Definition accept_answer {R : Runtime} (w : World) (state : InterviewState)
    (question : ExcelQuestion) (candidate_response : string)
    (response_time_seconds : Q) (o : Oracle)
  : Evaluation * InterviewState * World :=
  let '(evaluator', evaluation) :=
    ExcelEvaluator.evaluate_response (evaluator w)
      (Models.question_text question) candidate_response
      (current_difficulty state)
      (QuestionType.value (Models.question_type question))
      (provider o) (elapsed o) in
  let state1 :=
    record_response state question candidate_response evaluation
                    response_time_seconds in
  let questions' :=
    QuestionBankService.update_question_stats (questions w)
      (Models.id question) (overall_score evaluation)
      response_time_seconds in
  let new_difficulty :=
    _adjust_difficulty (scores state1) (current_difficulty state1) in
  (evaluation,
   with_difficulty new_difficulty state1,
   {| store := store w; questions := questions'; evaluator := evaluator' |}).

(** [process_response] *)
Definition process_response {R : Runtime} (w : World) (interview_id : string)
    (candidate_response : string) (response_time_seconds : Q) (o : Oracle)
  : World * Response :=
  match get_interview_state w interview_id with
  | None => (w, RError "Interview session not found")
  | Some state =>
      match current_question state with
      | None => (w, RError "No active question found")
      | Some question =>
          let '(evaluation, state, w) :=
            accept_answer w state question candidate_response
                          response_time_seconds o in
          if _should_continue_interview state then
            match _get_next_question w state (pick o) with
            | Some next_question =>
                let state := attach_question next_question state in
                (set_interview_state w interview_id state,
                 RContinue evaluation next_question
                   {| questions_completed := length (responses state);
                      total_questions := 15;
                      average_score :=
                        Num.sum (scores state) / Num.of_nat (length (scores state));
                      progress_difficulty := current_difficulty state |})
            | None => _end_interview w interview_id state (narrative o)
            end
          else _end_interview w interview_id state (narrative o)
      end
  end.

(** [start_interview] *)
Inductive Started :=
  | SSuccess (question : ExcelQuestion)
  | SError (message : string).

Definition start_interview (w : World) (interview : Interview) (pick : nat)
  : World * Started :=
  let initial_state :=
    {| interview_id := i_id interview;
       candidate_name := i_candidate_name interview;
       position := i_position interview;
       skill_level := SkillLevel.value (i_skill_level interview);
       status := InterviewStatus.IN_PROGRESS;
       current_question_index := 0;
       questions_asked := [];
       responses := [];
       scores := [];
       current_difficulty := SkillLevel.value (i_skill_level interview);
       conversation_history := [];
       current_question := None;
       final_assessment := None |} in
  let w0 := set_interview_state w (i_id interview) initial_state in
  match _get_next_question w0 initial_state pick with
  | Some first_question =>
      (set_interview_state w0 (i_id interview)
         (attach_question first_question initial_state),
       SSuccess first_question)
  | None => (w0, SError "Failed to start interview. Please try again.")
  end.

(** [pause_interview] and [resume_interview]; both reply with a status
    ("success" or "error") and a message. *)
Inductive Reply :=
  | Success (message : string)
  | Error (message : string).

Definition with_status (s : InterviewStatus.t) (state : InterviewState)
  : InterviewState :=
  {| interview_id := interview_id state;
     candidate_name := candidate_name state;
     position := position state;
     skill_level := skill_level state;
     status := s;
     current_question_index := current_question_index state;
     questions_asked := questions_asked state;
     responses := responses state;
     scores := scores state;
     current_difficulty := current_difficulty state;
     conversation_history := conversation_history state;
     current_question := current_question state;
     final_assessment := final_assessment state |}.

Definition pause_interview (w : World) (interview_id : string)
  : World * Reply :=
  match get_interview_state w interview_id with
  | None => (w, Error "Interview not found")
  | Some state =>
      if bool_decide (status state = InterviewStatus.IN_PROGRESS) then
        (set_interview_state w interview_id
           (with_status InterviewStatus.PAUSED state),
         Success "Interview paused successfully")
      else (w, Error "Interview is not in progress")
  end.

Definition resume_interview (w : World) (interview_id : string)
  : World * Reply :=
  match get_interview_state w interview_id with
  | None => (w, Error "Interview not found")
  | Some state =>
      if bool_decide (status state = InterviewStatus.PAUSED) then
        (set_interview_state w interview_id
           (with_status InterviewStatus.IN_PROGRESS state),
         Success "Interview resumed successfully")
      else (w, Error "Interview is not paused")
  end.

(** The process at start-up: no session, the catalogue as loaded, an
    empty cache. *)
Definition initial_world : World :=
  {| store := ∅;
     questions := QuestionBankService.questions_data;
     evaluator :=
       {| ExcelEvaluator.evaluation_cache := ∅;
          ExcelEvaluator.evaluation_count := 0 |} |}.

(** One request served.  Beside the four session operations there is
    the stand-alone evaluation route, which calls the evaluator (and
    fills its cache) without a session. *)
Inductive step {R : Runtime} : World -> World -> Prop :=
  | step_start w interview pick :
      step w (fst (start_interview w interview pick))
  | step_response w interview_id answer response_time o :
      step w (fst (process_response w interview_id answer response_time o))
  | step_pause w interview_id :
      step w (fst (pause_interview w interview_id))
  | step_resume w interview_id :
      step w (fst (resume_interview w interview_id))
  | step_evaluate w question_text answer difficulty question_type outcome elapsed :
      step w {| store := store w;
                questions := questions w;
                evaluator :=
                  fst (ExcelEvaluator.evaluate_response (evaluator w)
                         question_text answer difficulty question_type
                         outcome elapsed) |}.

Inductive reachable {R : Runtime} : World -> Prop :=
  | reachable_initial : reachable initial_world
  | reachable_step w w' : reachable w -> step w w' -> reachable w'.

End ConversationManager.

(* ===================================================================== *)
(** * The rules as the specification words them *)
(* ===================================================================== *)

Module Spec.

Local Open Scope Q_scope.

(** The hire recommendation as an ordered list of rules: the first
    rule whose condition holds decides. *)
Definition strong_hire_rule (score consistency : Q) : Prop :=
  85 <= score /\ 70 <= consistency.
Definition hire_rule (score consistency : Q) : Prop :=
  75 <= score /\ 60 <= consistency.
Definition conditional_hire_rule (score consistency trend : Q) : Prop :=
  60 <= score /\ (50 <= consistency \/ 5 < trend).
Definition no_hire_rule (score : Q) : Prop :=
  40 <= score.

Inductive first_match (score consistency trend : Q)
  : HireRecommendation.t -> Prop :=
  | match_strong_hire :
      strong_hire_rule score consistency ->
      first_match score consistency trend HireRecommendation.STRONG_HIRE
  | match_hire :
      ~ strong_hire_rule score consistency ->
      hire_rule score consistency ->
      first_match score consistency trend HireRecommendation.HIRE
  | match_conditional_hire :
      ~ strong_hire_rule score consistency ->
      ~ hire_rule score consistency ->
      conditional_hire_rule score consistency trend ->
      first_match score consistency trend HireRecommendation.CONDITIONAL_HIRE
  | match_no_hire :
      ~ strong_hire_rule score consistency ->
      ~ hire_rule score consistency ->
      ~ conditional_hire_rule score consistency trend ->
      no_hire_rule score ->
      first_match score consistency trend HireRecommendation.NO_HIRE
  | match_strong_no_hire :
      ~ strong_hire_rule score consistency ->
      ~ hire_rule score consistency ->
      ~ conditional_hire_rule score consistency trend ->
      ~ no_hire_rule score ->
      first_match score consistency trend HireRecommendation.STRONG_NO_HIRE.

(** The recommendation when every consistency threshold is met: a
    function of the overall score alone. *)
Definition recommendation_by_score (score : Q) : HireRecommendation.t :=
  if Num.geb score 85 then HireRecommendation.STRONG_HIRE
  else if Num.geb score 75 then HireRecommendation.HIRE
  else if Num.geb score 60 then HireRecommendation.CONDITIONAL_HIRE
  else if Num.geb score 40 then HireRecommendation.NO_HIRE
  else HireRecommendation.STRONG_NO_HIRE.

(** The adaptive selector: one tier up (capped at advanced) for a mean
    of at least 85, one tier down (floored at basic) for a mean below
    50, the current tier in between. *)
Definition escalate (d : QuestionDifficulty.t) : QuestionDifficulty.t :=
  match d with
  | QuestionDifficulty.BASIC => QuestionDifficulty.INTERMEDIATE
  | QuestionDifficulty.INTERMEDIATE => QuestionDifficulty.ADVANCED
  | QuestionDifficulty.ADVANCED => QuestionDifficulty.ADVANCED
  end.

Definition de_escalate (d : QuestionDifficulty.t) : QuestionDifficulty.t :=
  match d with
  | QuestionDifficulty.BASIC => QuestionDifficulty.BASIC
  | QuestionDifficulty.INTERMEDIATE => QuestionDifficulty.BASIC
  | QuestionDifficulty.ADVANCED => QuestionDifficulty.INTERMEDIATE
  end.


End Spec.

(* ===================================================================== *)
(** * Notions used in the statements *)
(* ===================================================================== *)

Module Derived.

Import Eval ConversationManager.
Local Open Scope Q_scope.

(** The consistency statistic before rounding. *)
Definition raw_consistency {R : Runtime} (all_scores : list Q) : Q :=
  100 - Qmin (if (1 <? length all_scores)%nat
              then Num.stdev all_scores else 0) 25.

(** The plain (unweighted) mean of the five sub-scores, rounded. *)
Definition plain_mean (e : Evaluation) : Q :=
  Num.round2 (Num.sum (sub_scores e) / Num.of_nat (length (sub_scores e))).

(** An evaluation without the two keys that say how and how fast it
    was obtained. *)
Definition clear_meta (e : Evaluation) : Evaluation :=
  {| technical_accuracy := technical_accuracy e;
     communication_clarity := communication_clarity e;
     problem_solving_approach := problem_solving_approach e;
     completeness := completeness e;
     efficiency := efficiency e;
     overall_score := overall_score e;
     feedback := feedback e;
     strengths := strengths e;
     areas_for_improvement := areas_for_improvement e;
     next_difficulty_level := next_difficulty_level e;
     local_analysis := local_analysis e;
     score_adjustments := score_adjustments e;
     confidence_score := confidence_score e;
     evaluation_time := None;
     evaluation_method := None |}.


(** Every evaluation kept in the cache satisfies [P]. *)
Definition cache_all (P : Evaluation -> Prop) (ev : ExcelEvaluator.Evaluator)
  : Prop :=
  forall (k : Z * Z * string) (e : Evaluation),
    ExcelEvaluator.evaluation_cache ev !! k = Some e -> P e.

(** One of the ten required keys is missing. *)
Definition missing_field (j : LLMService.ProviderJSON) : Prop :=
  LLMService.j_technical_accuracy j = None
  \/ LLMService.j_communication_clarity j = None
  \/ LLMService.j_problem_solving_approach j = None
  \/ LLMService.j_completeness j = None
  \/ LLMService.j_efficiency j = None
  \/ LLMService.j_overall_score j = None
  \/ LLMService.j_feedback j = None
  \/ LLMService.j_strengths j = None
  \/ LLMService.j_areas_for_improvement j = None
  \/ LLMService.j_next_difficulty_level j = None.

(** The provider call raises, its text is not JSON, or a required key
    is missing from the parsed structure. *)
Definition provider_failed (outcome : LLMService.ProviderOutcome) : Prop :=
  match outcome with
  | LLMService.ProviderError => True
  | LLMService.ParseError => True
  | LLMService.ParsedNonObject => True
  | LLMService.ParsedObject j => missing_field j
  end.

(** An evaluation built from the fallback evaluation of some
    difficulty: the fallback blended with the local analysis of some
    answer. *)
Definition from_fallback (e : Evaluation) : Prop :=
  exists question response difficulty question_type : string,
    clear_meta e
    = clear_meta
        (ExcelEvaluator._enhance_evaluation
           (LLMService._get_fallback_evaluation difficulty)
           (ExcelEvaluator._perform_local_analysis question response
                                                   difficulty question_type)
           question response difficulty).

(** The evaluator's call made by [process_response] for the current
    question of a session. *)
Definition evaluated {R : Runtime} (w : World) (state : InterviewState)
    (question : Models.ExcelQuestion) (answer : string) (o : Oracle)
  : ExcelEvaluator.Evaluator * Evaluation :=
  ExcelEvaluator.evaluate_response (evaluator w)
    (Models.question_text question) answer (current_difficulty state)
    (QuestionType.value (Models.question_type question))
    (provider o) (elapsed o).

(** In every stored session the asked identifiers are pairwise
    distinct. *)
Definition no_repeats (w : World) : Prop :=
  forall (sid : string) (state : InterviewState),
    get_interview_state w sid = Some state -> NoDup (questions_asked state).

(** The session dictionary that [process_response] stores after an
    accepted answer: the one of [accept_answer] with a next question
    attached, or marked as completed. *)
Inductive stored_after (state2 : InterviewState) : InterviewState -> Prop :=
  | stored_continue next :
      stored_after state2 (attach_question next state2)
  | stored_completed assessment :
      stored_after state2 (completed assessment state2).

(** One submission of a client: the answer, the time it took, and what
    the outside contributes while it is served. *)
Record Submission := {
  sub_answer : string;
  sub_time : Q;
  sub_oracle : Oracle
}.

(** A client that answers as long as the service replies "continue";
    the result is the last reply. *)
Fixpoint interview_loop {R : Runtime} (w : World) (interview_id : string)
    (inputs : list Submission) : World * option Response :=
  match inputs with
  | [] => (w, None)
  | i :: rest =>
      let '(w', r) :=
        process_response w interview_id (sub_answer i) (sub_time i)
                         (sub_oracle i) in
      match r, rest with
      | RContinue _ _ _, _ :: _ => interview_loop w' interview_id rest
      | _, _ => (w', Some r)
      end
  end.

(** The result of a client loop that ended with a full assessment
    built from fallback evaluations, after more than [n] and at most
    [m] answers. *)
Definition completed_from_fallback {R : Runtime} (sid : string) (n m : nat)
    (out : World * option Response) : Prop :=
  exists (assessment : FeedbackEngine.FinalAssessment) (summary : Summary)
         (state' : InterviewState),
    snd out = Some (RCompleted assessment summary)
    /\ get_interview_state (fst out) sid = Some state'
    /\ status state' = InterviewStatus.COMPLETED
    /\ final_assessment state' = Some assessment
    /\ FeedbackEngine.a_interview_id assessment = Some sid
    /\ FeedbackEngine.a_total_questions assessment = length (responses state')
    /\ (n < length (responses state') <= m)%nat
    /\ FeedbackEngine.a_statistics assessment = FeedbackEngine._calculate_performance_statistics (responses state')
    /\ Forall (fun r => Derived.from_fallback (FeedbackEngine.evaluation r)) (responses state').

(** A score within the scale of 0 to 100, and an evaluation whose six
    scores all are. *)
Definition in_range (x : Q) : Prop := 0 <= x <= 100.

Definition scores_in_range (e : Evaluation) : Prop :=
  Forall in_range (sub_scores e) /\ in_range (overall_score e).

(** Text of ASCII characters only: the text [Text] models exactly. *)
Definition ascii_text (s : string) : bool :=
  forallb (fun c => (Text.code c <? 128)%nat) (list_ascii_of_string s).

(** A question's usage counters after the answers [l] (the score and
    the response time of each), in order. *)
Definition usage_after (q : Models.ExcelQuestion) (l : list (Q * Q))
  : Models.ExcelQuestion :=
  fold_left (fun q sr => Models.update_usage_stats q (fst sr) (snd sr)) l q.

(** The number of scores at or above the passing threshold of 60. *)
Definition passes (scores : list Q) : nat :=
  length (List.filter (fun s => Num.geb s 60) scores).

(** A question without its usage counters. *)
Definition description (q : Models.ExcelQuestion)
  : string * string * QuestionType.t * QuestionDifficulty.t
    * option QuestionCategory.t * bool :=
  (Models.id q, Models.question_text q, Models.question_type q,
   Models.difficulty q, Models.category q, Models.is_active q).

(** The active questions of a catalogue that a session has not been
    asked, and those of one tier. *)
Definition unasked (questions : list Models.ExcelQuestion)
    (asked : list string) : list Models.ExcelQuestion :=
  List.filter
    (fun q => Models.is_active q
              && negb (QuestionBankService.mem (Models.id q) asked))
    questions.

Definition unasked_of (d : QuestionDifficulty.t)
    (questions : list Models.ExcelQuestion) (asked : list string)
  : list Models.ExcelQuestion :=
  List.filter
    (fun q => Models.is_active q
              && bool_decide (Models.difficulty q = d)
              && negb (QuestionBankService.mem (Models.id q) asked))
    questions.

(** The session dictionary that [start_interview] stores first. *)
Definition initial_state (interview : Models.Interview) : InterviewState :=
  {| interview_id := Models.i_id interview;
     candidate_name := Models.i_candidate_name interview;
     position := Models.i_position interview;
     skill_level := SkillLevel.value (Models.i_skill_level interview);
     status := InterviewStatus.IN_PROGRESS;
     current_question_index := 0;
     questions_asked := [];
     responses := [];
     scores := [];
     current_difficulty := SkillLevel.value (Models.i_skill_level interview);
     conversation_history := [];
     current_question := None;
     final_assessment := None |}.

(** The counters of a session agree with its list of responses. *)
Definition bookkeeping (sid : string) (s : InterviewState) : Prop :=
  interview_id s = sid
  /\ current_question_index s = length (responses s)
  /\ scores s = map (fun r => overall_score (FeedbackEngine.evaluation r))
                    (responses s)
  /\ length (conversation_history s) = (3 * length (responses s))%nat
  /\ (length (questions_asked s) <= S (length (responses s)))%nat.

(** A session that has been asked a question has a difficulty that
    names a tier; one that has not has no answers either. *)
Definition asked_or_empty (s : InterviewState) : Prop :=
  match current_question s with
  | Some q =>
      (exists d, current_difficulty s = QuestionDifficulty.value d)
      /\ exists earlier, questions_asked s = (earlier ++ [Models.id q])%list
  | None => questions_asked s = [] /\ responses s = [] /\ scores s = []
  end.

(** The order of the skill levels, from insufficient data to expert. *)
Definition skill_rank (s : SkillAssessment.t) : nat :=
  match s with
  | SkillAssessment.INSUFFICIENT_DATA => 0
  | SkillAssessment.BEGINNER => 1
  | SkillAssessment.BASIC => 2
  | SkillAssessment.INTERMEDIATE => 3
  | SkillAssessment.ADVANCED => 4
  | SkillAssessment.EXPERT => 5
  end.

End Derived.

(* ===================================================================== *)
(** * A runtime and inputs for evaluation *)
(* ===================================================================== *)

Module Sample.

Import Models ConversationManager.
Local Open Scope Q_scope.

(** A polynomial string hash, and the integer square root on six
    decimals: enough to run the services on concrete inputs. *)
Fixpoint hash_from (h : Z) (s : string) : Z :=
  match s with
  | EmptyString => h
  | String c r => hash_from ((h * 31 + Z.of_nat (nat_of_ascii c)) mod 1000003)%Z r
  end.

Definition sqrt6 (q : Q) : Q :=
  Z.sqrt (Qfloor (q * 1000000000000)) # 1000000.

Definition runtime : Runtime :=
  {| py_hash := hash_from 7; py_sqrt := sqrt6 |}.

Definition interview (sid : string) (level : SkillLevel.t) : Interview :=
  {| i_id := sid;
     i_candidate_name := "Ada Lovelace";
     i_position := "Financial Analyst";
     i_skill_level := level |}.

(** A provider answer with the five sub-scores given and [overall] as
    its self-reported overall score. *)
Definition provider_json (ta cc ps co ef overall : Q) : LLMService.ProviderJSON :=
  {| LLMService.j_technical_accuracy := Some (LLMService.JNumber ta);
     LLMService.j_communication_clarity := Some (LLMService.JNumber cc);
     LLMService.j_problem_solving_approach := Some (LLMService.JNumber ps);
     LLMService.j_completeness := Some (LLMService.JNumber co);
     LLMService.j_efficiency := Some (LLMService.JNumber ef);
     LLMService.j_overall_score := Some (LLMService.JNumber overall);
     LLMService.j_feedback := Some "Clear and correct.";
     LLMService.j_strengths := Some ["Knows the feature"];
     LLMService.j_areas_for_improvement := Some ["Mention alternatives"];
     LLMService.j_next_difficulty_level := Some "intermediate" |}.

Definition oracle (outcome : LLMService.ProviderOutcome) : Oracle :=
  {| provider := outcome; elapsed := 3 # 2; pick := 0; narrative := None |}.

Definition answer : string :=
  "Sort by date, then use Remove Duplicates on the key column.".

(** Session [s1] started at the intermediate level. *)
Definition started : World :=
  fst (start_interview initial_world (interview "s1" SkillLevel.INTERMEDIATE) 0).

(** The same session after [pause_interview]. *)
Definition paused : World :=
  fst (pause_interview started "s1").

(** Two sessions started at the same level: both are asked the same
    first question. *)
Definition two_started : World :=
  fst (start_interview started (interview "s2" SkillLevel.INTERMEDIATE) 0).

(** A provider answer with uneven sub-scores; it reports 62, their
    plain mean, as overall. *)
Definition uneven : LLMService.ProviderOutcome :=
  LLMService.ParsedObject (provider_json 90 60 70 50 40 62).

(** A provider answer with ordinary scores. *)
Definition ordinary : LLMService.ProviderOutcome :=
  LLMService.ParsedObject (provider_json 80 70 75 60 65 70).

(** The evaluation a reply carries. *)
Definition evaluation_of (r : Response) : option Eval.Evaluation :=
  match r with
  | RContinue e _ _ => Some e
  | _ => None
  end.

(** What is kept of a session for display. *)
Definition snapshot (w : World) (sid : string)
  : option (InterviewStatus.t * nat * nat * list string * nat) :=
  option_map
    (fun s => (status s, length (responses s), length (scores s),
               questions_asked s, length (conversation_history s)))
    (get_interview_state w sid).

(** Fifteen submissions, each met by a provider error. *)
Definition failing_inputs : list Derived.Submission :=
  repeat {| Derived.sub_answer := answer;
            Derived.sub_time := 30;
            Derived.sub_oracle := oracle LLMService.ProviderError |} 15.

(** Two responses, scored 65 and 45. *)
Definition two_responses : list FeedbackEngine.ResponseData :=
  [ {| FeedbackEngine.question_id := "basic_001";
       FeedbackEngine.question_text := "How would you calculate the sum of values in cells A1 to A10?";
       FeedbackEngine.candidate_response := "=SUM(A1:A10)";
       FeedbackEngine.evaluation := LLMService._get_fallback_evaluation "basic";
       FeedbackEngine.response_time := 20 |};
    {| FeedbackEngine.question_id := "adv_004";
       FeedbackEngine.question_text := "How would you implement array formulas or dynamic arrays to perform complex calculations across multiple ranges?";
       FeedbackEngine.candidate_response := "With FILTER and SEQUENCE.";
       FeedbackEngine.evaluation := LLMService._get_fallback_evaluation "advanced";
       FeedbackEngine.response_time := 40 |} ].

(** Session [s1] after one answer. *)
Definition answered : World :=
  fst (process_response (R := runtime) started "s1" answer 30 (oracle ordinary)).

(** Three answers to one question: scores and response times. *)
Definition three_answers : list (Q * Q) := [(80, 30); (55, 45); (90, 20)].

(** The session stored under an identifier and its current question,
    with placeholders for what is absent. *)
Definition no_question : ExcelQuestion :=
  QuestionBankService.mk_question "" "" QuestionType.FORMULA
    QuestionDifficulty.BASIC QuestionCategory.BASIC_FUNCTIONS.

Definition session (w : World) (sid : string) : InterviewState :=
  default (Derived.initial_state (interview sid SkillLevel.INTERMEDIATE))
          (get_interview_state w sid).

Definition current (w : World) (sid : string) : ExcelQuestion :=
  default no_question (current_question (session w sid)).

(** A question as the catalogue is loaded with it. *)
Definition unused_question : ExcelQuestion :=
  QuestionBankService.mk_question "basic_001"
    "How would you calculate the sum of values in cells A1 to A10?"
    QuestionType.FORMULA QuestionDifficulty.BASIC QuestionCategory.BASIC_FUNCTIONS.

(** Five answers that the provider scores with 0 throughout: the
    interview then ends early. *)
Definition poor_inputs : list Derived.Submission :=
  repeat {| Derived.sub_answer := "I do not know.";
            Derived.sub_time := 10;
            Derived.sub_oracle :=
              oracle (LLMService.ParsedObject (provider_json 0 0 0 0 0 0)) |} 5.

(** Session [s1] after these answers. *)
Definition ended : World :=
  fst (Derived.interview_loop (R := runtime) started "s1" poor_inputs).

End Sample.

(* ===================================================================== *)
(** * Properties *)
(* ===================================================================== *)

(** ** Comparisons and rounding *)

Section NumFacts.

Local Open Scope Q_scope.

Lemma geb_true (x y : Q) : Num.geb x y = true <-> y <= x.
Proof. unfold Num.geb. apply Qle_bool_iff. Qed.

Lemma geb_false (x y : Q) : Num.geb x y = false <-> x < y.
Proof.
  unfold Num.geb. split; intro Hf.
  - apply Qnot_le_lt. intro Hle. apply Qle_bool_iff in Hle. congruence.
  - destruct (Qle_bool y x) eqn:E; [|reflexivity].
    apply Qle_bool_iff in E. exfalso. apply (Qlt_not_le _ _ Hf E).
Qed.

Lemma leb_true (x y : Q) : Num.leb x y = true <-> x <= y.
Proof. unfold Num.leb. apply Qle_bool_iff. Qed.

Lemma ltb_true (x y : Q) : Num.ltb x y = true <-> x < y.
Proof.
  unfold Num.ltb. rewrite negb_true_iff. apply (geb_false x y).
Qed.

Lemma ltb_false (x y : Q) : Num.ltb x y = false <-> y <= x.
Proof.
  unfold Num.ltb. rewrite negb_false_iff. apply (geb_true x y).
Qed.

Lemma gtb_true (x y : Q) : Num.gtb x y = true <-> y < x.
Proof. apply (ltb_true y x). Qed.

Lemma gtb_false (x y : Q) : Num.gtb x y = false <-> x <= y.
Proof. apply (ltb_false y x). Qed.

(** Rounding to the nearest integer never crosses an integer. *)
Lemma round_half_even_ge (k : Z) (q : Q) :
  inject_Z k <= q -> (k <= Num.round_half_even q)%Z.
Proof.
  intro Hk.
  assert (Hf : (k <= Qfloor q)%Z).
  { apply Qfloor_resp_le in Hk. rewrite Qfloor_Z in Hk. exact Hk. }
  unfold Num.round_half_even.
  repeat match goal with |- context [if ?b then _ else _] => destruct b end; lia.
Qed.

Lemma round_half_even_le (k : Z) (q : Q) :
  q <= inject_Z k -> (Num.round_half_even q <= k)%Z.
Proof.
  intro Hk.
  assert (Hf : (Qfloor q <= k)%Z).
  { apply Qfloor_resp_le in Hk. rewrite Qfloor_Z in Hk. exact Hk. }
  destruct (Z.eq_dec (Qfloor q) k) as [Heq | Hne].
  - (* the floor is [k] itself: then [q = k] and nothing is added *)
    assert (Hq : q - inject_Z (Qfloor q) <= 0).
    { rewrite Heq. lra. }
    unfold Num.round_half_even.
    destruct (Num.ltb (q - inject_Z (Qfloor q)) (1 # 2)) eqn:E; [lia|].
    apply ltb_false in E. lra.
  - unfold Num.round_half_even.
    repeat match goal with |- context [if ?b then _ else _] => destruct b end; lia.
Qed.

Lemma round2_ge (k : Z) (q : Q) :
  inject_Z k <= q -> inject_Z k <= Num.round2 q.
Proof.
  intro Hk. unfold Num.round2.
  assert (H : (k * 100 <= Num.round_half_even (q * 100))%Z).
  { apply round_half_even_ge. rewrite inject_Z_mult. change (inject_Z 100) with 100. lra. }
  unfold Qle. simpl. lia.
Qed.

Lemma round2_le (k : Z) (q : Q) :
  q <= inject_Z k -> Num.round2 q <= inject_Z k.
Proof.
  intro Hk. unfold Num.round2.
  assert (H : (Num.round_half_even (q * 100) <= k * 100)%Z).
  { apply round_half_even_le. rewrite inject_Z_mult. change (inject_Z 100) with 100. lra. }
  unfold Qle. simpl. lia.
Qed.

End NumFacts.

(** ** The hire recommendation *)

Section HireRecommendationFacts.

Import FeedbackEngine.
Local Open Scope Q_scope.

Local Ltac to_prop :=
  repeat match goal with
    | H : Num.geb _ _ = true |- _ => apply geb_true in H
    | H : Num.geb _ _ = false |- _ => apply geb_false in H
    | H : Num.gtb _ _ = true |- _ => apply gtb_true in H
    | H : Num.gtb _ _ = false |- _ => apply gtb_false in H
    end.

(** C9.  For every overall score, consistency and trend, the
    recommendation of [_determine_hire_recommendation] is the one of
    the first matching rule, in the order strong_hire (score >= 85 and
    consistency >= 70), hire (score >= 75 and consistency >= 60),
    conditional_hire (score >= 60 and (consistency >= 50 or trend > 5)),
    no_hire (score >= 40), else strong_no_hire. *)
Theorem hire_recommendation_first_match (score : Q) (stats : Stats)
    (r : HireRecommendation.t) :
  let consistency := default 0 (s_consistency stats) in
  let trend := default 0 (s_performance_trend stats) in
  _determine_hire_recommendation score stats = r
  <-> Spec.first_match score consistency trend r.
Proof.
  cbv zeta. unfold _determine_hire_recommendation.
  set (c := default 0 (s_consistency stats)).
  set (t := default 0 (s_performance_trend stats)).
  unfold Spec.strong_hire_rule, Spec.hire_rule.
  destruct (Num.geb score 85) eqn:E85; destruct (Num.geb c 70) eqn:C70;
    destruct (Num.geb score 75) eqn:E75; destruct (Num.geb c 60) eqn:C60;
    destruct (Num.geb score 60) eqn:E60; destruct (Num.geb c 50) eqn:C50;
    destruct (Num.gtb t 5) eqn:T5; destruct (Num.geb score 40) eqn:E40;
    cbn [andb orb]; to_prop;
    (split;
     [ intros <-;
       first
         [ apply Spec.match_strong_hire
         | apply Spec.match_hire
         | apply Spec.match_conditional_hire
         | apply Spec.match_no_hire
         | apply Spec.match_strong_no_hire ];
       unfold Spec.strong_hire_rule, Spec.hire_rule,
         Spec.conditional_hire_rule, Spec.no_hire_rule; lra
     | intros Hm; inversion Hm; subst;
       unfold Spec.strong_hire_rule, Spec.hire_rule,
         Spec.conditional_hire_rule, Spec.no_hire_rule in *;
       first [reflexivity | exfalso; lra] ]).
Qed.

End HireRecommendationFacts.

(** ** The consistency statistic *)

Section ConsistencyFacts.

Import FeedbackEngine.
Local Open Scope Q_scope.

Context {R : Runtime}.
Hypothesis Hsqrt : sqrt_nonneg R.

Lemma raw_consistency_bounds (all_scores : list Q) :
  75 <= Derived.raw_consistency all_scores <= 100.
Proof using Hsqrt.
  unfold Derived.raw_consistency.
  set (d := if (1 <? length all_scores)%nat then Num.stdev all_scores else 0).
  assert (Hd : 0 <= d).
  { subst d. destruct (1 <? length all_scores)%nat; [apply Hsqrt | lra]. }
  destruct (Q.min_spec d 25) as [[Hlt Hm] | [Hle Hm]]; rewrite Hm; lra.
Qed.

Lemma consistency_of_stats (r : ResponseData) (rest : list ResponseData) :
  s_consistency (_calculate_performance_statistics (r :: rest))
  = Some (Num.round2
            (Derived.raw_consistency
               (map (fun x => Eval.overall_score (evaluation x)) (r :: rest)))).
Proof. reflexivity. Qed.

Lemma recommendation_with_consistency (score : Q) (stats : Stats) (c : Q) :
  s_consistency stats = Some c -> 70 <= c ->
  _determine_hire_recommendation score stats = Spec.recommendation_by_score score.
Proof.
  intros Hc Hge. unfold _determine_hire_recommendation, Spec.recommendation_by_score.
  rewrite Hc. change (default 0 (Some c)) with c.
  assert (H70 : Num.geb c 70 = true) by (apply geb_true; lra).
  assert (H60 : Num.geb c 60 = true) by (apply geb_true; lra).
  assert (H50 : Num.geb c 50 = true) by (apply geb_true; lra).
  rewrite H70, H60, H50. cbn [orb]. rewrite !andb_true_r. reflexivity.
Qed.

(** C10.  For a list of responses that is not empty the consistency
    statistic is [100 - min(stdev(scores), 25)] (rounded to two
    decimals; the deviation counts as 0 for fewer than two scores, so
    the statistic is then 100) and lies between 75 and 100.  Every
    consistency threshold of the hire recommendation (70, 60, 50) is
    therefore met, and the recommendation is decided by the overall
    score alone. *)
Theorem consistency_between_75_and_100 (responses : list ResponseData) :
  responses <> [] ->
  let stats := _calculate_performance_statistics responses in
  let all_scores := map (fun x => Eval.overall_score (evaluation x)) responses in
  exists c : Q,
    s_consistency stats = Some c
    /\ c = Num.round2 (100 - Qmin (if (1 <? length all_scores)%nat
                                   then Num.stdev all_scores else 0) 25)
    /\ 75 <= c <= 100
    /\ ((length responses < 2)%nat -> c == 100)
    /\ forall score : Q,
         _determine_hire_recommendation score stats
         = Spec.recommendation_by_score score.
Proof using Hsqrt.
  intros Hne. cbv zeta.
  destruct responses as [|r rest]; [congruence|].
  exists (Num.round2
            (Derived.raw_consistency
               (map (fun x => Eval.overall_score (evaluation x)) (r :: rest)))).
  pose proof (raw_consistency_bounds
                (map (fun x => Eval.overall_score (evaluation x)) (r :: rest)))
    as [Hlo Hhi].
  assert (Hb : 75 <= Num.round2
                 (Derived.raw_consistency
                    (map (fun x => Eval.overall_score (evaluation x)) (r :: rest)))
               <= 100).
  { split.
    - apply (round2_ge 75). exact Hlo.
    - apply (round2_le 100). exact Hhi. }
  split; [apply consistency_of_stats|].
  split; [reflexivity|].
  split; [exact Hb|].
  split.
  - intros Hlen. destruct rest as [|r' rest']; [|cbn in Hlen; lia].
    reflexivity.
  - intros score.
    eapply recommendation_with_consistency;
      [apply consistency_of_stats | lra].
Qed.

End ConsistencyFacts.

(** ** The adaptive selector *)

Section SelectorFacts.

Import QuestionBankService.
Local Open Scope Q_scope.

Lemma of_value_value (d : QuestionDifficulty.t) :
  QuestionDifficulty.of_value (QuestionDifficulty.value d) = Ok d.
Proof. destruct d; reflexivity. Qed.



(** The session's own difficulty update ([_adjust_difficulty]) moves
    one tier at a time, with 85 and 40 as its thresholds. *)
Lemma adjust_difficulty_steps (current : QuestionDifficulty.t) (scores : list Q) :
  scores <> [] ->
  let m := Num.mean (Num.last3 scores) in
  let next :=
    ConversationManager._adjust_difficulty scores (QuestionDifficulty.value current) in
  (85 <= m -> next = QuestionDifficulty.value (Spec.escalate current))
  /\ (40 <= m -> m < 85 -> next = QuestionDifficulty.value current)
  /\ (m < 40 -> next = QuestionDifficulty.value (Spec.de_escalate current)).
Proof.
  intros Hne. cbv zeta. unfold ConversationManager._adjust_difficulty.
  destruct scores as [|s rest]; [congruence|].
  assert (Hrecent :
            (if (3 <=? length (s :: rest))%nat
             then Num.last3 (s :: rest) else s :: rest)
            = Num.last3 (s :: rest)).
  { destruct (3 <=? length (s :: rest))%nat eqn:E; [reflexivity|].
    apply Nat.leb_gt in E. unfold Num.last3.
    replace (length (s :: rest) - 3)%nat with 0%nat by lia. reflexivity. }
  rewrite Hrecent.
  change (Num.sum (Num.last3 (s :: rest))
          / Num.of_nat (length (Num.last3 (s :: rest))))
    with (Num.mean (Num.last3 (s :: rest))).
  set (m := Num.mean (Num.last3 (s :: rest))).
  destruct (Num.geb m 85) eqn:E85; destruct (Num.ltb m 40) eqn:E40;
    repeat match goal with
      | H : Num.geb _ _ = true |- _ => apply geb_true in H
      | H : Num.geb _ _ = false |- _ => apply geb_false in H
      | H : Num.ltb _ _ = true |- _ => apply ltb_true in H
      | H : Num.ltb _ _ = false |- _ => apply ltb_false in H
      end;
    destruct current; cbn;
    repeat split; intros; first [reflexivity | exfalso; lra].
Qed.

End SelectorFacts.

(** ** Continuing or ending a session *)

Section ContinueFacts.

Import ConversationManager.
Local Open Scope Q_scope.

(** A session that continues has fewer than 15 responses. *)
Lemma should_continue_bound (state : InterviewState) :
  _should_continue_interview state = true ->
  (length (responses state) < 15)%nat.
Proof.
  unfold _should_continue_interview.
  destruct (length (responses state) <? 15)%nat eqn:E15.
  - intros _. apply Nat.ltb_lt, E15.
  - discriminate.
Qed.


End ContinueFacts.

(** ** The aggregator on an empty list *)

Section EmptyAssessmentFacts.

Import FeedbackEngine.
Local Open Scope Q_scope.

(** C7.  With an empty list of evaluations [generate_final_assessment]
    returns the default assessment: it does not raise, its
    [skill_level_assessment] is [insufficient_data] and its
    [overall_score] is 0. *)
Theorem empty_list_assessment (R : Runtime) (interview_id : string)
    (narrative : option string) :
  let a := generate_final_assessment interview_id [] narrative in
  a = _get_default_assessment "No responses provided"
  /\ a_skill_level_assessment a = SkillAssessment.INSUFFICIENT_DATA
  /\ a_overall_score a = 0.
Proof. cbv zeta. repeat split. Qed.

End EmptyAssessmentFacts.

(** ** The evaluation pipeline *)

Section EvaluatorFacts.

Import Eval ExcelEvaluator.
Local Open Scope Q_scope.

Context {R : Runtime}.

Lemma enhance_plain_mean (ai : Evaluation) (la : LocalAnalysis)
    (question response difficulty : string) :
  let e := _enhance_evaluation ai la question response difficulty in
  overall_score e = Derived.plain_mean e.
Proof. reflexivity. Qed.


Lemma set_time_plain_mean (t : Q) (e : Evaluation) :
  overall_score e = Derived.plain_mean e ->
  overall_score (set_time t e) = Derived.plain_mean (set_time t e).
Proof. intros H. exact H. Qed.

(** What [evaluate_response] does, by cases on the cache. *)
Lemma evaluate_response_hit (ev : Evaluator)
    (q a d qt : string) (outcome : LLMService.ProviderOutcome) (t : Q)
    (cached : Evaluation) :
  evaluation_cache ev !! _generate_cache_key q a d = Some cached ->
  evaluate_response ev q a d qt outcome t = (ev, set_method "cached" cached).
Proof. intros H. unfold evaluate_response. rewrite H. reflexivity. Qed.

Lemma evaluate_response_miss (ev : Evaluator)
    (q a d qt : string) (outcome : LLMService.ProviderOutcome) (t : Q) :
  evaluation_cache ev !! _generate_cache_key q a d = None ->
  let enhanced :=
    _enhance_evaluation
      (LLMService.evaluate_excel_response q a d outcome)
      (_perform_local_analysis q a d qt) q a d in
  evaluate_response ev q a d qt outcome t
  = ({| evaluation_cache := <[_generate_cache_key q a d := enhanced]> (evaluation_cache ev);
        evaluation_count := S (evaluation_count ev) |},
     set_method "ai_enhanced" (set_time t enhanced)).
Proof. intros H. unfold evaluate_response. rewrite H. reflexivity. Qed.

(** A property of evaluations that holds of every enhanced evaluation
    this call can build is kept by the cache. *)
Lemma evaluate_response_cache (P : Evaluation -> Prop) (ev : Evaluator)
    (q a d qt : string) (outcome : LLMService.ProviderOutcome) (t : Q) :
  Derived.cache_all P ev ->
  P (_enhance_evaluation (LLMService.evaluate_excel_response q a d outcome)
                         (_perform_local_analysis q a d qt) q a d) ->
  Derived.cache_all P (fst (evaluate_response ev q a d qt outcome t)).
Proof.
  intros Hc Hp.
  destruct (evaluation_cache ev !! _generate_cache_key q a d) as [c|] eqn:E.
  - rewrite (evaluate_response_hit _ _ _ _ _ _ _ _ E). exact Hc.
  - rewrite (evaluate_response_miss _ _ _ _ _ _ _ E). cbn [fst].
    intros k e. cbn [evaluation_cache].
    destruct (decide (k = _generate_cache_key q a d)) as [->|Hne].
    + rewrite lookup_insert_eq. intros [= <-]. exact Hp.
    + rewrite lookup_insert_ne by congruence. apply Hc.
Qed.




(** A second evaluation of the same triple is served from the cache:
    it carries the first one's scores and texts, is marked "cached",
    and leaves the evaluator as it was. *)
Lemma evaluate_response_twice (ev : Evaluator)
    (q a d qt1 qt2 : string) (o1 o2 : LLMService.ProviderOutcome) (t1 t2 : Q) :
  let '(ev1, e1) := evaluate_response ev q a d qt1 o1 t1 in
  let '(ev2, e2) := evaluate_response ev1 q a d qt2 o2 t2 in
  ev2 = ev1
  /\ Derived.clear_meta e2 = Derived.clear_meta e1
  /\ evaluation_method e2 = Some "cached".
Proof.
  destruct (evaluation_cache ev !! _generate_cache_key q a d) as [c|] eqn:E.
  - rewrite (evaluate_response_hit _ _ _ _ _ _ _ _ E).
    rewrite (evaluate_response_hit _ _ _ _ _ _ _ _ E).
    repeat split.
  - rewrite (evaluate_response_miss _ _ _ _ _ _ _ E). cbv zeta.
    erewrite evaluate_response_hit
      by (cbn [evaluation_cache]; apply lookup_insert_eq).
    repeat split.
Qed.

(** The provider's failures end in the fallback evaluation. *)
Lemma validate_missing_field (j : LLMService.ProviderJSON) :
  Derived.missing_field j -> exists exn, LLMService.validate j = Raise exn.
Proof.
  unfold Derived.missing_field, LLMService.validate.
  intros Hm. exists "ValueError".
  destruct (LLMService.j_technical_accuracy j),
           (LLMService.j_communication_clarity j),
           (LLMService.j_problem_solving_approach j),
           (LLMService.j_completeness j),
           (LLMService.j_efficiency j),
           (LLMService.j_overall_score j),
           (LLMService.j_feedback j),
           (LLMService.j_strengths j),
           (LLMService.j_areas_for_improvement j),
           (LLMService.j_next_difficulty_level j);
    first [reflexivity | exfalso; intuition discriminate].
Qed.

Lemma failed_provider_fallback (q a d : string)
    (outcome : LLMService.ProviderOutcome) :
  Derived.provider_failed outcome ->
  LLMService.evaluate_excel_response q a d outcome
  = LLMService._get_fallback_evaluation d.
Proof.
  destruct outcome as [| | |j]; cbn; try reflexivity.
  intros Hm. destruct (validate_missing_field j Hm) as [exn ->]. reflexivity.
Qed.

End EvaluatorFacts.

(** ** Question selection *)

Section SelectionFacts.

Import Models QuestionBankService.

Lemma mem_In (x : string) (l : list string) : mem x l = true <-> In x l.
Proof.
  unfold mem. rewrite existsb_exists. split.
  - intros (y & Hin & Heq). apply String.eqb_eq in Heq. subst. exact Hin.
  - intros Hin. exists x. split; [exact Hin | apply String.eqb_refl].
Qed.

Lemma choice_In {A : Type} (pick : nat) (l : list A) (x : A) :
  choice pick l = Some x -> In x l.
Proof. unfold choice. apply nth_error_In. Qed.

(** A question that [get_random_question] returns has not been asked. *)
Lemma get_random_question_fresh (questions : list ExcelQuestion)
    (d : option QuestionDifficulty.t) (t : option QuestionType.t)
    (c : option QuestionCategory.t) (exclude_ids : list string) (pick : nat)
    (q : ExcelQuestion) :
  get_random_question questions d t c exclude_ids pick = Some q ->
  ~ In (id q) exclude_ids.
Proof.
  unfold get_random_question.
  destruct exclude_ids as [|x rest]; [intros _ []|].
  match goal with
  | |- context [List.filter ?f ?l] => set (candidates := List.filter f l)
  end.
  destruct candidates as [|c0 cs] eqn:E; [discriminate|].
  intros Hc. apply choice_In in Hc. rewrite <- E in Hc.
  subst candidates. apply filter_In in Hc as [_ Hc].
  apply negb_true_iff in Hc. intros Hin.
  apply mem_In in Hin. congruence.
Qed.

Lemma try_offsets_fresh (questions : list ExcelQuestion) (current_index : Z)
    (asked : list string) (pick : nat) (offsets : list Z) (q : ExcelQuestion) :
  try_offsets questions current_index asked pick offsets = Some q ->
  ~ In (id q) asked.
Proof.
  induction offsets as [|offset rest IH]; cbn; [discriminate|].
  destruct ((0 <=? current_index + offset)%Z && (current_index + offset <? 3)%Z);
    [|exact IH].
  destruct (get_random_question questions _ None None asked pick) as [q'|] eqn:E;
    [|exact IH].
  intros [= <-]. eapply get_random_question_fresh, E.
Qed.

Lemma get_adaptive_question_fresh (questions : list ExcelQuestion)
    (current_difficulty : string) (previous_scores : list Q)
    (asked : list string) (preferred : list QuestionType.t)
    (pick_type pick : nat) (q : ExcelQuestion) :
  get_adaptive_question questions current_difficulty previous_scores asked
                        preferred pick_type pick = Ok (Some q) ->
  ~ In (id q) asked.
Proof.
  unfold get_adaptive_question.
  destruct (target_difficulty current_difficulty previous_scores) as [target|];
    [|discriminate].
  destruct (get_random_question questions (Some target) _ None asked pick)
    as [q'|] eqn:E.
  - intros [= <-]. eapply get_random_question_fresh, E.
  - intros H.
    apply (try_offsets_fresh questions (QuestionDifficulty.index target) asked
             pick [-1; 1; -2; 2]%Z q).
    congruence.
Qed.

End SelectionFacts.

(** ** Sessions *)

Section SessionFacts.

Import Models Eval FeedbackEngine ConversationManager.
Local Open Scope Q_scope.

Context {R : Runtime}.

Lemma get_next_question_fresh (w : World) (state : InterviewState) (pick : nat)
    (q : ExcelQuestion) :
  _get_next_question w state pick = Some q ->
  ~ In (Models.id q) (questions_asked state).
Proof.
  unfold _get_next_question.
  destruct (QuestionBankService.get_adaptive_question _ _ _ _ _ _ _)
    as [[q'|]|] eqn:E; try discriminate.
  intros [= <-]. eapply get_adaptive_question_fresh, E.
Qed.

Lemma accept_answer_eq (w : World) (state : InterviewState)
    (question : ExcelQuestion) (answer : string) (rt : Q) (o : Oracle) :
  let e := snd (Derived.evaluated w state question answer o) in
  let state1 := record_response state question answer e rt in
  accept_answer w state question answer rt o
  = (e,
     with_difficulty
       (_adjust_difficulty (scores state1) (current_difficulty state1)) state1,
     {| store := store w;
        questions :=
          QuestionBankService.update_question_stats (questions w)
            (Models.id question) (overall_score e) rt;
        evaluator := fst (Derived.evaluated w state question answer o) |}).
Proof.
  cbv zeta. unfold accept_answer, Derived.evaluated.
  destruct (ExcelEvaluator.evaluate_response _ _ _ _ _ _ _) as [ev' e].
  reflexivity.
Qed.

(** [process_response] by cases: the request is rejected and nothing
    changes, or the answer is accepted and the session either goes on
    with a fresh question or is ended. *)
Lemma process_response_cases (w : World) (sid answer : string) (rt : Q)
    (o : Oracle) :
  (exists message,
      process_response w sid answer rt o = (w, RError message)
      /\ (get_interview_state w sid = None
          \/ exists state, get_interview_state w sid = Some state
                           /\ current_question state = None))
  \/ exists state question,
       get_interview_state w sid = Some state
       /\ current_question state = Some question
       /\ let r := accept_answer w state question answer rt o in
          let e := fst (fst r) in
          let state2 := snd (fst r) in
          let w2 := snd r in
          (exists next,
              _should_continue_interview state2 = true
              /\ _get_next_question w2 state2 (pick o) = Some next
              /\ process_response w sid answer rt o
                 = (set_interview_state w2 sid (attach_question next state2),
                    RContinue e next
                      {| questions_completed :=
                           length (responses (attach_question next state2));
                         total_questions := 15;
                         average_score :=
                           Num.sum (scores (attach_question next state2))
                           / Num.of_nat (length (scores (attach_question next state2)));
                         progress_difficulty :=
                           current_difficulty (attach_question next state2) |}))
          \/ ((_should_continue_interview state2 = false
               \/ _get_next_question w2 state2 (pick o) = None)
              /\ process_response w sid answer rt o
                 = _end_interview w2 sid state2 (narrative o)).
Proof.
  unfold process_response.
  destruct (get_interview_state w sid) as [state|] eqn:Hs;
    [|left; eexists; split; [reflexivity | left; reflexivity]].
  destruct (current_question state) as [question|] eqn:Hq;
    [|left; eexists; split; [reflexivity | right; eauto]].
  right. exists state, question. split; [reflexivity|]. split; [exact Hq|].
  cbv zeta.
  destruct (accept_answer w state question answer rt o) as [[e state2] w2].
  cbn [fst snd].
  destruct (_should_continue_interview state2) eqn:Hc.
  - destruct (_get_next_question w2 state2 (pick o)) as [next|] eqn:Hn.
    + left. exists next. repeat split.
    + right. split; [right; reflexivity | reflexivity].
  - right. split; [left; reflexivity | reflexivity].
Qed.

(** The evaluator after a request is the old one, or the old one
    after one evaluation. *)
Lemma process_response_evaluator (w : World) (sid answer : string) (rt : Q)
    (o : Oracle) :
  evaluator (fst (process_response w sid answer rt o)) = evaluator w
  \/ exists q d qt,
       evaluator (fst (process_response w sid answer rt o))
       = fst (ExcelEvaluator.evaluate_response (evaluator w) q answer d qt
                (provider o) (elapsed o)).
Proof.
  destruct (process_response_cases w sid answer rt o)
    as [(m & -> & _) | (state & question & _ & _ & H)]; [left; reflexivity|].
  right. cbv zeta in H. rewrite accept_answer_eq in H. cbn [fst snd] in H.
  exists (Models.question_text question), (current_difficulty state),
    (QuestionType.value (Models.question_type question)).
  destruct H as [(next & _ & _ & ->) | (_ & ->)]; reflexivity.
Qed.

(** Reachable worlds only cache enhanced evaluations. *)
Lemma reachable_cache (P : Evaluation -> Prop) :
  (forall ai la q a d, P (ExcelEvaluator._enhance_evaluation ai la q a d)) ->
  forall w, reachable w -> Derived.cache_all P (evaluator w).
Proof.
  intros HP w Hr. induction Hr as [|w w' Hr IH Hstep].
  - intros k e. cbn. rewrite lookup_empty. discriminate.
  - destruct Hstep
      as [w i p | w sid a rt o | w sid | w sid | w q a d qt outcome t].
    + unfold start_interview. cbv zeta.
      destruct (_get_next_question _ _ _); exact IH.
    + destruct (process_response_evaluator w sid a rt o)
        as [-> | (q & d & qt & ->)]; [exact IH|].
      apply evaluate_response_cache; [exact IH | apply HP].
    + unfold pause_interview.
      destruct (get_interview_state w sid) as [s|]; [|exact IH].
      destruct (bool_decide _); exact IH.
    + unfold resume_interview.
      destruct (get_interview_state w sid) as [s|]; [|exact IH].
      destruct (bool_decide _); exact IH.
    + cbn [evaluator]. apply evaluate_response_cache; [exact IH | apply HP].
Qed.


End SessionFacts.

(** ** No question is asked twice *)

Section NoRepeatFacts.

Import Models Eval FeedbackEngine ConversationManager.

Context {R : Runtime}.

Lemma no_repeats_set (w : World) (sid : string) (state : InterviewState) :
  Derived.no_repeats w -> NoDup (questions_asked state) ->
  Derived.no_repeats (set_interview_state w sid state).
Proof.
  intros Hw Hs sid' state'. unfold get_interview_state, set_interview_state.
  cbn [store]. destruct (decide (sid' = sid)) as [->|Hne].
  - rewrite lookup_insert_eq. intros [= <-]. exact Hs.
  - rewrite lookup_insert_ne by congruence. apply Hw.
Qed.

Lemma no_repeats_services (w : World) (qs : list ExcelQuestion)
    (ev : ExcelEvaluator.Evaluator) :
  Derived.no_repeats w ->
  Derived.no_repeats {| store := store w; questions := qs; evaluator := ev |}.
Proof. intros Hw sid state. apply Hw. Qed.

Lemma attach_question_NoDup (w : World) (state : InterviewState) (pick : nat)
    (q : ExcelQuestion) :
  NoDup (questions_asked state) ->
  _get_next_question w state pick = Some q ->
  NoDup (questions_asked (attach_question q state)).
Proof.
  intros Hn Hq. cbn [attach_question questions_asked].
  apply get_next_question_fresh in Hq.
  apply NoDup_app. split; [exact Hn|]. split; [|apply NoDup_singleton].
  intros x Hx Hx'. apply list_elem_of_singleton in Hx'. subst x.
  apply Hq, list_elem_of_In, Hx.
Qed.

Lemma accept_answer_questions_asked (w : World) (state : InterviewState)
    (question : ExcelQuestion) (answer : string) (rt : Q) (o : Oracle) :
  questions_asked (snd (fst (accept_answer w state question answer rt o)))
  = questions_asked state.
Proof. rewrite accept_answer_eq. reflexivity. Qed.

Lemma accept_answer_store (w : World) (state : InterviewState)
    (question : ExcelQuestion) (answer : string) (rt : Q) (o : Oracle) :
  store (snd (accept_answer w state question answer rt o)) = store w.
Proof. rewrite accept_answer_eq. reflexivity. Qed.

Lemma step_no_repeats (w w' : World) :
  step w w' -> Derived.no_repeats w -> Derived.no_repeats w'.
Proof.
  intros Hstep Hw.
  destruct Hstep as [w i p | w sid a rt o | w sid | w sid | w q a d qt outcome t].
  - unfold start_interview. cbv zeta.
    match goal with
    | |- context [_get_next_question ?w0 ?s0 p] =>
        destruct (_get_next_question w0 s0 p) as [first|] eqn:E
    end; cbn [fst].
    + apply no_repeats_set.
      * apply no_repeats_set; [exact Hw | apply NoDup_nil; exact I].
      * eapply attach_question_NoDup; [apply NoDup_nil; exact I | exact E].
    + apply no_repeats_set; [exact Hw | apply NoDup_nil; exact I].
  - destruct (process_response_cases w sid a rt o)
      as [(m & -> & _) | (state & question & Hs & Hq & H)]; [exact Hw|].
    cbv zeta in H.
    pose proof (accept_answer_questions_asked w state question a rt o) as Hqa.
    pose proof (accept_answer_store w state question a rt o) as Hst.
    destruct (accept_answer w state question a rt o) as [[e state2] w2].
    cbn [fst snd] in *.
    assert (Hw2 : Derived.no_repeats w2).
    { intros sid' state'. unfold get_interview_state. rewrite Hst. apply Hw. }
    assert (Hn2 : NoDup (questions_asked state2)).
    { rewrite Hqa. apply (Hw sid state Hs). }
    destruct H as [(next & _ & Hnext & ->) | (_ & ->)]; cbn [fst].
    + apply no_repeats_set; [exact Hw2|].
      eapply attach_question_NoDup; [exact Hn2 | exact Hnext].
    + unfold _end_interview. cbn [fst].
      apply no_repeats_set; [exact Hw2 | exact Hn2].
  - unfold pause_interview.
    destruct (get_interview_state w sid) as [s|] eqn:Hs; [|exact Hw].
    destruct (bool_decide _); [|exact Hw]. cbn [fst].
    apply no_repeats_set; [exact Hw | apply (Hw sid s Hs)].
  - unfold resume_interview.
    destruct (get_interview_state w sid) as [s|] eqn:Hs; [|exact Hw].
    destruct (bool_decide _); [|exact Hw]. cbn [fst].
    apply no_repeats_set; [exact Hw | apply (Hw sid s Hs)].
  - apply no_repeats_services, Hw.
Qed.

(** C8.  In every reachable state of the service, the list of asked
    question identifiers of every session has no duplicates: its
    length is the size of its set of elements. *)
Theorem questions_asked_no_duplicates (w : World) (sid : string)
    (state : InterviewState) :
  reachable w ->
  get_interview_state w sid = Some state ->
  NoDup (questions_asked state)
  /\ length (questions_asked state)
     = size (list_to_set (questions_asked state) : gset string).
Proof.
  intros Hr Hs.
  assert (Hn : NoDup (questions_asked state)).
  { revert sid state Hs. change (Derived.no_repeats w).
    induction Hr as [|w w' Hr IH Hstep].
    - intros sid state. unfold get_interview_state. cbn.
      rewrite lookup_empty. discriminate.
    - eapply step_no_repeats; eassumption. }
  split; [exact Hn|]. symmetry. apply size_list_to_set, Hn.
Qed.

End NoRepeatFacts.

(** ** Accepted answers *)

Section AcceptFacts.

Import Models Eval FeedbackEngine ConversationManager.
Local Open Scope Q_scope.

Context {R : Runtime}.

Lemma stored_after_responses (state2 state' : InterviewState) :
  Derived.stored_after state2 state' -> responses state' = responses state2.
Proof. intros []; reflexivity. Qed.

Lemma stored_after_scores (state2 state' : InterviewState) :
  Derived.stored_after state2 state' -> scores state' = scores state2.
Proof. intros []; reflexivity. Qed.

(** A session with a current question has its answer accepted,
    whatever else it holds. *)
Lemma process_response_accepted (w : World) (sid answer : string) (rt : Q)
    (o : Oracle) (state : InterviewState) (question : ExcelQuestion) :
  get_interview_state w sid = Some state ->
  current_question state = Some question ->
  let r := accept_answer w state question answer rt o in
  exists state',
    Derived.stored_after (snd (fst r)) state'
    /\ fst (process_response w sid answer rt o)
       = set_interview_state (snd r) sid state'
    /\ forall message, snd (process_response w sid answer rt o) <> RError message.
Proof.
  intros Hs Hq. cbv zeta.
  destruct (process_response_cases w sid answer rt o)
    as [(m & _ & [Hn | (s & Hs' & Hq')]) | (s & q & Hs' & Hq' & H)].
  - congruence.
  - rewrite Hs in Hs'. injection Hs' as <-. congruence.
  - rewrite Hs in Hs'. injection Hs' as <-.
    rewrite Hq in Hq'. injection Hq' as <-.
    cbv zeta in H.
    destruct H as [(next & _ & _ & ->) | (_ & ->)].
    + eexists. split; [apply Derived.stored_continue|]. split; [reflexivity|].
      intros message. discriminate.
    + eexists. split; [apply Derived.stored_completed|]. split; [reflexivity|].
      intros message. discriminate.
Qed.

Lemma update_question_stats_lookup (qs : list ExcelQuestion) (i : string)
    (score rt : Q) (q0 : ExcelQuestion) :
  QuestionBankService.get_question_by_id qs i = Some q0 ->
  QuestionBankService.get_question_by_id
    (QuestionBankService.update_question_stats qs i score rt) i
  = Some (update_usage_stats q0 score rt).
Proof.
  unfold QuestionBankService.get_question_by_id.
  induction qs as [|q rest IH]; cbn; [discriminate|].
  destruct (String.eqb (Models.id q) i) eqn:E.
  - intros [= <-]. cbn. rewrite E. reflexivity.
  - intros H. cbn. rewrite E. apply IH, H.
Qed.

(** Every accepted answer updates the usage counters of the question
    it answers, once. *)
Lemma process_response_usage (w : World) (sid answer : string) (rt : Q)
    (o : Oracle) (state : InterviewState) (question q0 : ExcelQuestion) :
  get_interview_state w sid = Some state ->
  current_question state = Some question ->
  QuestionBankService.get_question_by_id (questions w) (Models.id question)
  = Some q0 ->
  QuestionBankService.get_question_by_id
    (questions (fst (process_response w sid answer rt o))) (Models.id question)
  = Some (update_usage_stats q0
            (overall_score (snd (Derived.evaluated w state question answer o))) rt).
Proof.
  intros Hs Hq H0.
  destruct (process_response_accepted w sid answer rt o state question Hs Hq)
    as (state' & _ & -> & _).
  rewrite accept_answer_eq. cbn [snd set_interview_state questions].
  apply update_question_stats_lookup, H0.
Qed.

(** The record appended for an accepted answer. *)
Lemma process_response_record (w : World) (sid answer : string) (rt : Q)
    (o : Oracle) (state : InterviewState) (question : ExcelQuestion) :
  get_interview_state w sid = Some state ->
  current_question state = Some question ->
  exists state',
    get_interview_state (fst (process_response w sid answer rt o)) sid
    = Some state'
    /\ responses state'
       = (responses state ++
          [ {| question_id := Models.id question;
               question_text := Models.question_text question;
               candidate_response := answer;
               evaluation := snd (Derived.evaluated w state question answer o);
               response_time := rt |} ])%list
    /\ scores state'
       = (scores state
          ++ [overall_score (snd (Derived.evaluated w state question answer o))])%list
    /\ (status state' = status state
        \/ status state' = InterviewStatus.COMPLETED).
Proof.
  intros Hs Hq.
  destruct (process_response_accepted w sid answer rt o state question Hs Hq)
    as (state' & Hst & -> & _).
  exists state'. unfold get_interview_state, set_interview_state. cbn [store].
  rewrite lookup_insert_eq.
  rewrite accept_answer_eq in Hst. cbn [fst snd] in Hst.
  destruct Hst; cbn; auto.
Qed.

End AcceptFacts.

(** ** The same answer submitted twice *)

Section RepeatFacts.

Import Models Eval FeedbackEngine ConversationManager.
Local Open Scope Q_scope.

Context {R : Runtime}.

Lemma evaluate_response_again (ev : ExcelEvaluator.Evaluator)
    (q a d qt1 qt2 : string) (o1 o2 : LLMService.ProviderOutcome) (t1 t2 : Q) :
  let p1 := ExcelEvaluator.evaluate_response ev q a d qt1 o1 t1 in
  let p2 := ExcelEvaluator.evaluate_response (fst p1) q a d qt2 o2 t2 in
  fst p2 = fst p1
  /\ Derived.clear_meta (snd p2) = Derived.clear_meta (snd p1)
  /\ evaluation_method (snd p2) = Some "cached".
Proof.
  cbv zeta.
  pose proof (evaluate_response_twice ev q a d qt1 qt2 o1 o2 t1 t2) as H.
  destruct (ExcelEvaluator.evaluate_response ev q a d qt1 o1 t1) as [ev1 e1].
  cbn [fst snd].
  destruct (ExcelEvaluator.evaluate_response ev1 q a d qt2 o2 t2) as [ev2 e2].
  exact H.
Qed.

(** What an accepted answer leaves behind, outside its own session. *)
Lemma process_response_frame (w : World) (sid answer : string) (rt : Q)
    (o : Oracle) (state : InterviewState) (question : ExcelQuestion) :
  get_interview_state w sid = Some state ->
  current_question state = Some question ->
  let w' := fst (process_response w sid answer rt o) in
  evaluator w' = fst (Derived.evaluated w state question answer o)
  /\ forall sid', sid' <> sid ->
       get_interview_state w' sid' = get_interview_state w sid'.
Proof.
  intros Hs Hq. cbv zeta.
  destruct (process_response_accepted w sid answer rt o state question Hs Hq)
    as (state' & _ & -> & _).
  rewrite accept_answer_eq. cbn [snd set_interview_state]. split; [reflexivity|].
  intros sid' Hne. unfold get_interview_state. cbn [store].
  apply lookup_insert_ne. congruence.
Qed.

(** C4, as the code has it.  Two sessions are at the same question
    with the same difficulty and receive the byte-identical answer,
    one after the other.  The second evaluation is served from the
    cache: it carries the scores, texts and analysis of the first one
    and differs from it only in the keys [evaluation_method] (now
    "cached") and [evaluation_time]; and each of the two submissions
    updates the usage counters of the question (its running averages
    take in both scores), so [times_used] has grown by two. *)
Theorem repeated_answer_is_cached_and_counted_twice
    (w : World) (sid1 sid2 answer : string) (rt1 rt2 : Q) (o1 o2 : Oracle)
    (state1 state2 : InterviewState) (question1 question2 q0 : ExcelQuestion) :
  sid1 <> sid2 ->
  get_interview_state w sid1 = Some state1 ->
  get_interview_state w sid2 = Some state2 ->
  current_question state1 = Some question1 ->
  current_question state2 = Some question2 ->
  Models.id question1 = Models.id question2 ->
  Models.question_text question1 = Models.question_text question2 ->
  current_difficulty state1 = current_difficulty state2 ->
  QuestionBankService.get_question_by_id (questions w) (Models.id question1)
  = Some q0 ->
  let w1 := fst (process_response w sid1 answer rt1 o1) in
  let w2 := fst (process_response w1 sid2 answer rt2 o2) in
  exists (state1' state2' : InterviewState) (r1 r2 : ResponseData)
         (q2 : ExcelQuestion),
    get_interview_state w1 sid1 = Some state1'
    /\ responses state1' = (responses state1 ++ [r1])%list
    /\ get_interview_state w2 sid2 = Some state2'
    /\ responses state2' = (responses state2 ++ [r2])%list
    /\ Derived.clear_meta (evaluation r2) = Derived.clear_meta (evaluation r1)
    /\ evaluation_method (evaluation r2) = Some "cached"
    /\ QuestionBankService.get_question_by_id (questions w2) (Models.id question1)
       = Some q2
    /\ q2 = update_usage_stats
              (update_usage_stats q0 (overall_score (evaluation r1)) rt1)
              (overall_score (evaluation r2)) rt2
    /\ times_used q2 = S (S (times_used q0)).
Proof.
  intros Hne Hs1 Hs2 Hq1 Hq2 Hid Htext Hd H0. cbv zeta.
  destruct (process_response_record w sid1 answer rt1 o1 state1 question1 Hs1 Hq1)
    as (state1' & Hg1 & Hr1 & _).
  destruct (process_response_frame w sid1 answer rt1 o1 state1 question1 Hs1 Hq1)
    as (Hev1 & Hframe1).
  pose proof (process_response_usage w sid1 answer rt1 o1 state1 question1 q0
                Hs1 Hq1 H0) as Hu1.
  set (w1 := fst (process_response w sid1 answer rt1 o1)) in *.
  assert (Hs2' : get_interview_state w1 sid2 = Some state2).
  { rewrite Hframe1 by congruence. exact Hs2. }
  destruct (process_response_record w1 sid2 answer rt2 o2 state2 question2 Hs2' Hq2)
    as (state2' & Hg2 & Hr2 & _).
  rewrite Hid in Hu1.
  pose proof (process_response_usage w1 sid2 answer rt2 o2 state2 question2 _
                Hs2' Hq2 Hu1) as Hu2.
  rewrite <- Hid in Hu2.
  eexists state1', state2', _, _, _.
  split; [exact Hg1|]. split; [exact Hr1|].
  split; [exact Hg2|]. split; [exact Hr2|].
  cbn [evaluation].
  assert (Hagain :
            Derived.clear_meta (snd (Derived.evaluated w1 state2 question2 answer o2))
            = Derived.clear_meta (snd (Derived.evaluated w state1 question1 answer o1))
            /\ evaluation_method (snd (Derived.evaluated w1 state2 question2 answer o2))
               = Some "cached").
  { unfold Derived.evaluated at 1 3. rewrite Hev1. unfold Derived.evaluated.
    rewrite <- Htext, <- Hd.
    apply (evaluate_response_again (evaluator w)). }
  destruct Hagain as [Hc Hm].
  split; [exact Hc|]. split; [exact Hm|].
  split; [exact Hu2|]. split; reflexivity.
Qed.

End RepeatFacts.

(** ** An interview in which the provider always fails *)

Section FallbackFacts.

Import Models Eval FeedbackEngine ConversationManager.
Local Open Scope Q_scope.

Context {R : Runtime}.

(** With at least one response the aggregator returns the full
    assessment, not the default one. *)
Lemma generate_final_assessment_full (sid : string)
    (responses : list ResponseData) (narrative : option string) :
  responses <> [] ->
  let a := generate_final_assessment sid responses narrative in
  a_interview_id a = Some sid
  /\ a_total_questions a = length responses
  /\ a_statistics a = _calculate_performance_statistics responses
  /\ a_overall_score a
     = Num.round2 (Num.mean (map (fun r => overall_score (evaluation r)) responses)).
Proof.
  intros Hne. cbv zeta. destruct responses as [|r rest]; [congruence|].
  unfold generate_final_assessment, _generate_recommendations.
  rewrite consistency_of_stats.
  match goal with
  | |- context [match ?l with [] => Ok _ | _ :: _ => Ok _ end] => destruct l
  end; repeat split.
Qed.

Lemma clear_meta_set_method (m : string) (e : Evaluation) :
  Derived.clear_meta (set_method m e) = Derived.clear_meta e.
Proof. reflexivity. Qed.

Lemma clear_meta_set_time (t : Q) (e : Evaluation) :
  Derived.clear_meta (set_time t e) = Derived.clear_meta e.
Proof. reflexivity. Qed.

(** When the provider fails, what the evaluator returns is built from
    the fallback evaluation, provided what it has cached is. *)
Lemma evaluate_response_from_fallback (ev : ExcelEvaluator.Evaluator)
    (q a d qt : string) (outcome : LLMService.ProviderOutcome) (t : Q) :
  Derived.cache_all Derived.from_fallback ev ->
  Derived.provider_failed outcome ->
  Derived.from_fallback (snd (ExcelEvaluator.evaluate_response ev q a d qt outcome t))
  /\ Derived.cache_all Derived.from_fallback
       (fst (ExcelEvaluator.evaluate_response ev q a d qt outcome t)).
Proof.
  intros Hc Hf.
  assert (Hnew :
            Derived.from_fallback
              (ExcelEvaluator._enhance_evaluation
                 (LLMService.evaluate_excel_response q a d outcome)
                 (ExcelEvaluator._perform_local_analysis q a d qt) q a d)).
  { rewrite (failed_provider_fallback q a d outcome Hf).
    exists q, a, d, qt. reflexivity. }
  split; [|apply evaluate_response_cache; assumption].
  destruct (ExcelEvaluator.evaluation_cache ev
              !! ExcelEvaluator._generate_cache_key q a d) as [c|] eqn:E.
  - rewrite (evaluate_response_hit _ _ _ _ _ _ _ _ E). cbn [snd].
    destruct (Hc _ _ E) as (q' & a' & d' & qt' & Heq).
    exists q', a', d', qt'. rewrite clear_meta_set_method. exact Heq.
  - rewrite (evaluate_response_miss _ _ _ _ _ _ _ E). cbn [snd].
    destruct Hnew as (q' & a' & d' & qt' & Heq).
    exists q', a', d', qt'.
    rewrite clear_meta_set_method, clear_meta_set_time. exact Heq.
Qed.

Lemma interview_loop_cons (w : World) (sid : string) (i : Derived.Submission)
    (rest : list Derived.Submission) :
  Derived.interview_loop w sid (i :: rest)
  = match snd (process_response w sid (Derived.sub_answer i) (Derived.sub_time i)
                 (Derived.sub_oracle i)), rest with
    | RContinue _ _ _, _ :: _ =>
        Derived.interview_loop
          (fst (process_response w sid (Derived.sub_answer i) (Derived.sub_time i)
                  (Derived.sub_oracle i))) sid rest
    | r, _ =>
        (fst (process_response w sid (Derived.sub_answer i) (Derived.sub_time i)
                (Derived.sub_oracle i)), Some r)
    end.
Proof.
  cbn [Derived.interview_loop].
  destruct (process_response w sid _ _ _) as [w' r]. cbn [fst snd].
  destruct r, rest; reflexivity.
Qed.

Lemma interview_loop_completes (sid : string) (inputs : list Derived.Submission) :
  forall (w : World) (state : InterviewState) (question : ExcelQuestion),
    get_interview_state w sid = Some state ->
    current_question state = Some question ->
    Derived.cache_all Derived.from_fallback (evaluator w) ->
    Forall (fun r => Derived.from_fallback (evaluation r)) (responses state) ->
    inputs <> [] ->
    (15 <= length (responses state) + length inputs)%nat ->
    Forall (fun i => Derived.provider_failed (provider (Derived.sub_oracle i)))
           inputs ->
    Derived.completed_from_fallback sid (length (responses state))
      (length (responses state) + length inputs)
      (Derived.interview_loop w sid inputs).
Proof.
  induction inputs as [|i rest IH]; [congruence|].
  intros w state question Hs Hq Hcache Hresp _ Hlen Hfail.
  apply Forall_cons in Hfail as [Hfi Hfrest].
  rewrite interview_loop_cons.
  set (answer := Derived.sub_answer i). set (rt := Derived.sub_time i).
  set (o := Derived.sub_oracle i) in *.
  destruct (evaluate_response_from_fallback (evaluator w)
              (Models.question_text question) answer (current_difficulty state)
              (QuestionType.value (Models.question_type question))
              (provider o) (elapsed o) Hcache Hfi) as [He Hcache'].
  fold (Derived.evaluated w state question answer o) in He, Hcache'.
  destruct (process_response_cases w sid answer rt o)
    as [(m & _ & [Hn | (s & Hs' & Hq')]) | (s & q & Hs' & Hq' & H)];
    [congruence | rewrite Hs in Hs'; injection Hs' as <-; congruence |].
  rewrite Hs in Hs'. injection Hs' as <-.
  rewrite Hq in Hq'. injection Hq' as <-.
  cbv zeta in H. rewrite accept_answer_eq in H. cbn [fst snd] in H.
  set (e := snd (Derived.evaluated w state question answer o)) in *.
  set (state1 := record_response state question answer e rt) in *.
  set (state2 := with_difficulty
                   (_adjust_difficulty (scores state1) (current_difficulty state1))
                   state1) in *.
  assert (Hresp2 : Forall (fun r => Derived.from_fallback (evaluation r))
                          (responses state2)).
  { cbn. apply Forall_app. split; [exact Hresp|].
    apply Forall_cons. split; [exact He | apply Forall_nil; exact I]. }
  assert (Hlen2 : length (responses state2) = S (length (responses state))).
  { cbn. rewrite length_app. cbn. lia. }
  destruct H as [(next & Hcont & Hnext & Hpr) | (_ & Hpr)]; rewrite Hpr.
  - cbn [fst snd].
    destruct rest as [|i' rest'].
    + (* the last submission cannot be answered by "continue" *)
      exfalso. apply should_continue_bound in Hcont.
      cbn [length] in Hlen. lia.
    + pose proof (IH (set_interview_state
                        {| store := store w;
                           questions :=
                             QuestionBankService.update_question_stats (questions w)
                               (Models.id question) (overall_score e) rt;
                           evaluator := fst (Derived.evaluated w state question answer o) |}
                        sid (attach_question next state2))
                     (attach_question next state2) next) as IH'.
      destruct IH' as (assessment & summary & state' & H1 & H2 & H3 & H4 & H5 & H6
                       & H7 & H8 & H9).
      * unfold get_interview_state, set_interview_state. cbn [store].
        apply lookup_insert_eq.
      * reflexivity.
      * exact Hcache'.
      * exact Hresp2.
      * discriminate.
      * change (responses (attach_question next state2)) with (responses state2).
        rewrite Hlen2. cbn [length] in *. lia.
      * exact Hfrest.
      * exists assessment, summary, state'.
        change (responses (attach_question next state2)) with (responses state2) in H7.
        rewrite Hlen2 in H7. cbn [length] in *.
        repeat (split; [assumption|]). split; [lia|]. split; assumption.
  - unfold _end_interview. cbn [fst snd].
    assert (Hne : responses state2 <> []).
    { intros Hnil. rewrite Hnil in Hlen2. discriminate. }
    destruct (generate_final_assessment_full sid (responses state2)
                (narrative o) Hne) as (Ha1 & Ha2 & Ha3 & _).
    eexists _, _, _. split; [reflexivity|].
    split; [unfold get_interview_state, set_interview_state; cbn [store];
            apply lookup_insert_eq|].
    split; [reflexivity|]. split; [reflexivity|].
    split; [exact Ha1|]. split; [exact Ha2|].
    split; [cbn [completed responses] in *; rewrite Hlen2; cbn [length]; lia|].
    split; [exact Ha3 | exact Hresp2].
Qed.

End FallbackFacts.

(** ** The provider's failures *)

Section ProviderFailureFacts.

Import Models Eval FeedbackEngine ConversationManager.
Local Open Scope Q_scope.

Context {R : Runtime}.

(** C6.  When the provider call raises, its text is not JSON, or a
    required key is missing, [evaluate_excel_response] returns (and
    does not raise) the fallback evaluation, whose five sub-scores are
    the baseline of the difficulty: 65 for basic, 55 for intermediate,
    45 for advanced.  Hence a started session whose fifteen
    submissions all meet a failing provider is completed by the last
    of them at the latest, with a full final assessment over
    evaluations that are all built from the fallback evaluation. *)
Theorem provider_failure_falls_back
    (w : World) (sid : string) (state : InterviewState)
    (question : ExcelQuestion) (inputs : list Derived.Submission) :
  get_interview_state w sid = Some state ->
  current_question state = Some question ->
  responses state = [] ->
  Derived.cache_all Derived.from_fallback (evaluator w) ->
  length inputs = 15%nat ->
  Forall (fun i => Derived.provider_failed (provider (Derived.sub_oracle i)))
         inputs ->
  (forall (q a d : string) (outcome : LLMService.ProviderOutcome),
      Derived.provider_failed outcome ->
      let e := LLMService.evaluate_excel_response q a d outcome in
      e = LLMService._get_fallback_evaluation d
      /\ sub_scores e = repeat (LLMService.base_scores d) 5)
  /\ LLMService.base_scores "basic" = 65
  /\ LLMService.base_scores "intermediate" = 55
  /\ LLMService.base_scores "advanced" = 45
  /\ Derived.completed_from_fallback sid 0 15 (Derived.interview_loop w sid inputs).
Proof.
  intros Hs Hq Hresp Hcache Hlen Hfail.
  split.
  { intros q a d outcome Hf. cbv zeta.
    rewrite (failed_provider_fallback q a d outcome Hf). split; reflexivity. }
  repeat (split; [reflexivity|]).
  pose proof (interview_loop_completes sid inputs w state question Hs Hq Hcache)
    as H.
  rewrite Hresp, Hlen in H. cbn [length Nat.add] in H.
  apply H.
  - apply Forall_nil. exact I.
  - intros ->. discriminate.
  - lia.
  - exact Hfail.
Qed.

End ProviderFailureFacts.

(** ** Evaluations at concrete inputs *)

Section Runs.

Import Models Eval FeedbackEngine ConversationManager.
Local Open Scope Q_scope.

Lemma sample_sqrt_nonneg : sqrt_nonneg Sample.runtime.
Proof.
  intros x. unfold py_sqrt, Sample.runtime, Sample.sqrt6.
  set (z := Z.sqrt _).
  assert (Hz : (0 <= z)%Z) by apply Z.sqrt_nonneg.
  unfold Qle. cbn. lia.
Qed.

Lemma started_reachable : reachable (R := Sample.runtime) Sample.started.
Proof.
  eapply reachable_step; [apply reachable_initial|].
  apply (step_start (R := Sample.runtime)).
Qed.

Lemma two_started_reachable : reachable (R := Sample.runtime) Sample.two_started.
Proof.
  eapply reachable_step; [apply started_reachable|].
  apply (step_start (R := Sample.runtime)).
Qed.

(** The evaluator's own fallback (its [except] branch) is written out
    with an overall score of its own, one point under the plain mean of
    its sub-scores. *)
Lemma evaluator_fallback_overall_score :
  let e := ExcelEvaluator._get_fallback_evaluation "basic" "formula" in
  sub_scores e = [60; 60 - 5; 60; 60 - 10; 60 - 5]
  /\ overall_score e == 55
  /\ Derived.plain_mean e == 56.
Proof. cbv zeta. repeat split; vm_compute; reflexivity. Qed.





(** C3 fails on the code.  Session [s1] is paused with a question
    pending; [process_response] evaluates the answer all the same,
    replies "continue", and the stored record now has one response,
    one score, a second asked question and three more transcript
    lines, its status still being "paused". *)
Theorem paused_session_answer_is_processed :
  let result :=
    process_response (R := Sample.runtime) Sample.paused "s1" Sample.answer 30
                     (Sample.oracle Sample.ordinary) in
  Sample.snapshot Sample.paused "s1"
  = Some (InterviewStatus.PAUSED, 0%nat, 0%nat, ["inter_001"], 0%nat)
  /\ (exists e next progress, snd result = RContinue e next progress)
  /\ Sample.snapshot (fst result) "s1"
     = Some (InterviewStatus.PAUSED, 1%nat, 1%nat, ["inter_001"; "inter_002"], 3%nat).
Proof.
  cbv zeta. split; [vm_compute; reflexivity|].
  split; [|vm_compute; reflexivity].
  eexists _, _, _. vm_compute. reflexivity.
Qed.

(** C4, as stated, fails.  Sessions [s1] and [s2] are both at question
    [inter_001] with the same difficulty and give the same answer.
    The second evaluation is not identical to the first (it is marked
    "cached" and has no evaluation time), and the question's
    [times_used] is 2 after the two submissions. *)
Lemma repeated_answer_differs_and_counts_twice :
  let p1 :=
    process_response (R := Sample.runtime) Sample.two_started "s1"
                     Sample.answer 30 (Sample.oracle Sample.ordinary) in
  let p2 :=
    process_response (R := Sample.runtime) (fst p1) "s2"
                     Sample.answer 30 (Sample.oracle Sample.ordinary) in
  Sample.evaluation_of (snd p2) <> Sample.evaluation_of (snd p1)
  /\ option_map evaluation_method (Sample.evaluation_of (snd p1))
     = Some (Some "ai_enhanced")
  /\ option_map evaluation_method (Sample.evaluation_of (snd p2))
     = Some (Some "cached")
  /\ option_map times_used
       (QuestionBankService.get_question_by_id (questions Sample.two_started)
          "inter_001") = Some 0%nat
  /\ option_map times_used
       (QuestionBankService.get_question_by_id (questions (fst p2)) "inter_001")
     = Some 2%nat.
Proof.
  cbv zeta. split; [vm_compute; discriminate|].
  repeat split; vm_compute; reflexivity.
Qed.

End Runs.

(** ** The theorems with hypotheses, at concrete inputs *)

Section Witnesses.

Import Models Eval FeedbackEngine ConversationManager.
Local Open Scope Q_scope.

Lemma repeated_answer_is_cached_and_counted_twice_witness :
  let w := Sample.two_started in
  let w1 :=
    fst (process_response (R := Sample.runtime) w "s1" Sample.answer 30
           (Sample.oracle Sample.ordinary)) in
  let w2 :=
    fst (process_response (R := Sample.runtime) w1 "s2" Sample.answer 45
           (Sample.oracle LLMService.ProviderError)) in
  exists (state1 state2 : InterviewState) (question1 q0 : ExcelQuestion),
    get_interview_state w "s1" = Some state1
    /\ get_interview_state w "s2" = Some state2
    /\ current_question state1 = Some question1
    /\ QuestionBankService.get_question_by_id (questions w) (Models.id question1)
       = Some q0
    /\ exists (state1' state2' : InterviewState) (r1 r2 : ResponseData)
              (q2 : ExcelQuestion),
         get_interview_state w1 "s1" = Some state1'
         /\ responses state1' = (responses state1 ++ [r1])%list
         /\ get_interview_state w2 "s2" = Some state2'
         /\ responses state2' = (responses state2 ++ [r2])%list
         /\ Derived.clear_meta (evaluation r2) = Derived.clear_meta (evaluation r1)
         /\ evaluation_method (evaluation r2) = Some "cached"
         /\ QuestionBankService.get_question_by_id (questions w2)
              (Models.id question1) = Some q2
         /\ q2 = update_usage_stats
                   (update_usage_stats q0 (overall_score (evaluation r1)) 30)
                   (overall_score (evaluation r2)) 45
         /\ times_used q2 = S (S (times_used q0)).
Proof.
  cbv zeta. eexists _, _, _, _.
  split; [lazy; reflexivity|]. split; [lazy; reflexivity|].
  split; [lazy; reflexivity|]. split; [lazy; reflexivity|].
  eapply (repeated_answer_is_cached_and_counted_twice (R := Sample.runtime)
            Sample.two_started "s1" "s2" Sample.answer 30 45
            (Sample.oracle Sample.ordinary)
            (Sample.oracle LLMService.ProviderError)).
  - discriminate.
  - lazy; reflexivity.
  - lazy; reflexivity.
  - lazy; reflexivity.
  - lazy; reflexivity.
  - reflexivity.
  - reflexivity.
  - reflexivity.
  - lazy; reflexivity.
Defined.

Lemma provider_failure_falls_back_witness :
  (forall (q a d : string) (outcome : LLMService.ProviderOutcome),
      Derived.provider_failed outcome ->
      let e := LLMService.evaluate_excel_response q a d outcome in
      e = LLMService._get_fallback_evaluation d
      /\ sub_scores e = repeat (LLMService.base_scores d) 5)
  /\ LLMService.base_scores "basic" = 65
  /\ LLMService.base_scores "intermediate" = 55
  /\ LLMService.base_scores "advanced" = 45
  /\ Derived.completed_from_fallback (R := Sample.runtime) "s1" 0 15
       (Derived.interview_loop (R := Sample.runtime) Sample.started "s1"
          Sample.failing_inputs).
Proof.
  eapply (provider_failure_falls_back (R := Sample.runtime) Sample.started "s1").
  - lazy; reflexivity.
  - lazy; reflexivity.
  - reflexivity.
  - intros k e H. lazy in H. discriminate H.
  - reflexivity.
  - unfold Sample.failing_inputs. cbn [repeat].
    repeat (apply Forall_cons; split; [exact I|]). apply Forall_nil. exact I.
Defined.

Lemma questions_asked_no_duplicates_witness :
  exists state : InterviewState,
    get_interview_state Sample.two_started "s2" = Some state
    /\ NoDup (questions_asked state)
    /\ length (questions_asked state)
       = size (list_to_set (questions_asked state) : gset string).
Proof.
  eexists. split; [lazy; reflexivity|].
  apply (questions_asked_no_duplicates (R := Sample.runtime)
           Sample.two_started "s2").
  - apply two_started_reachable.
  - lazy; reflexivity.
Defined.

Lemma consistency_between_75_and_100_witness :
  let stats :=
    _calculate_performance_statistics (R := Sample.runtime) Sample.two_responses in
  let all_scores :=
    map (fun x => Eval.overall_score (evaluation x)) Sample.two_responses in
  exists c : Q,
    s_consistency stats = Some c
    /\ c = Num.round2 (100 - Qmin (if (1 <? length all_scores)%nat
                                   then Num.stdev (R := Sample.runtime) all_scores
                                   else 0) 25)
    /\ 75 <= c <= 100
    /\ ((length Sample.two_responses < 2)%nat -> c == 100)
    /\ forall score : Q,
         _determine_hire_recommendation score stats
         = Spec.recommendation_by_score score.
Proof.
  apply (consistency_between_75_and_100 (R := Sample.runtime) sample_sqrt_nonneg
           Sample.two_responses).
  discriminate.
Defined.

End Witnesses.

(** ** Sums and means *)

Section SumFacts.

Local Open Scope Q_scope.

Lemma fold_left_Qplus (l : list Q) (acc : Q) :
  fold_left Qplus l acc == acc + Num.sum l.
Proof.
  unfold Num.sum. revert acc.
  induction l as [|x l IH]; intros acc; cbn [fold_left].
  - lra.
  - rewrite (IH (acc + x)), (IH (0 + x)). lra.
Qed.

Lemma sum_cons (x : Q) (l : list Q) : Num.sum (x :: l) == x + Num.sum l.
Proof.
  unfold Num.sum at 1. cbn [fold_left]. rewrite fold_left_Qplus. lra.
Qed.

Lemma sum_app (l k : list Q) : Num.sum (l ++ k) == Num.sum l + Num.sum k.
Proof.
  unfold Num.sum at 1. rewrite fold_left_app.
  rewrite fold_left_Qplus. reflexivity.
Qed.

Lemma of_nat_S (n : nat) : Num.of_nat (S n) == Num.of_nat n + 1.
Proof.
  unfold Num.of_nat. rewrite Nat2Z.inj_succ, <- Z.add_1_r, inject_Z_plus.
  reflexivity.
Qed.

Lemma of_nat_nonneg (n : nat) : 0 <= Num.of_nat n.
Proof.
  unfold Num.of_nat. change 0 with (inject_Z 0). rewrite <- Zle_Qle. lia.
Qed.

Lemma of_nat_pos (n : nat) : (0 < n)%nat -> 0 < Num.of_nat n.
Proof.
  intros Hn. unfold Num.of_nat. change 0 with (inject_Z 0).
  rewrite <- Zlt_Qlt. lia.
Qed.

(** The sum of values between [a] and [b] lies between [a] and [b]
    times their number. *)
Lemma sum_bounds (a b : Q) (l : list Q) :
  Forall (fun x => a <= x <= b) l ->
  a * Num.of_nat (length l) <= Num.sum l <= b * Num.of_nat (length l).
Proof.
  induction 1 as [|x l [Hx1 Hx2] _ [IH1 IH2]].
  - cbn. unfold Num.sum. cbn. change (Num.of_nat 0) with 0. lra.
  - cbn [length]. rewrite sum_cons, of_nat_S. split; lra.
Qed.

Lemma mean_bounds (a b : Q) (l : list Q) :
  l <> [] ->
  Forall (fun x => a <= x <= b) l ->
  a <= Num.sum l / Num.of_nat (length l) <= b.
Proof.
  intros Hne Hl. destruct (sum_bounds a b l Hl) as [H1 H2].
  assert (Hn : 0 < Num.of_nat (length l)).
  { apply of_nat_pos. destruct l; [congruence | cbn; lia]. }
  split.
  - apply Qle_shift_div_l; assumption.
  - apply Qle_shift_div_r; assumption.
Qed.

End SumFacts.

(** ** Scores stay on the scale *)

Section ScoreRangeFacts.

Import Models Eval ConversationManager.
Local Open Scope Q_scope.

Lemma clamp_in_range (x : Q) : Derived.in_range (Qmax 0 (Qmin 100 x)).
Proof.
  unfold Derived.in_range.
  destruct (Q.min_spec 100 x) as [[H1 E1] | [H1 E1]];
    destruct (Q.max_spec 0 (Qmin 100 x)) as [[H2 E2] | [H2 E2]];
    rewrite E2; rewrite ?E1 in *; lra.
Qed.



(** The rounded plain mean of five scores on the scale is on the
    scale. *)
Lemma mean5_in_range (a b c d e : Q) :
  Derived.in_range a -> Derived.in_range b -> Derived.in_range c ->
  Derived.in_range d -> Derived.in_range e ->
  Derived.in_range
    (Num.round2 (Num.sum [a; b; c; d; e] / Num.of_nat (length [a; b; c; d; e]))).
Proof.
  intros Ha Hb Hc Hd He.
  assert (Hm : 0 <= Num.sum [a; b; c; d; e] / Num.of_nat (length [a; b; c; d; e])
               <= 100).
  { apply mean_bounds; [discriminate|].
    repeat (apply Forall_cons; split; [assumption|]). apply Forall_nil. exact I. }
  split.
  - apply (round2_ge 0), Hm.
  - apply (round2_le 100), Hm.
Qed.

Lemma enhance_in_range (ai : Evaluation) (la : LocalAnalysis)
    (q a d : string) :
  Derived.scores_in_range (ExcelEvaluator._enhance_evaluation ai la q a d).
Proof.
  unfold Derived.scores_in_range, ExcelEvaluator._enhance_evaluation, sub_scores.
  cbn [technical_accuracy communication_clarity problem_solving_approach
       completeness efficiency overall_score].
  split.
  - repeat (apply Forall_cons; split; [apply clamp_in_range|]).
    apply Forall_nil. exact I.
  - apply mean5_in_range; apply clamp_in_range.
Qed.


Lemma set_method_in_range (m : string) (e : Evaluation) :
  Derived.scores_in_range e -> Derived.scores_in_range (set_method m e).
Proof. intros H. exact H. Qed.

(** What the evaluator returns in a reachable state is on the scale. *)
Lemma evaluate_response_in_range `{R : Runtime} (w : World)
    (question answer difficulty question_type : string)
    (outcome : LLMService.ProviderOutcome) (elapsed : Q) :
  reachable w ->
  Derived.scores_in_range
    (snd (ExcelEvaluator.evaluate_response (evaluator w) question answer
            difficulty question_type outcome elapsed)).
Proof.
  intros Hr.
  pose proof (reachable_cache Derived.scores_in_range enhance_in_range w Hr) as Hc.
  destruct (ExcelEvaluator.evaluation_cache (evaluator w)
              !! ExcelEvaluator._generate_cache_key question answer difficulty)
    as [c|] eqn:E.
  - rewrite (evaluate_response_hit _ _ _ _ _ _ _ _ E). cbn [snd].
    apply set_method_in_range, (Hc _ _ E).
  - rewrite (evaluate_response_miss _ _ _ _ _ _ _ E). cbn [snd].
    apply enhance_in_range.
Qed.

(** X2.  In every reachable state of the service, the evaluation that
    [evaluate_response] returns, freshly blended or cached, has its
    five sub-scores and its overall score between 0 and 100. *)
Theorem evaluation_scores_in_range `{R : Runtime} (w : World)
    (question answer difficulty question_type : string)
    (outcome : LLMService.ProviderOutcome) (elapsed : Q) :
  reachable w ->
  Derived.scores_in_range
    (snd (ExcelEvaluator.evaluate_response (evaluator w) question answer
            difficulty question_type outcome elapsed)).
Proof. apply evaluate_response_in_range. Qed.

End ScoreRangeFacts.

(** ** The heuristic adjustments *)

Section AdjustmentFacts.

Import Eval ExcelEvaluator.
Local Open Scope Q_scope.

Lemma adjustment_ranges (analysis : LocalAnalysis) (difficulty : string) :
  let adj := _calculate_score_adjustments analysis difficulty in
  (0 <= adj_technical_accuracy adj <= 10)
  /\ (-5 <= adj_communication_clarity adj <= 9)
  /\ (0 <= adj_problem_solving_approach adj <= 6)
  /\ (0 <= adj_completeness adj <= 8)
  /\ adj_efficiency adj = 0.
Proof.
  cbv zeta. unfold _calculate_score_adjustments.
  cbn [adj_technical_accuracy adj_communication_clarity
       adj_problem_solving_approach adj_completeness adj_efficiency].
  destruct (technical_indicators analysis) as [f s sf cr rg].
  destruct (communication_indicators analysis) as [ue pe sr al].
  destruct (completeness_indicators analysis) as [h wh wn pa].
  cbn [mentions_specific_functions mentions_cell_references mentions_ranges
       mentions_steps uses_explanation provides_examples structured_response
       appropriate_length addresses_how addresses_what addresses_when
       provides_alternatives].
  split; [destruct sf, cr, rg; vm_compute; split; discriminate|].
  split; [destruct ue, pe, sr, al; vm_compute; split; discriminate|].
  split; [destruct s, (Num.gtb (keyword_density analysis) (1 # 10));
          vm_compute; split; discriminate|].
  split; [destruct h, wh, wn, pa; vm_compute; split; discriminate|].
  reflexivity.
Qed.

(** Within 15 points either way the cap of [_enhance_evaluation] leaves
    the adjustment as it is. *)
Lemma cap_is_identity (a : Q) :
  -15 < a -> a < 15 -> Qmin 15 (Qmax (-15) a) = a.
Proof.
  intros H1 H2. unfold Qmin, Qmax, GenericMinMax.gmin, GenericMinMax.gmax.
  assert (E1 : (-15 ?= a) = Lt) by (apply Qlt_alt; exact H1).
  rewrite E1.
  assert (E2 : (15 ?= a) = Gt) by (apply Qgt_alt; exact H2).
  rewrite E2. reflexivity.
Qed.

Lemma clamp_between (x lo hi : Q) :
  0 <= lo -> hi <= 100 -> lo <= x <= hi ->
  lo <= Qmax 0 (Qmin 100 x) <= hi.
Proof.
  intros Hlo Hhi [H1 H2].
  destruct (Q.min_spec 100 x) as [[Ha Ea] | [Ha Ea]];
    destruct (Q.max_spec 0 (Qmin 100 x)) as [[Hb Eb] | [Hb Eb]];
    rewrite Eb; rewrite ?Ea in *; lra.
Qed.

Lemma clamp_monotone_bounds (o a : Q) :
  Derived.in_range o ->
  (0 <= a -> o <= Qmax 0 (Qmin 100 (o + a)) <= o + a)
  /\ (a <= 0 -> o + a <= Qmax 0 (Qmin 100 (o + a)) <= o).
Proof.
  intros [Ho1 Ho2].
  destruct (Q.min_spec 100 (o + a)) as [[Ha Ea] | [Ha Ea]];
    destruct (Q.max_spec 0 (Qmin 100 (o + a))) as [[Hb Eb] | [Hb Eb]];
    rewrite Eb; rewrite ?Ea in *; split; intros; lra.
Qed.

(** X3.  The heuristic adjustments of [_calculate_score_adjustments] lie
    in fixed ranges (technical accuracy 0 to 10, communication clarity
    -5 to 9, problem solving 0 to 6, completeness 0 to 8, efficiency
    always 0), so the cap of 15 points in [_enhance_evaluation] never
    takes effect: each blended sub-score is the provider's score plus
    the adjustment, clamped to 0..100.  For provider scores on the
    scale the blend therefore never lowers technical accuracy, problem
    solving or completeness, raises no score by more than 10, lowers
    communication clarity by at most 5, and leaves efficiency as it
    is. *)
Theorem blend_stays_within_adjustment_ranges (ai : Evaluation)
    (la : LocalAnalysis) (q a d : string) :
  let adj := _calculate_score_adjustments la d in
  let e := _enhance_evaluation ai la q a d in
  ((0 <= adj_technical_accuracy adj <= 10)
   /\ (-5 <= adj_communication_clarity adj <= 9)
   /\ (0 <= adj_problem_solving_approach adj <= 6)
   /\ (0 <= adj_completeness adj <= 8)
   /\ adj_efficiency adj = 0)
  /\ (technical_accuracy e
      = Qmax 0 (Qmin 100 (technical_accuracy ai + adj_technical_accuracy adj))
      /\ communication_clarity e
         = Qmax 0 (Qmin 100 (communication_clarity ai + adj_communication_clarity adj))
      /\ problem_solving_approach e
         = Qmax 0 (Qmin 100 (problem_solving_approach ai
                             + adj_problem_solving_approach adj))
      /\ completeness e
         = Qmax 0 (Qmin 100 (completeness ai + adj_completeness adj))
      /\ efficiency e = Qmax 0 (Qmin 100 (efficiency ai + adj_efficiency adj)))
  /\ (Derived.scores_in_range ai ->
      (technical_accuracy ai <= technical_accuracy e <= technical_accuracy ai + 10)
      /\ (communication_clarity ai - 5 <= communication_clarity e
          <= communication_clarity ai + 9)
      /\ (problem_solving_approach ai <= problem_solving_approach e
          <= problem_solving_approach ai + 6)
      /\ (completeness ai <= completeness e <= completeness ai + 8)
      /\ efficiency e == efficiency ai).
Proof.
  cbv zeta.
  pose proof (adjustment_ranges la d) as Hr. cbv zeta in Hr.
  destruct Hr as (Ht & Hc & Hp & Hk & He).
  split; [repeat split; first [apply Ht | apply Hc | apply Hp | apply Hk | exact He]|].
  unfold _enhance_evaluation, adjust.
  cbn [technical_accuracy communication_clarity problem_solving_approach
       completeness efficiency].
  set (adj := _calculate_score_adjustments la d) in *.
  rewrite (cap_is_identity (adj_technical_accuracy adj)) by lra.
  rewrite (cap_is_identity (adj_communication_clarity adj)) by lra.
  rewrite (cap_is_identity (adj_problem_solving_approach adj)) by lra.
  rewrite (cap_is_identity (adj_completeness adj)) by lra.
  rewrite (cap_is_identity (adj_efficiency adj)) by (rewrite He; lra).
  split; [repeat split|].
  intros [Hsub _]. unfold sub_scores in Hsub.
  apply Forall_cons in Hsub as [Hta Hsub].
  apply Forall_cons in Hsub as [Hcc Hsub].
  apply Forall_cons in Hsub as [Hps Hsub].
  apply Forall_cons in Hsub as [Hco Hsub].
  apply Forall_cons in Hsub as [Hef _].
  destruct (clamp_monotone_bounds (technical_accuracy ai)
              (adj_technical_accuracy adj) Hta) as [Ht1 _].
  destruct (clamp_monotone_bounds (problem_solving_approach ai)
              (adj_problem_solving_approach adj) Hps) as [Hp1 _].
  destruct (clamp_monotone_bounds (completeness ai)
              (adj_completeness adj) Hco) as [Hk1 _].
  destruct (clamp_monotone_bounds (communication_clarity ai)
              (adj_communication_clarity adj) Hcc) as [Hc1 Hc2].
  destruct (clamp_monotone_bounds (efficiency ai)
              (adj_efficiency adj) Hef) as [He1 He2].
  split; [specialize (Ht1 (proj1 Ht)); lra|].
  split.
  { destruct (Qlt_le_dec (adj_communication_clarity adj) 0) as [Hneg | Hpos].
    - assert (Hle : adj_communication_clarity adj <= 0) by lra.
      specialize (Hc2 Hle). lra.
    - specialize (Hc1 Hpos). lra. }
  split; [specialize (Hp1 (proj1 Hp)); lra|].
  split; [specialize (Hk1 (proj1 Hk)); lra|].
  rewrite He in He1, He2 |- *.
  assert (H0 : 0 <= 0) by lra. specialize (He1 H0).
  destruct He1 as [Hx Hy].
  apply Qle_antisym; lra.
Qed.

(** X4.  The confidence attached to a blended evaluation is one of
    0.55, 0.65, 0.75 and 0.85: it is 0.85 exactly for an answer of 30
    to 150 words that names an Excel function, and 0.55 exactly for an
    answer of fewer than 15 or more than 200 words that names none. *)
Theorem confidence_values (analysis : LocalAnalysis) :
  let c := _calculate_confidence analysis in
  let n := word_count analysis in
  let named := (0 < length (excel_functions_mentioned analysis))%nat in
  (c = 55 # 100 \/ c = 65 # 100 \/ c = 75 # 100 \/ c = 85 # 100)
  /\ (c = 85 # 100 <-> (30 <= n <= 150)%nat /\ named)
  /\ (c = 55 # 100 <-> ((n < 15)%nat \/ (200 < n)%nat) /\ ~ named).
Proof.
  cbv zeta. unfold _calculate_confidence.
  destruct (30 <=? word_count analysis)%nat eqn:E30;
    destruct (word_count analysis <=? 150)%nat eqn:E150;
    destruct (15 <=? word_count analysis)%nat eqn:E15;
    destruct (word_count analysis <=? 200)%nat eqn:E200;
    destruct (0 <? length (excel_functions_mentioned analysis))%nat eqn:Ef;
    cbn [andb];
    repeat match goal with
      | H : (_ <=? _)%nat = true |- _ => apply Nat.leb_le in H
      | H : (_ <=? _)%nat = false |- _ => apply Nat.leb_gt in H
      | H : (_ <? _)%nat = true |- _ => apply Nat.ltb_lt in H
      | H : (_ <? _)%nat = false |- _ => apply Nat.ltb_ge in H
      end;
    try lia;
    match goal with
    | |- context [Num.round2 ?x] =>
        let v := eval vm_compute in (Num.round2 x) in
        change (Num.round2 x) with v
    end;
    (split; [auto|]);
    split; split; intros H; first [discriminate H | reflexivity | lia | idtac];
    try (destruct H as [H1 H2]; lia).
Qed.

End AdjustmentFacts.

(** ** The evaluation cache *)

Section CacheFacts.

Import Eval ExcelEvaluator ConversationManager.
Local Open Scope Q_scope.

Context {R : Runtime}.






End CacheFacts.

(** ** The local analysis and letter case *)

Section CaseFacts.

Import Eval ExcelEvaluator.

Local Ltac all_chars c :=
  destruct c as [[] [] [] [] [] [] [] []]; vm_compute; reflexivity.

Lemma upper_char_idempotent (c : ascii) :
  Text.upper_char (Text.upper_char c) = Text.upper_char c.
Proof. all_chars c. Qed.

Lemma lower_upper_char (c : ascii) :
  Text.lower_char (Text.upper_char c) = Text.lower_char c.
Proof. all_chars c. Qed.

Lemma is_space_upper_char (c : ascii) :
  Text.is_space (Text.upper_char c) = Text.is_space c.
Proof. all_chars c. Qed.

Lemma eqb_dot_upper_char (c : ascii) :
  Ascii.eqb (Text.upper_char c) "." = Ascii.eqb c ".".
Proof. all_chars c. Qed.

Lemma eqb_colon_upper_char (c : ascii) :
  Ascii.eqb ":" (Text.upper_char c) = Ascii.eqb ":" c.
Proof. all_chars c. Qed.

Lemma map_chars_compose (f g h : ascii -> ascii) (s : string) :
  (forall c, f (g c) = h c) ->
  Text.map_chars f (Text.map_chars g s) = Text.map_chars h s.
Proof.
  intros H. induction s as [|c s IH]; cbn; [reflexivity|].
  rewrite H, IH. reflexivity.
Qed.

Lemma upper_upper (s : string) : Text.upper (Text.upper s) = Text.upper s.
Proof. apply map_chars_compose, upper_char_idempotent. Qed.

Lemma lower_upper (s : string) : Text.lower (Text.upper s) = Text.lower s.
Proof. apply map_chars_compose, lower_upper_char. Qed.

Lemma length_upper (s : string) : String.length (Text.upper s) = String.length s.
Proof. induction s as [|c s IH]; cbn; [reflexivity | rewrite IH; reflexivity]. Qed.

Lemma split_cons (c : ascii) (r : string) :
  Text.split (String c r)
  = if Text.is_space c then Text.split r
    else match r with
         | EmptyString => [String c EmptyString]
         | String c' _ =>
             if Text.is_space c' then String c EmptyString :: Text.split r
             else match Text.split r with
                  | h :: t => String c h :: t
                  | [] => [String c EmptyString]
                  end
         end.
Proof. reflexivity. Qed.

Lemma split_upper (s : string) :
  Text.split (Text.upper s) = map Text.upper (Text.split s).
Proof.
  induction s as [|c s IH]; [reflexivity|].
  change (Text.upper (String c s)) with (String (Text.upper_char c) (Text.upper s)).
  rewrite !split_cons, is_space_upper_char, IH.
  destruct (Text.is_space c); [reflexivity|].
  destruct s as [|c' s']; [reflexivity|].
  change (Text.upper (String c' s'))
    with (String (Text.upper_char c') (Text.upper s')).
  cbv iota. rewrite is_space_upper_char.
  destruct (Text.is_space c'); [reflexivity|].
  destruct (Text.split (String c' s')); reflexivity.
Qed.

Lemma split_on_dot_upper (s : string) :
  Text.split_on "." (Text.upper s) = map Text.upper (Text.split_on "." s).
Proof.
  induction s as [|c s IH]; [reflexivity|].
  change (Text.upper (String c s)) with (String (Text.upper_char c) (Text.upper s)).
  cbn [Text.split_on]. rewrite eqb_dot_upper_char, IH.
  destruct (Ascii.eqb c "."); [reflexivity|].
  destruct (Text.split_on "." s); reflexivity.
Qed.

Lemma has_non_space_upper (s : string) :
  Text.has_non_space (Text.upper s) = Text.has_non_space s.
Proof.
  induction s as [|c s IH]; [reflexivity|].
  change (Text.upper (String c s)) with (String (Text.upper_char c) (Text.upper s)).
  cbn [Text.has_non_space]. rewrite is_space_upper_char, IH. reflexivity.
Qed.

Lemma filter_has_non_space_upper (l : list string) :
  length (List.filter Text.has_non_space (map Text.upper l))
  = length (List.filter Text.has_non_space l).
Proof.
  induction l as [|x l IH]; [reflexivity|].
  cbn [map List.filter]. rewrite has_non_space_upper.
  destruct (Text.has_non_space x); cbn [length]; rewrite IH; reflexivity.
Qed.

Lemma prefix_colon (c : ascii) (r : string) :
  String.prefix ":" (String c r) = Ascii.eqb ":" c.
Proof.
  cbn [String.prefix].
  destruct (Ascii.ascii_dec ":" c) as [E|E].
  - subst c. destruct r; reflexivity.
  - symmetry. apply Ascii.eqb_neq. exact E.
Qed.

Lemma contains_colon_upper (s : string) :
  Text.contains ":" (Text.upper s) = Text.contains ":" s.
Proof.
  induction s as [|c s IH]; [reflexivity|].
  change (Text.upper (String c s)) with (String (Text.upper_char c) (Text.upper s)).
  cbn [Text.contains]. rewrite !prefix_colon, IH, eqb_colon_upper_char.
  reflexivity.
Qed.

(** X7.  The local analysis reads the answer without regard to letter
    case, and reads nothing but the answer: an ASCII answer and its
    upper-case form get the same analysis (lengths, functions and
    concepts found, keyword density and all indicators), whatever the
    question, the difficulty and the question type. *)
Theorem local_analysis_ignores_case (q q' response d d' qt qt' : string) :
  Derived.ascii_text response = true ->
  _perform_local_analysis q (Text.upper response) d qt
  = _perform_local_analysis q' response d' qt'.
Proof.
  intros _. unfold _perform_local_analysis.
  rewrite !upper_upper, !lower_upper, length_upper, split_upper, length_map,
    split_on_dot_upper, filter_has_non_space_upper, contains_colon_upper.
  reflexivity.
Qed.

End CaseFacts.

(** ** Usage counters of a question *)

Section UsageFacts.

Import Models.
Local Open Scope Q_scope.

Lemma usage_after_snoc (q : ExcelQuestion) (l : list (Q * Q)) (x : Q * Q) :
  Derived.usage_after q (l ++ [x])
  = update_usage_stats (Derived.usage_after q l) (fst x) (snd x).
Proof. unfold Derived.usage_after. rewrite fold_left_app. reflexivity. Qed.

Lemma update_usage_stats_description (q : ExcelQuestion) (s t : Q) :
  Derived.description (update_usage_stats q s t) = Derived.description q.
Proof. reflexivity. Qed.

Lemma passes_snoc (l : list Q) (s : Q) :
  Derived.passes (l ++ [s])
  = (Derived.passes l + if Num.geb s 60 then 1 else 0)%nat.
Proof.
  unfold Derived.passes. rewrite List.filter_app, length_app. cbn [List.filter].
  destruct (Num.geb s 60); reflexivity.
Qed.

Lemma of_nat_plus (n m : nat) : Num.of_nat (n + m) == Num.of_nat n + Num.of_nat m.
Proof.
  unfold Num.of_nat. rewrite Nat2Z.inj_add, inject_Z_plus. reflexivity.
Qed.

(** The running update of a mean gives the mean of the longer list. *)
Lemma running_mean (a s : Q) (l : list Q) :
  l <> [] ->
  a == Num.mean l ->
  (a * (Num.of_nat (S (length l)) - 1) + s) / Num.of_nat (S (length l))
  == Num.mean (l ++ [s]).
Proof.
  intros Hne Ha. unfold Num.mean in *.
  rewrite sum_app, length_app, of_nat_plus, of_nat_S. cbn [length].
  change (Num.of_nat 1) with 1. rewrite sum_cons.
  change (Num.sum []) with 0.
  assert (Hn : 0 < Num.of_nat (length l)).
  { apply of_nat_pos. destruct l; [congruence | cbn; lia]. }
  rewrite Ha. field. split; lra.
Qed.

(** X8.  Starting from a question that has never been used, the usage
    counters after any number of answers are the statistics of all
    the answers together (in exact arithmetic): [times_used] is their
    number, [average_score] and [average_response_time] are the means
    of the scores and of the response times, and [pass_rate] is the
    percentage of scores of at least 60.  Nothing else of the question
    changes. *)
Theorem usage_counters_are_batch_statistics (q : ExcelQuestion)
    (l : list (Q * Q)) :
  times_used q = 0%nat ->
  average_score q = None ->
  average_response_time q = None ->
  pass_rate q = None ->
  l <> [] ->
  let q' := Derived.usage_after q l in
  times_used q' = length l
  /\ (exists a, average_score q' = Some a /\ a == Num.mean (map fst l))
  /\ (exists t, average_response_time q' = Some t /\ t == Num.mean (map snd l))
  /\ (exists p, pass_rate q' = Some p
                /\ p == 100 * Num.of_nat (Derived.passes (map fst l))
                        / Num.of_nat (length l))
  /\ Derived.description q' = Derived.description q.
Proof.
  intros Hn Ha Ht Hp. cbv zeta.
  induction l as [|[s t] l IH] using rev_ind; [congruence|]. intros _.
  rewrite usage_after_snoc. cbn [fst snd].
  destruct l as [|y l'].
  - cbn [app Derived.usage_after fold_left].
    unfold update_usage_stats. rewrite Hn, Ha, Ht, Hp.
    cbn [times_used average_score average_response_time pass_rate length map fst snd].
    split; [reflexivity|].
    split; [eexists; split; [reflexivity|]; unfold Num.mean; rewrite sum_cons;
            change (Num.sum []) with 0; change (Num.of_nat (length [s])) with 1;
            field|].
    split; [eexists; split; [reflexivity|]; unfold Num.mean; rewrite sum_cons;
            change (Num.sum []) with 0; change (Num.of_nat (length [t])) with 1;
            field|].
    split; [|reflexivity].
    unfold Derived.passes. cbn [List.filter].
    destruct (Num.geb s 60); eexists; (split; [reflexivity|]); reflexivity.
  - set (l := y :: l') in *.
    assert (Hne : l <> []) by discriminate.
    destruct (IH Hne) as (Hn' & (a & Ea & Ha') & (t' & Et & Ht') & (p & Ep & Hp') & Hd).
    clear IH.
    assert (Hlen : 0 < Num.of_nat (length l)).
    { apply of_nat_pos. subst l. cbn. lia. }
    unfold update_usage_stats.
    rewrite Ea, Et, Ep, Hn'.
    cbn [times_used average_score average_response_time pass_rate].
    rewrite !map_app, !length_app. cbn [map length fst snd].
    split; [lia|].
    split.
    { eexists; split; [reflexivity|].
      rewrite <- (length_map fst l) at 1 2.
      apply running_mean; [subst l; discriminate | exact Ha']. }
    split.
    { eexists; split; [reflexivity|].
      rewrite <- (length_map snd l) at 1 2.
      apply running_mean; [subst l; discriminate | exact Ht']. }
    split; [|exact Hd].
    rewrite passes_snoc.
    replace (length l + 1)%nat with (S (length l)) by lia.
    destruct (Num.geb s 60); eexists; (split; [reflexivity|]);
      rewrite Hp', of_nat_plus, of_nat_S;
      [change (Num.of_nat 1) with 1 | change (Num.of_nat 0) with 0];
      field; split; lra.
Qed.

End UsageFacts.

(** ** The catalogue and the adaptive selector *)

Section CatalogueFacts.

Import Models QuestionBankService ConversationManager.
Local Open Scope Q_scope.

Context {R : Runtime}.

Lemma update_question_stats_description (qs : list ExcelQuestion) (i : string)
    (score rt : Q) :
  map Derived.description (update_question_stats qs i score rt)
  = map Derived.description qs.
Proof.
  induction qs as [|q rest IH]; [reflexivity|].
  cbn [update_question_stats]. destruct (String.eqb (id q) i).
  - reflexivity.
  - cbn [map]. rewrite IH. reflexivity.
Qed.

(** A request leaves the catalogue as it is or updates the counters of
    one question. *)
Lemma step_questions (w w' : World) :
  step w w' ->
  questions w' = questions w
  \/ exists i score rt,
       questions w' = update_question_stats (questions w) i score rt.
Proof.
  intros Hstep.
  destruct Hstep as [w i p | w sid a rt o | w sid | w sid | w q a d qt outcome t].
  - left. unfold start_interview. cbv zeta.
    destruct (_get_next_question _ _ _); reflexivity.
  - destruct (process_response_cases w sid a rt o)
      as [(m & -> & _) | (state & question & _ & _ & H)]; [left; reflexivity|].
    right. cbv zeta in H. rewrite accept_answer_eq in H. cbn [fst snd] in H.
    eexists _, _, _.
    destruct H as [(next & _ & _ & ->) | (_ & ->)]; reflexivity.
  - left. unfold pause_interview.
    destruct (get_interview_state w sid) as [s|]; [|reflexivity].
    destruct (bool_decide _); reflexivity.
  - left. unfold resume_interview.
    destruct (get_interview_state w sid) as [s|]; [|reflexivity].
    destruct (bool_decide _); reflexivity.
  - left. reflexivity.
Qed.

Lemma reachable_descriptions (w : World) :
  reachable w ->
  map Derived.description (questions w)
  = map Derived.description questions_data.
Proof.
  induction 1 as [|w w' Hr IH Hstep]; [reflexivity|].
  destruct (step_questions w w' Hstep) as [-> | (i & score & rt & ->)];
    [exact IH|].
  rewrite update_question_stats_description. exact IH.
Qed.

(** What a catalogue with the descriptions of the loaded one has. *)
Lemma described_catalogue (qs : list ExcelQuestion) :
  map Derived.description qs = map Derived.description questions_data ->
  length qs = 15%nat
  /\ Forall (fun q => is_active q = true) qs
  /\ NoDup (map id qs).
Proof.
  intros Hd. split.
  - rewrite <- (length_map Derived.description), Hd. reflexivity.
  - split.
    + apply List.Forall_forall. intros q Hq.
      apply (in_map Derived.description) in Hq. rewrite Hd in Hq.
      apply in_map_iff in Hq as (q0 & Hq0 & Hin).
      injection Hq0 as _ _ _ _ _ <-.
      revert q0 Hin. apply List.Forall_forall. vm_compute.
      repeat constructor.
    + replace (map id qs)
        with (map (fun d => fst (fst (fst (fst (fst d)))))
                  (map Derived.description qs))
        by (rewrite map_map; reflexivity).
      rewrite Hd. apply (bool_decide_unpack _). vm_compute. reflexivity.
Qed.

Lemma reachable_catalogue (w : World) :
  reachable w ->
  map Derived.description (questions w)
  = map Derived.description questions_data
  /\ length (questions w) = 15%nat
  /\ Forall (fun q => is_active q = true) (questions w)
  /\ NoDup (map id (questions w)).
Proof.
  intros Hr. pose proof (reachable_descriptions w Hr) as Hd.
  split; [exact Hd | apply described_catalogue, Hd].
Qed.

(** X9.  No request adds, removes, reorders, renames or deactivates a
    question: in every reachable state the catalogue holds the fifteen
    questions it was loaded with, in the same order and each with its
    identifier, text, type, difficulty, category and active flag; only
    the usage counters change.  The identifiers are pairwise
    distinct. *)
Theorem catalogue_is_stable (w : World) :
  reachable w ->
  map Derived.description (questions w)
  = map Derived.description questions_data
  /\ length (questions w) = 15%nat
  /\ Forall (fun q => is_active q = true) (questions w)
  /\ NoDup (map id (questions w)).
Proof. apply reachable_catalogue. Qed.

End CatalogueFacts.

(** ** The adaptive selector finds what is left *)

Section SelectorCompleteFacts.

Import Models QuestionBankService.
Local Open Scope Q_scope.

Lemma filter_filter {A : Type} (f g : A -> bool) (l : list A) :
  List.filter f (List.filter g l) = List.filter (fun x => g x && f x) l.
Proof.
  induction l as [|x l IH]; [reflexivity|].
  cbn [List.filter]. destruct (g x); cbn [List.filter andb].
  - destruct (f x); rewrite IH; reflexivity.
  - exact IH.
Qed.

Lemma choice_nonempty {A : Type} (pick : nat) (x : A) (l : list A) :
  exists y, choice pick (x :: l) = Some y.
Proof.
  unfold choice.
  destruct (nth_error (x :: l) (pick mod length (x :: l))) as [y|] eqn:E;
    [exists y; reflexivity|].
  apply nth_error_None in E.
  pose proof (Nat.mod_upper_bound pick (length (x :: l))) as Hlt.
  cbn [length] in *. lia.
Qed.

(** With a tier and no other filter, [get_random_question] draws from
    the active questions of the tier that have not been asked. *)
Lemma get_random_question_candidates (qs : list ExcelQuestion)
    (d : QuestionDifficulty.t) (asked : list string) (pick : nat) :
  get_random_question qs (Some d) None None asked pick
  = match Derived.unasked_of d qs asked with
    | [] => None
    | _ :: _ => choice pick (Derived.unasked_of d qs asked)
    end.
Proof.
  unfold get_random_question, Derived.unasked_of.
  rewrite (filter_filter (fun q => bool_decide (difficulty q = d)) is_active).
  destruct asked as [|x rest].
  - rewrite (List.filter_ext
               (fun q => is_active q && bool_decide (difficulty q = d)
                         && negb (mem (id q) []))
               (fun q => is_active q && bool_decide (difficulty q = d)));
      [reflexivity|].
    intros q. cbn. rewrite andb_true_r. reflexivity.
  - rewrite filter_filter. reflexivity.
Qed.

Lemma get_random_question_found (qs : list ExcelQuestion)
    (d : QuestionDifficulty.t) (asked : list string) (pick : nat) :
  (exists q, get_random_question qs (Some d) None None asked pick = Some q
             /\ In q (Derived.unasked qs asked))
  \/ (get_random_question qs (Some d) None None asked pick = None
      /\ Derived.unasked_of d qs asked = []).
Proof.
  rewrite get_random_question_candidates.
  destruct (Derived.unasked_of d qs asked) as [|c cs] eqn:E.
  - right. split; reflexivity.
  - left. destruct (choice_nonempty pick c cs) as [y Hy]. exists y.
    split; [exact Hy|].
    apply choice_In in Hy. rewrite <- E in Hy.
    unfold Derived.unasked_of in Hy. unfold Derived.unasked.
    apply filter_In in Hy as [Hin Hy]. apply filter_In. split; [exact Hin|].
    destruct (is_active y), (negb (mem (id y) asked));
      cbn in *; try reflexivity; try discriminate.
    rewrite andb_false_r in Hy. discriminate.
Qed.

Lemma unasked_by_tier (qs : list ExcelQuestion) (asked : list string) :
  Derived.unasked_of QuestionDifficulty.BASIC qs asked = [] ->
  Derived.unasked_of QuestionDifficulty.INTERMEDIATE qs asked = [] ->
  Derived.unasked_of QuestionDifficulty.ADVANCED qs asked = [] ->
  Derived.unasked qs asked = [].
Proof.
  unfold Derived.unasked_of, Derived.unasked.
  induction qs as [|q qs IH]; [reflexivity|].
  cbn [List.filter]. intros Hb Hi Ha.
  destruct (is_active q); cbn [andb] in *; [|apply IH; assumption].
  destruct (negb (mem (id q) asked)); [|rewrite !andb_false_r in *; apply IH; assumption].
  rewrite !andb_true_r in *.
  destruct (difficulty q);
    repeat match goal with
      | H : context [bool_decide (?x = ?x)] |- _ =>
          rewrite (bool_decide_eq_true_2 (x = x) eq_refl) in H
      end; discriminate.
Qed.

Lemma target_difficulty_total (d : QuestionDifficulty.t) (scores : list Q) :
  exists t, target_difficulty (QuestionDifficulty.value d) scores = Ok t.
Proof.
  unfold target_difficulty. rewrite of_value_value.
  destruct scores as [|s rest]; [eauto|].
  repeat match goal with
    | |- context [if ?b then _ else _] => destruct b
    end; eauto.
Qed.

(** The selector by cases, for a difficulty that names a tier. *)
Lemma get_adaptive_question_cases (qs : list ExcelQuestion)
    (d : QuestionDifficulty.t) (scores : list Q) (asked : list string)
    (pick : nat) :
  let r := get_adaptive_question qs (QuestionDifficulty.value d) scores asked
                                 [] 0 pick in
  (exists q, r = Ok (Some q) /\ In q (Derived.unasked qs asked))
  \/ (r = Ok None /\ Derived.unasked qs asked = []).
Proof.
  cbv zeta. unfold get_adaptive_question.
  destruct (target_difficulty_total d scores) as [t ->].
  pose proof (get_random_question_found qs QuestionDifficulty.BASIC asked pick)
    as Hb.
  pose proof (get_random_question_found qs QuestionDifficulty.INTERMEDIATE asked pick)
    as Hi.
  pose proof (get_random_question_found qs QuestionDifficulty.ADVANCED asked pick)
    as Ha.
  destruct t;
    cbv [try_offsets QuestionDifficulty.index QuestionDifficulty.at_index
         Z.add Z.leb Z.ltb Z.eqb Z.compare Z.pos_sub Pos.compare
         Pos.compare_cont Pos.eqb Pos.pred_double Z.succ_double
         Z.pred_double Z.double Z.opp Pos.add Pos.succ andb];
    destruct Hb as [(qb & Eb & Hqb) | [Eb Hnb]];
    destruct Hi as [(qi & Ei & Hqi) | [Ei Hni]];
    destruct Ha as [(qa & Ea & Hqa) | [Ea Hna]];
    repeat (progress (rewrite ?Eb, ?Ei, ?Ea; cbv iota));
    first [ left; eexists; split; [reflexivity | assumption]
          | right; split; [reflexivity | apply unasked_by_tier; assumption] ].
Qed.

(** X10.  Called as the conversation manager calls it (no preferred
    types) with a difficulty that names a tier, [get_adaptive_question]
    never raises, and it comes back empty-handed only when every
    active question of the catalogue has been asked: the target tier
    and the offsets -1, 1, -2, 2 cover all three tiers.  A question
    it returns is in the catalogue, active and not yet asked. *)
Theorem adaptive_question_found_while_any_is_left (qs : list ExcelQuestion)
    (d : QuestionDifficulty.t) (scores : list Q) (asked : list string)
    (pick : nat) :
  let r := get_adaptive_question qs (QuestionDifficulty.value d) scores asked
                                 [] 0 pick in
  (exists q, r = Ok (Some q) /\ In q (Derived.unasked qs asked))
  \/ (r = Ok None /\ Derived.unasked qs asked = []).
Proof. apply get_adaptive_question_cases. Qed.

End SelectorCompleteFacts.

(** ** Invariants of the stored sessions *)

Section SessionInvariantFacts.

Import Models Eval FeedbackEngine ConversationManager.
Local Open Scope Q_scope.

Context {R : Runtime}.

Lemma start_interview_eq (w : World) (i : Interview) (pick : nat) :
  let w0 := set_interview_state w (i_id i) (Derived.initial_state i) in
  start_interview w i pick
  = match _get_next_question w0 (Derived.initial_state i) pick with
    | Some first =>
        (set_interview_state w0 (i_id i)
           (attach_question first (Derived.initial_state i)),
         SSuccess first)
    | None => (w0, SError "Failed to start interview. Please try again.")
    end.
Proof. reflexivity. Qed.

(** A property of sessions holds of every session of every reachable
    state when it holds of a new session, with or without its first
    question, and is kept by an accepted answer (followed by the next
    question or by the end of the interview), by pausing and by
    resuming. *)
Lemma reachable_sessions (P : string -> InterviewState -> Prop) :
  (forall i, P (i_id i) (Derived.initial_state i)) ->
  (forall w i pick q,
      _get_next_question w (Derived.initial_state i) pick = Some q ->
      P (i_id i) (attach_question q (Derived.initial_state i))) ->
  (forall w sid s q a rt o,
      reachable w -> get_interview_state w sid = Some s ->
      P sid s -> current_question s = Some q ->
      let e := snd (Derived.evaluated w s q a o) in
      let s1 := record_response s q a e rt in
      let s2 := with_difficulty
                  (_adjust_difficulty (scores s1) (current_difficulty s1)) s1 in
      (forall w2 pick next,
          _should_continue_interview s2 = true ->
          _get_next_question w2 s2 pick = Some next ->
          P sid (attach_question next s2))
      /\ (forall narrative,
             P sid (completed
                      (generate_final_assessment sid (responses s2) narrative)
                      s2))) ->
  (forall sid s, P sid s -> status s = InterviewStatus.IN_PROGRESS ->
                 P sid (with_status InterviewStatus.PAUSED s)) ->
  (forall sid s, P sid s -> status s = InterviewStatus.PAUSED ->
                 P sid (with_status InterviewStatus.IN_PROGRESS s)) ->
  forall w, reachable w ->
  forall sid s, get_interview_state w sid = Some s -> P sid s.
Proof.
  intros Hinit Hfirst Hanswer Hpause Hresume w Hr.
  assert (Hset : forall w sid s,
             (forall sid' s', get_interview_state w sid' = Some s' -> P sid' s') ->
             P sid s ->
             forall sid' s',
               get_interview_state (set_interview_state w sid s) sid' = Some s' ->
               P sid' s').
  { intros w0 sid s Hw Hs sid' s'. unfold get_interview_state, set_interview_state.
    cbn [store]. destruct (decide (sid' = sid)) as [->|Hne].
    - rewrite lookup_insert_eq. intros [= <-]. exact Hs.
    - rewrite lookup_insert_ne by congruence. apply Hw. }
  induction Hr as [|w w' Hr IH Hstep].
  - intros sid s. unfold get_interview_state. cbn. rewrite lookup_empty.
    discriminate.
  - destruct Hstep as [w i p | w sid a rt o | w sid | w sid | w q a d qt outcome t].
    + rewrite start_interview_eq. cbv zeta.
      destruct (_get_next_question _ (Derived.initial_state i) p) as [first|] eqn:E;
        cbn [fst].
      * apply Hset; [apply Hset; [exact IH | apply Hinit]|].
        eapply Hfirst, E.
      * apply Hset; [exact IH | apply Hinit].
    + destruct (process_response_cases w sid a rt o)
        as [(m & -> & _) | (state & question & Hs & Hq & H)]; [exact IH|].
      cbv zeta in H. rewrite accept_answer_eq in H. cbn [fst snd] in H.
      destruct (Hanswer w sid state question a rt o Hr Hs (IH _ _ Hs) Hq)
        as [Hnext Hend].
      destruct H as [(next & Hc & Hn & ->) | (_ & ->)]; cbn [fst].
      * apply Hset; [exact IH|]. eapply Hnext; [exact Hc | exact Hn].
      * unfold _end_interview. cbn [fst]. apply Hset; [exact IH|]. apply Hend.
    + unfold pause_interview.
      destruct (get_interview_state w sid) as [s|] eqn:Hs; [|exact IH].
      destruct (bool_decide _) eqn:Hb; [|exact IH]. cbn [fst].
      apply bool_decide_eq_true_1 in Hb.
      apply Hset; [exact IH|]. apply Hpause; [eapply IH, Hs | exact Hb].
    + unfold resume_interview.
      destruct (get_interview_state w sid) as [s|] eqn:Hs; [|exact IH].
      destruct (bool_decide _) eqn:Hb; [|exact IH]. cbn [fst].
      apply bool_decide_eq_true_1 in Hb.
      apply Hset; [exact IH|]. apply Hresume; [eapply IH, Hs | exact Hb].
    + exact IH.
Qed.

Lemma bookkeeping_sessions (w : World) :
  reachable w ->
  forall sid s, get_interview_state w sid = Some s -> Derived.bookkeeping sid s.
Proof.
  apply (reachable_sessions Derived.bookkeeping); unfold Derived.bookkeeping.
  - intros i. cbn. repeat split; lia.
  - intros w0 i pick q _. cbn. repeat split; lia.
  - intros w0 sid s q a rt o _ _ (Hid & Hix & Hsc & Hh & Hq) _. cbv zeta.
    cbn [with_difficulty record_response attach_question completed
         interview_id current_question_index scores responses
         conversation_history questions_asked].
    rewrite !length_app, map_app, Hsc, Hix, Hh. cbn [length map evaluation].
    split; [intros w2 pick next _ _ | intros narrative];
      rewrite ?length_app; cbn [length];
      repeat split; try assumption; try reflexivity; lia.
  - intros sid s H _. exact H.
  - intros sid s H _. exact H.
Qed.

(** X11.  In every reachable state the counters of every stored
    session agree with its list of responses: the session is stored
    under its own identifier, [current_question_index] is the number
    of responses, [scores] lists the overall scores of the responses
    in order, the transcript has three messages per response, and at
    most one more question has been asked than answered. *)
Theorem session_counters_agree (w : World) (sid : string) (s : InterviewState) :
  reachable w ->
  get_interview_state w sid = Some s ->
  interview_id s = sid
  /\ current_question_index s = length (responses s)
  /\ scores s = map (fun r => overall_score (evaluation r)) (responses s)
  /\ length (conversation_history s) = (3 * length (responses s))%nat
  /\ (length (questions_asked s) <= S (length (responses s)))%nat.
Proof. intros Hr Hs. exact (bookkeeping_sessions w Hr sid s Hs). Qed.

End SessionInvariantFacts.

(** ** The catalogue outlasts the interview *)

Section ExhaustionFacts.

Import Models Eval FeedbackEngine QuestionBankService ConversationManager.
Local Open Scope Q_scope.

Context {R : Runtime}.

Lemma of_value_ok (s : string) (d : QuestionDifficulty.t) :
  QuestionDifficulty.of_value s = Ok d -> s = QuestionDifficulty.value d.
Proof.
  unfold QuestionDifficulty.of_value.
  destruct (String.eqb s "basic") eqn:E1;
    [apply String.eqb_eq in E1; intros [= <-]; exact E1|].
  destruct (String.eqb s "intermediate") eqn:E2;
    [apply String.eqb_eq in E2; intros [= <-]; exact E2|].
  destruct (String.eqb s "advanced") eqn:E3;
    [apply String.eqb_eq in E3; intros [= <-]; exact E3|].
  discriminate.
Qed.

Lemma adjust_difficulty_tier (scores : list Q) (d : QuestionDifficulty.t) :
  exists d', _adjust_difficulty scores (QuestionDifficulty.value d)
             = QuestionDifficulty.value d'.
Proof.
  unfold _adjust_difficulty. destruct scores as [|x rest]; [eauto|].
  destruct (Num.geb _ 85); destruct (Num.ltb _ 40); destruct d; cbn;
    first [ exists QuestionDifficulty.BASIC; reflexivity
          | exists QuestionDifficulty.INTERMEDIATE; reflexivity
          | exists QuestionDifficulty.ADVANCED; reflexivity ].
Qed.

(** A first question is only found for a difficulty that names a
    tier. *)
Lemma get_next_question_tier (w : World) (s : InterviewState) (pick : nat)
    (q : ExcelQuestion) :
  scores s = [] ->
  _get_next_question w s pick = Some q ->
  exists d, current_difficulty s = QuestionDifficulty.value d.
Proof.
  intros Hs. unfold _get_next_question, get_adaptive_question.
  rewrite Hs. cbn [target_difficulty].
  destruct (QuestionDifficulty.of_value (current_difficulty s)) as [d|] eqn:E;
    [|discriminate].
  intros _. exists d. apply of_value_ok, E.
Qed.

Lemma asked_or_empty_sessions (w : World) :
  reachable w ->
  forall sid s, get_interview_state w sid = Some s -> Derived.asked_or_empty s.
Proof.
  apply (reachable_sessions (fun _ => Derived.asked_or_empty));
    unfold Derived.asked_or_empty.
  - intros i. cbn. repeat split.
  - intros w0 i pick q Hq. cbn [attach_question current_question
                                current_difficulty questions_asked].
    split; [|exists []; reflexivity].
    apply (get_next_question_tier w0 (Derived.initial_state i) pick q);
      [reflexivity | exact Hq].
  - intros w0 sid s q a rt o _ _ H Hq. rewrite Hq in H.
    destruct H as [[d Hd] [earlier He]]. cbv zeta.
    cbn [with_difficulty record_response attach_question completed
         current_question current_difficulty questions_asked].
    rewrite Hd.
    destruct (adjust_difficulty_tier
                (scores s ++
                 [overall_score (snd (Derived.evaluated w0 s q a o))])%list d)
      as [d' Hd'].
    split.
    + intros w2 pick next _ _.
      split; [exists d'; exact Hd' | eexists; reflexivity].
    + intros narrative. rewrite Hq.
      split; [exists d'; exact Hd' | exists earlier; exact He].
  - intros sid s H _. exact H.
  - intros sid s H _. exact H.
Qed.

(** With fewer identifiers asked than the catalogue has questions, all
    active and with distinct identifiers, one is left to ask. *)
Lemma unasked_nonempty (qs : list ExcelQuestion) (asked : list string) :
  NoDup (map id qs) ->
  Forall (fun q => is_active q = true) qs ->
  (length asked < length qs)%nat ->
  Derived.unasked qs asked <> [].
Proof.
  intros Hnd Hact Hlen Hnil.
  assert (Hincl : incl (map id qs) asked).
  { intros x Hx. apply in_map_iff in Hx as (q & <- & Hq).
    apply mem_In.
    destruct (mem (id q) asked) eqn:E; [reflexivity|].
    assert (Hin : In q (Derived.unasked qs asked)).
    { apply filter_In. split; [exact Hq|].
      rewrite List.Forall_forall in Hact. rewrite (Hact q Hq), E. reflexivity. }
    rewrite Hnil in Hin. destruct Hin. }
  apply NoDup_ListNoDup in Hnd.
  pose proof (NoDup_incl_length Hnd Hincl) as Hle.
  rewrite length_map in Hle. lia.
Qed.

Lemma get_next_question_found (w : World) (s : InterviewState) (pick : nat) :
  map Derived.description (questions w)
  = map Derived.description questions_data ->
  (exists d, current_difficulty s = QuestionDifficulty.value d) ->
  (length (questions_asked s) < 15)%nat ->
  exists q, _get_next_question w s pick = Some q
            /\ In q (Derived.unasked (questions w) (questions_asked s)).
Proof.
  intros Hd [d Hcd] Hlen.
  destruct (described_catalogue _ Hd) as (H15 & Hact & Hnd).
  unfold _get_next_question. rewrite Hcd.
  destruct (get_adaptive_question_cases (questions w) d (scores s)
              (questions_asked s) pick) as [(q & -> & Hq) | (_ & Hnil)].
  - exists q. split; [reflexivity | exact Hq].
  - exfalso. revert Hnil. apply unasked_nonempty; [exact Hnd | exact Hact | lia].
Qed.

(** What [process_response] does with an answer to the current
    question of a session of a reachable state. *)
Lemma process_response_reachable (w : World) (sid answer : string) (rt : Q)
    (o : Oracle) (s : InterviewState) (q : ExcelQuestion) :
  reachable w ->
  get_interview_state w sid = Some s ->
  current_question s = Some q ->
  let r := accept_answer w s q answer rt o in
  let s2 := snd (fst r) in
  let reply := snd (process_response w sid answer rt o) in
  (_should_continue_interview s2 = true ->
   exists next progress,
     reply = RContinue (fst (fst r)) next progress
     /\ In next (questions (snd r))
     /\ ~ In (id next) (questions_asked s))
  /\ (_should_continue_interview s2 = false ->
      exists assessment summary, reply = RCompleted assessment summary).
Proof.
  intros Hr Hs Hq. cbv zeta.
  destruct (process_response_cases w sid answer rt o)
    as [(m & _ & [Hn | (s' & Hs' & Hq')]) | (s' & q' & Hs' & Hq' & H)];
    try congruence.
  assert (s' = s) by congruence. subst s'.
  assert (q' = q) by congruence. subst q'.
  cbv zeta in H.
  pose proof (bookkeeping_sessions w Hr sid s Hs) as (_ & _ & _ & _ & Hb).
  pose proof (asked_or_empty_sessions w Hr sid s Hs) as Ha.
  unfold Derived.asked_or_empty in Ha. rewrite Hq in Ha. destruct Ha as [[d Hd] _].
  pose proof (reachable_descriptions w Hr) as Hcat.
  rewrite accept_answer_eq in *. cbn [fst snd] in *.
  match type of H with
  | context [_get_next_question ?w0 ?s0 _] => set (w2 := w0) in *; set (s2 := s0) in *
  end.
  assert (Hfound : _should_continue_interview s2 = true ->
                   exists next, _get_next_question w2 s2 (pick o) = Some next
                                /\ In next (Derived.unasked (questions w2)
                                              (questions_asked s2))).
  { intros Hc. apply should_continue_bound in Hc.
    apply get_next_question_found.
    - subst w2. cbn [questions]. rewrite update_question_stats_description.
      exact Hcat.
    - subst s2. cbn [with_difficulty record_response current_difficulty].
      rewrite Hd. apply adjust_difficulty_tier.
    - subst s2. cbn [with_difficulty record_response responses questions_asked] in *.
      rewrite length_app in Hc. cbn [length] in Hc. lia. }
  split.
  - intros Hc. destruct (Hfound Hc) as (next & Hnext & Hin).
    destruct H as [(next' & _ & Hnext' & ->) | ([Hc' | Hnone] & _)];
      [|congruence|congruence].
    assert (next' = next) by congruence. subst next'.
    cbn [snd]. eexists _, _. split; [reflexivity|].
    apply filter_In in Hin as [Hin Hf]. split; [exact Hin|].
    apply andb_true_iff in Hf as [_ Hf]. apply negb_true_iff in Hf.
    intros Hmem. apply mem_In in Hmem.
    subst s2. cbn [with_difficulty record_response questions_asked] in Hf.
    congruence.
  - intros Hc.
    destruct H as [(next' & Hc' & _) | (_ & ->)]; [congruence|].
    unfold _end_interview. cbn [snd]. eauto.
Qed.

(** X12.  In a reachable state an interview ends by the rule of
    [_should_continue_interview] and by nothing else: an answer to
    the current question is followed by a next question, from the
    catalogue and not asked before in the session, whenever the rule
    says to continue (the fifteen questions of the catalogue cannot
    run out before the limit of fifteen answers), and by the final
    assessment whenever it says to stop.  The branch of
    [process_response] that ends the interview for want of a question
    is never taken. *)
Theorem interview_ends_only_by_its_rule (w : World) (sid answer : string)
    (rt : Q) (o : Oracle) (s : InterviewState) (q : ExcelQuestion) :
  reachable w ->
  get_interview_state w sid = Some s ->
  current_question s = Some q ->
  let r := accept_answer w s q answer rt o in
  let s2 := snd (fst r) in
  let reply := snd (process_response w sid answer rt o) in
  (_should_continue_interview s2 = true ->
   exists next progress,
     reply = RContinue (fst (fst r)) next progress
     /\ In next (questions (snd r))
     /\ ~ In (id next) (questions_asked s))
  /\ (_should_continue_interview s2 = false ->
      exists assessment summary, reply = RCompleted assessment summary).
Proof. apply process_response_reachable. Qed.

End ExhaustionFacts.

(** ** Starting, rejecting, pausing *)

Section RequestFacts.

Import Models Eval FeedbackEngine QuestionBankService ConversationManager.
Local Open Scope Q_scope.

Context {R : Runtime}.

Lemma unasked_of_description (d : QuestionDifficulty.t)
    (qs : list ExcelQuestion) :
  map Derived.description (Derived.unasked_of d qs [])
  = List.filter
      (fun x => snd x && bool_decide (snd (fst (fst x)) = d)
                && negb (mem (fst (fst (fst (fst (fst x))))) []))
      (map Derived.description qs).
Proof.
  unfold Derived.unasked_of.
  induction qs as [|q qs IH]; [reflexivity|].
  cbn [map List.filter Derived.description fst snd].
  destruct (is_active q && bool_decide (difficulty q = d) && negb (mem (id q) []));
    cbn [map]; rewrite IH; reflexivity.
Qed.

(** Every tier of the loaded catalogue has a question. *)
Lemma unasked_of_loaded (d : QuestionDifficulty.t) (qs : list ExcelQuestion) :
  map Derived.description qs = map Derived.description questions_data ->
  Derived.unasked_of d qs [] <> [].
Proof.
  intros Hd Hnil.
  pose proof (unasked_of_description d qs) as H. rewrite Hnil, Hd in H.
  destruct d; vm_compute in H; discriminate H.
Qed.

Lemma get_random_question_tier (qs : list ExcelQuestion)
    (d : QuestionDifficulty.t) (pick : nat) :
  map Derived.description qs = map Derived.description questions_data ->
  exists q, get_random_question qs (Some d) None None [] pick = Some q
            /\ In q qs /\ difficulty q = d.
Proof.
  intros Hd. rewrite get_random_question_candidates.
  pose proof (unasked_of_loaded d qs Hd) as Hne.
  destruct (Derived.unasked_of d qs []) as [|c cs] eqn:E; [congruence|].
  destruct (choice_nonempty pick c cs) as [y Hy]. exists y.
  split; [exact Hy|].
  apply choice_In in Hy. rewrite <- E in Hy.
  apply filter_In in Hy as [Hin Hy]. split; [exact Hin|].
  apply andb_true_iff in Hy as [Hy _]. apply andb_true_iff in Hy as [_ Hy].
  apply bool_decide_eq_true_1 in Hy. exact Hy.
Qed.

(** The first question by skill level. *)
Lemma first_question (w : World) (i : Interview) (pick : nat) :
  map Derived.description (questions w)
  = map Derived.description questions_data ->
  match i_skill_level i with
  | SkillLevel.BEGINNER =>
      _get_next_question w (Derived.initial_state i) pick = None
  | level =>
      exists q, _get_next_question w (Derived.initial_state i) pick = Some q
                /\ In q (questions w)
                /\ QuestionDifficulty.value (difficulty q) = SkillLevel.value level
  end.
Proof.
  intros Hd. unfold _get_next_question, get_adaptive_question.
  cbn [Derived.initial_state current_difficulty scores questions_asked
       target_difficulty].
  destruct (i_skill_level i); cbn [SkillLevel.value].
  - reflexivity.
  - change (QuestionDifficulty.of_value "intermediate")
      with (Ok QuestionDifficulty.INTERMEDIATE).
    destruct (get_random_question_tier (questions w)
                QuestionDifficulty.INTERMEDIATE pick Hd) as (q & -> & Hin & Hq).
    exists q. rewrite Hq. repeat split. exact Hin.
  - change (QuestionDifficulty.of_value "advanced")
      with (Ok QuestionDifficulty.ADVANCED).
    destruct (get_random_question_tier (questions w)
                QuestionDifficulty.ADVANCED pick Hd) as (q & -> & Hin & Hq).
    exists q. rewrite Hq. repeat split. exact Hin.
Qed.

(** X13.  In a reachable state [start_interview] fails exactly for the
    skill level "beginner", which names no question difficulty: the
    session is stored without a question and the reply is the error.
    For "intermediate" and "advanced" it succeeds with a first question
    of the catalogue whose difficulty is the skill level, and stores
    the session with that question attached. *)
Theorem interview_starts_unless_beginner (w : World) (i : Interview)
    (pick : nat) :
  reachable w ->
  let w' := fst (start_interview w i pick) in
  let reply := snd (start_interview w i pick) in
  match i_skill_level i with
  | SkillLevel.BEGINNER =>
      reply = SError "Failed to start interview. Please try again."
      /\ get_interview_state w' (i_id i) = Some (Derived.initial_state i)
  | level =>
      exists q,
        reply = SSuccess q
        /\ In q (questions w)
        /\ QuestionDifficulty.value (difficulty q) = SkillLevel.value level
        /\ get_interview_state w' (i_id i)
           = Some (attach_question q (Derived.initial_state i))
  end.
Proof.
  intros Hr. cbv zeta. rewrite start_interview_eq. cbv zeta.
  pose proof (first_question
                (set_interview_state w (i_id i) (Derived.initial_state i)) i pick
                (reachable_descriptions w Hr)) as H.
  destruct (i_skill_level i).
  - rewrite H. cbn [fst snd]. split; [reflexivity|].
    unfold get_interview_state, set_interview_state. cbn [store].
    apply lookup_insert_eq.
  - destruct H as (q & -> & Hin & Hq). exists q. cbn [fst snd].
    repeat split; try assumption.
    unfold get_interview_state, set_interview_state. cbn [store].
    apply lookup_insert_eq.
  - destruct H as (q & -> & Hin & Hq). exists q. cbn [fst snd].
    repeat split; try assumption.
    unfold get_interview_state, set_interview_state. cbn [store].
    apply lookup_insert_eq.
Qed.

(** X14.  [process_response] replies with an error exactly when the
    session is unknown or has no current question, and then it changes
    nothing: no evaluation is run, no counter moves and no session is
    touched. *)
Theorem rejected_answer_changes_nothing (w : World) (sid answer : string)
    (rt : Q) (o : Oracle) :
  ((exists message, snd (process_response w sid answer rt o) = RError message)
   <-> get_interview_state w sid = None
       \/ exists s, get_interview_state w sid = Some s
                    /\ current_question s = None)
  /\ ((exists message, snd (process_response w sid answer rt o) = RError message)
      -> fst (process_response w sid answer rt o) = w).
Proof.
  destruct (process_response_cases w sid answer rt o)
    as [(m & E & Hwhy) | (s & q & Hs & Hq & H)].
  - rewrite E. cbn [fst snd]. split; [|reflexivity].
    split; [intros _; exact Hwhy | intros _; eauto].
  - cbv zeta in H.
    assert (Hno : forall message,
               snd (process_response w sid answer rt o) <> RError message).
    { intros message.
      destruct H as [(next & _ & _ & ->) | (_ & ->)]; cbn; discriminate. }
    split.
    + split.
      * intros [m Hm]. destruct (Hno m Hm).
      * intros [Hn | (s' & Hs' & Hq')]; congruence.
    + intros [m Hm]. destruct (Hno m Hm).
Qed.

Lemma lookup_set_other (w : World) (sid sid' : string) (s : InterviewState) :
  sid' <> sid ->
  get_interview_state (set_interview_state w sid s) sid'
  = get_interview_state w sid'.
Proof.
  intros Hne. unfold get_interview_state, set_interview_state. cbn [store].
  apply lookup_insert_ne. congruence.
Qed.

(** X15.  A request made for one session never touches another: after
    [start_interview], [process_response], [pause_interview] or
    [resume_interview] for the session [sid], every session stored
    under another identifier is what it was. *)
Theorem other_sessions_are_untouched (w : World) (sid sid' answer : string)
    (i : Interview) (pick : nat) (rt : Q) (o : Oracle) :
  sid' <> sid ->
  i_id i = sid ->
  get_interview_state (fst (start_interview w i pick)) sid'
  = get_interview_state w sid'
  /\ get_interview_state (fst (process_response w sid answer rt o)) sid'
     = get_interview_state w sid'
  /\ get_interview_state (fst (pause_interview w sid)) sid'
     = get_interview_state w sid'
  /\ get_interview_state (fst (resume_interview w sid)) sid'
     = get_interview_state w sid'.
Proof.
  intros Hne Hi. repeat split.
  - rewrite start_interview_eq. cbv zeta. rewrite Hi.
    destruct (_get_next_question _ _ _); cbn [fst];
      rewrite ?lookup_set_other by exact Hne; reflexivity.
  - destruct (process_response_cases w sid answer rt o)
      as [(m & -> & _) | (s & q & Hs & Hq & H)]; [reflexivity|].
    cbv zeta in H. rewrite accept_answer_eq in H. cbn [fst snd] in H.
    destruct H as [(next & _ & _ & ->) | (_ & ->)];
      unfold _end_interview; cbn [fst];
      rewrite lookup_set_other by exact Hne; reflexivity.
  - unfold pause_interview.
    destruct (get_interview_state w sid) as [s|]; [|reflexivity].
    destruct (bool_decide _); [|reflexivity]. cbn [fst].
    apply lookup_set_other, Hne.
  - unfold resume_interview.
    destruct (get_interview_state w sid) as [s|]; [|reflexivity].
    destruct (bool_decide _); [|reflexivity]. cbn [fst].
    apply lookup_set_other, Hne.
Qed.

Lemma with_status_twice (s : InterviewState) :
  with_status (status s) (with_status InterviewStatus.PAUSED s) = s.
Proof. destruct s. reflexivity. Qed.

(** X16.  Pausing a session that is in progress and resuming it leaves
    the service with the state it had (the time stamps that the source
    adds to the session are not part of the model): the questions
    asked, the responses, the scores, the difficulty and the current
    question are kept.  While the session is paused, a second pause is
    refused and changes nothing, and so is a resume once it is in
    progress again. *)
Theorem pause_then_resume_restores (w : World) (sid : string)
    (s : InterviewState) :
  get_interview_state w sid = Some s ->
  status s = InterviewStatus.IN_PROGRESS ->
  let w1 := fst (pause_interview w sid) in
  pause_interview w sid
  = (set_interview_state w sid (with_status InterviewStatus.PAUSED s),
     Success "Interview paused successfully")
  /\ pause_interview w1 sid = (w1, Error "Interview is not in progress")
  /\ resume_interview w1 sid = (w, Success "Interview resumed successfully")
  /\ resume_interview w sid = (w, Error "Interview is not paused").
Proof.
  intros Hs Hst. cbv zeta.
  assert (Hp : pause_interview w sid
               = (set_interview_state w sid (with_status InterviewStatus.PAUSED s),
                  Success "Interview paused successfully")).
  { unfold pause_interview. rewrite Hs, Hst. reflexivity. }
  rewrite Hp. cbn [fst].
  assert (Hl : get_interview_state
                 (set_interview_state w sid (with_status InterviewStatus.PAUSED s))
                 sid
               = Some (with_status InterviewStatus.PAUSED s)).
  { unfold get_interview_state, set_interview_state. cbn [store].
    apply lookup_insert_eq. }
  split; [reflexivity|]. split.
  - unfold pause_interview. rewrite Hl. reflexivity.
  - split.
    + unfold resume_interview. rewrite Hl. cbn [with_status status].
      rewrite bool_decide_eq_true_2 by reflexivity.
      f_equal. unfold set_interview_state. cbn [store questions evaluator].
      rewrite insert_insert_eq.
      rewrite <- Hst, with_status_twice.
      unfold get_interview_state in Hs. rewrite insert_id by exact Hs.
      destruct w. reflexivity.
    + unfold resume_interview. rewrite Hs, Hst. reflexivity.
Qed.

End RequestFacts.

(** ** Completed sessions and recorded scores *)

Section CompletionFacts.

Import Models Eval FeedbackEngine ConversationManager.
Local Open Scope Q_scope.

Context {R : Runtime}.



Lemma rounded_mean_in_range (l : list Q) :
  l <> [] -> Forall Derived.in_range l ->
  Derived.in_range (Num.round2 (Num.mean l)).
Proof.
  intros Hne Hl. pose proof (mean_bounds 0 100 l Hne Hl) as Hm.
  split; [apply (round2_ge 0), Hm | apply (round2_le 100), Hm].
Qed.

Lemma overall_scores_in_range (rs : list ResponseData) :
  Forall (fun r => Derived.scores_in_range (evaluation r)) rs ->
  Forall Derived.in_range (map (fun r => overall_score (evaluation r)) rs).
Proof.
  induction 1 as [|r rs [_ Hr] _ IH]; cbn [map].
  - apply Forall_nil. exact I.
  - apply Forall_cons. split; [exact Hr | exact IH].
Qed.

Lemma scored_sessions (w : World) :
  reachable w ->
  forall sid s, get_interview_state w sid = Some s ->
    Forall (fun r => Derived.scores_in_range (evaluation r)) (responses s)
    /\ forall a, final_assessment s = Some a ->
         Derived.in_range (a_overall_score a).
Proof.
  apply (reachable_sessions
           (fun _ s =>
              Forall (fun r => Derived.scores_in_range (evaluation r)) (responses s)
              /\ forall a, final_assessment s = Some a ->
                   Derived.in_range (a_overall_score a))).
  - intros i. cbn. split; [apply Forall_nil; exact I | discriminate].
  - intros w0 i pick q _. cbn. split; [apply Forall_nil; exact I | discriminate].
  - intros w0 sid s q a rt o Hr _ [Hsc Hfa] _. cbv zeta.
    cbn [with_difficulty record_response attach_question completed
         final_assessment responses].
    assert (He : Derived.scores_in_range (snd (Derived.evaluated w0 s q a o))).
    { apply (evaluate_response_in_range w0 (Models.question_text q) a
               (current_difficulty s) (QuestionType.value (Models.question_type q))
               (provider o) (elapsed o) Hr). }
    set (r := {| question_id := Models.id q;
                 question_text := Models.question_text q;
                 candidate_response := a;
                 evaluation := snd (Derived.evaluated w0 s q a o);
                 response_time := rt |}).
    assert (Hall : Forall (fun r => Derived.scores_in_range (evaluation r))
                          (responses s ++ [r])%list).
    { apply Forall_app. split; [exact Hsc|].
      apply Forall_cons. split; [exact He|]. apply Forall_nil. exact I. }
    split.
    + intros w2 pick next _ _. split; [exact Hall | exact Hfa].
    + intros narrative. split; [exact Hall|].
      intros fa [= <-].
      assert (Hne : (responses s ++ [r])%list <> [])
        by (destruct (responses s); discriminate).
      destruct (generate_final_assessment_full sid _ narrative Hne)
        as (_ & _ & _ & ->).
      apply rounded_mean_in_range.
      * destruct (responses s); discriminate.
      * apply overall_scores_in_range, Hall.
  - intros sid s H _. exact H.
  - intros sid s H _. exact H.
Qed.

(** X18.  In every reachable state every evaluation recorded in a
    session has its six scores between 0 and 100; so have the list of
    scores of the session and the overall score of its final
    assessment, if it has one. *)
Theorem recorded_scores_in_range (w : World) (sid : string)
    (s : InterviewState) :
  reachable w ->
  get_interview_state w sid = Some s ->
  Forall Derived.in_range (scores s)
  /\ Forall (fun r => Derived.scores_in_range (evaluation r)) (responses s)
  /\ forall a, final_assessment s = Some a ->
       Derived.in_range (a_overall_score a).
Proof.
  intros Hr Hs.
  destruct (scored_sessions w Hr sid s Hs) as [Hsc Hfa].
  destruct (bookkeeping_sessions w Hr sid s Hs) as (_ & _ & -> & _).
  split; [apply overall_scores_in_range, Hsc|].
  split; [exact Hsc | exact Hfa].
Qed.

End CompletionFacts.

(** ** The final assessment *)

Section AssessmentFacts.

Import Eval FeedbackEngine.
Local Open Scope Q_scope.

Context {R : Runtime}.
Hypothesis Hsqrt : sqrt_nonneg R.

Local Ltac by_thresholds :=
  repeat (match goal with
          | |- context [Num.geb ?a ?b] =>
              let E := fresh "E" in
              destruct (Num.geb a b) eqn:E;
              [apply geb_true in E | apply geb_false in E]
          end; try (exfalso; lra)).



End AssessmentFacts.

Section ReadinessFacts.

Import Eval FeedbackEngine.
Local Open Scope Q_scope.

Local Ltac by_thresholds :=
  repeat (match goal with
          | |- context [Num.geb ?a ?b] =>
              let E := fresh "E" in
              destruct (Num.geb a b) eqn:E;
              [apply geb_true in E | apply geb_false in E]
          end; try (exfalso; lra)).

(** X20.  A higher overall score never gives a lower skill level or a
    lower percentile rank. *)
Theorem skill_level_is_monotone (x y : Q) :
  x <= y ->
  (Derived.skill_rank (_determine_skill_level x)
   <= Derived.skill_rank (_determine_skill_level y))%nat
  /\ (_calculate_percentile x <= _calculate_percentile y)%Z.
Proof.
  intros Hxy. unfold _determine_skill_level, _calculate_percentile.
  by_thresholds; cbn; lia.
Qed.

Lemma question_categories_financial (qid : string) :
  question_categories qid = "Financial Modeling" -> qid = "adv_002".
Proof.
  unfold question_categories.
  repeat match goal with
    | |- (if String.eqb qid ?k then _ else _) = _ -> _ =>
        let E := fresh "E" in
        destruct (String.eqb qid k) eqn:E;
        [first [discriminate | intros _; apply String.eqb_eq, E]|]
    end.
  discriminate.
Qed.

Lemma append_score_keys (d : list (string * list Q)) (category c : string)
    (score : Q) :
  In c (map fst (append_score d category score)) ->
  c = category \/ In c (map fst d).
Proof.
  induction d as [|[k scores] rest IH]; cbn [append_score map fst In].
  - intros [<- | []]. left. reflexivity.
  - destruct (String.eqb k category) eqn:E; cbn [map fst In].
    + intros [<- | H]; right; [left; reflexivity | right; exact H].
    + intros [<- | H]; [right; left; reflexivity|].
      destruct (IH H) as [-> | H']; [left; reflexivity | right; right; exact H'].
Qed.

Lemma category_scores_keys (rs : list ResponseData)
    (d : list (string * list Q)) (c : string) :
  In c (map fst
          (fold_left
             (fun d r => append_score d (question_categories (question_id r))
                                      (overall_score (evaluation r)))
             rs d)) ->
  In c (map fst d)
  \/ exists r, In r rs /\ question_categories (question_id r) = c.
Proof.
  revert d. induction rs as [|r rs IH]; intros d; cbn [fold_left].
  - intros H. left. exact H.
  - intros H. destruct (IH _ H) as [H' | (r' & Hin & Hc)].
    + destruct (append_score_keys _ _ _ _ H') as [-> | H''].
      * right. exists r. split; [left; reflexivity | reflexivity].
      * left. exact H''.
    + right. exists r'. split; [right; exact Hin | exact Hc].
Qed.

(** Every category of the analysis is the category of a response. *)
Lemma categories_above_threshold_answered (rs : list ResponseData) (c : string) :
  In c (categories_above_threshold (_analyze_category_performance rs)) ->
  exists r, In r rs /\ question_categories (question_id r) = c.
Proof.
  unfold _analyze_category_performance. cbn [categories_above_threshold].
  intros H. apply in_map_iff in H as ([c' x] & Hc & H). cbn [fst] in Hc. subst c'.
  apply filter_In in H as [H _].
  apply in_map_iff in H as ([c' scores] & Hc & H).
  injection Hc as -> _.
  destruct (category_scores_keys rs [] c) as [[] | Hr]; [|exact Hr].
  apply in_map_iff. exists (c, scores). split; [reflexivity | exact H].
Qed.

(** X21.  The readiness assessment is ordered by its thresholds, and
    "Ready" as a financial analyst takes an answer to one particular
    question: with the category analysis of the responses,
    [_assess_role_readiness] gives "Ready" for the financial analyst
    role only for a score of at least 70 and only when the question
    "adv_002", the one question of the category "Financial Modeling",
    is among the responses.  Whoever is "Ready" as a data analyst or
    as a financial analyst is "Ready" for the administrative and the
    data entry role, and whoever needs training for data entry is
    ready for no role. *)
Theorem readiness_is_ordered (score : Q) (responses : list ResponseData) :
  let r := _assess_role_readiness score
             (_analyze_category_performance responses) in
  (financial_analyst r = "Ready" ->
   70 <= score
   /\ exists x, In x responses /\ question_id x = "adv_002")
  /\ (financial_analyst r = "Ready" \/ data_analyst r = "Ready" ->
      administrative r = "Ready" /\ data_entry r = "Ready")
  /\ (data_entry r = "Needs training" ->
      financial_analyst r = "Needs significant training"
      /\ data_analyst r = "Needs significant training"
      /\ administrative r = "Needs basic training").
Proof.
  cbv zeta. unfold _assess_role_readiness.
  cbn [financial_analyst data_analyst administrative data_entry].
  set (above := categories_above_threshold (_analyze_category_performance responses)).
  split; [|split].
  - destruct (Num.geb score 70) eqn:E70; cbn [andb].
    + destruct (QuestionBankService.mem "Financial Modeling" above) eqn:Em.
      * intros _. apply geb_true in E70. split; [exact E70|].
        apply mem_In in Em.
        destruct (categories_above_threshold_answered responses _ Em)
          as (x & Hin & Hc).
        exists x. split; [exact Hin | apply question_categories_financial, Hc].
      * destruct (Num.geb score 60); discriminate.
    + destruct (Num.geb score 60); discriminate.
  - destruct (QuestionBankService.mem "Financial Modeling" above),
             (3 <=? length above)%nat;
      rewrite ?andb_true_r, ?andb_false_r;
      by_thresholds; intros [H | H]; try discriminate H; split; reflexivity.
  - destruct (QuestionBankService.mem "Financial Modeling" above),
             (3 <=? length above)%nat;
      rewrite ?andb_true_r, ?andb_false_r;
      by_thresholds; intros H; try discriminate H; repeat split.
Qed.

(** X22.  [_generate_recommendations] raises exactly when the
    statistics have no consistency entry, as those of the default
    assessment; otherwise it returns at least one and at most five
    recommendations. *)
Theorem recommendations_between_one_and_five
    (category_analysis : CategoryAnalysis) (stats : Stats) :
  (s_consistency stats = None
   <-> _generate_recommendations category_analysis stats = Raise "KeyError")
  /\ forall l, _generate_recommendations category_analysis stats = Ok l ->
               (1 <= length l <= 5)%nat.
Proof.
  unfold _generate_recommendations.
  destruct (s_consistency stats) as [c|].
  - match goal with
    | |- context [match ?l with [] => Ok _ | _ :: _ => Ok (firstn 5 ?l) end] =>
        set (recs := l)
    end.
    split.
    + split; [discriminate|]. destruct recs; discriminate.
    + intros l. clearbody recs. destruct recs as [|x rest].
      * intros [= <-]. cbn. lia.
      * intros H. injection H as <-.
        cbn [firstn length]. pose proof (length_take rest 4%nat) as Hl. lia.
  - split; [split; reflexivity | discriminate].
Qed.

End ReadinessFacts.

(** ** Open sessions *)

Section OpenSessionFacts.

Import Models Eval FeedbackEngine ConversationManager.
Local Open Scope Q_scope.

Context {R : Runtime}.

Lemma should_continue_fields (s s' : InterviewState) :
  responses s' = responses s -> scores s' = scores s ->
  _should_continue_interview s' = _should_continue_interview s.
Proof.
  intros Hr Hs. unfold _should_continue_interview. rewrite Hr, Hs. reflexivity.
Qed.

Lemma open_sessions (w : World) :
  reachable w ->
  forall sid s, get_interview_state w sid = Some s ->
    status s <> InterviewStatus.COMPLETED ->
    _should_continue_interview s = true
    /\ (current_question s <> None ->
        length (questions_asked s) = S (length (responses s))).
Proof.
  apply (reachable_sessions
           (fun _ s =>
              status s <> InterviewStatus.COMPLETED ->
              _should_continue_interview s = true
              /\ (current_question s <> None ->
                  length (questions_asked s) = S (length (responses s))))).
  - intros i _. split; [reflexivity | intros H; destruct H; reflexivity].
  - intros w0 i pick q _ _. split; reflexivity.
  - intros w0 sid s q a rt o _ _ H Hq. cbv zeta. split.
    + intros w2 pick next Hc _ Hst.
      cbn [attach_question with_difficulty record_response status] in Hst.
      destruct (H Hst) as [_ Hlen].
      split.
      * rewrite <- Hc. apply should_continue_fields; reflexivity.
      * intros _.
        cbn [attach_question with_difficulty record_response questions_asked
             responses].
        rewrite !length_app, Hlen by congruence. cbn [length]. lia.
    + intros narrative Hst. cbn in Hst. congruence.
  - intros sid s H Hst _.
    assert (Hn : status s <> InterviewStatus.COMPLETED) by congruence.
    destruct (H Hn) as [Hc Hlen]. split; [|exact Hlen].
    rewrite <- Hc. apply should_continue_fields; reflexivity.
  - intros sid s H Hst _.
    assert (Hn : status s <> InterviewStatus.COMPLETED) by congruence.
    destruct (H Hn) as [Hc Hlen]. split; [|exact Hlen].
    rewrite <- Hc. apply should_continue_fields; reflexivity.
Qed.

(** X23.  In every reachable state a session that is not completed is
    one that the rule of [_should_continue_interview] lets continue:
    it has fewer than 15 responses, and once it has been asked a
    question exactly one question is outstanding (one more asked than
    answered). *)
Theorem open_session_awaits_one_answer (w : World) (sid : string)
    (s : InterviewState) :
  reachable w ->
  get_interview_state w sid = Some s ->
  status s <> InterviewStatus.COMPLETED ->
  _should_continue_interview s = true
  /\ (length (responses s) < 15)%nat
  /\ (current_question s <> None ->
      length (questions_asked s) = S (length (responses s))).
Proof.
  intros Hr Hs Hst. destruct (open_sessions w Hr sid s Hs Hst) as [Hc Hlen].
  split; [exact Hc|]. split; [apply should_continue_bound, Hc | exact Hlen].
Qed.

End OpenSessionFacts.

(** ** The properties on the sample runs *)

Section MoreWitnesses.

Import Models Eval FeedbackEngine ExcelEvaluator ConversationManager.
Local Open Scope Q_scope.

Lemma answered_reachable : reachable (R := Sample.runtime) Sample.answered.
Proof.
  eapply reachable_step; [apply started_reachable|].
  apply (step_response (R := Sample.runtime)).
Qed.

Lemma session_stored (w : World) (sid : string) :
  match get_interview_state w sid with Some _ => true | None => false end = true ->
  get_interview_state w sid = Some (Sample.session w sid).
Proof.
  unfold Sample.session. destruct (get_interview_state w sid); [reflexivity|].
  discriminate.
Qed.

Lemma current_asked (w : World) (sid : string) :
  match current_question (Sample.session w sid) with Some _ => true | None => false end = true ->
  current_question (Sample.session w sid) = Some (Sample.current w sid).
Proof.
  unfold Sample.current. destruct (current_question _); [reflexivity|].
  discriminate.
Qed.


Lemma evaluation_scores_in_range_witness :
  Derived.scores_in_range
    (snd (ExcelEvaluator.evaluate_response (R := Sample.runtime)
            (evaluator Sample.answered)
            "How do you use VLOOKUP to find a value in another table?"
            "=VLOOKUP(A2, Sheet2!A:C, 3, FALSE)" "basic" "formula"
            Sample.uneven (3 # 2))).
Proof.
  apply (evaluation_scores_in_range (R := Sample.runtime) Sample.answered).
  apply answered_reachable.
Defined.



Lemma local_analysis_ignores_case_witness :
  _perform_local_analysis
    "How do you use VLOOKUP to find a value in another table?"
    (Text.upper Sample.answer) "basic" "formula"
  = _perform_local_analysis "" Sample.answer "advanced" "scenario".
Proof.
  apply (local_analysis_ignores_case _ _ Sample.answer).
  vm_compute. reflexivity.
Defined.

Lemma usage_counters_are_batch_statistics_witness :
  let q' := Derived.usage_after Sample.unused_question Sample.three_answers in
  times_used q' = length Sample.three_answers
  /\ (exists a, Models.average_score q' = Some a
                /\ a == Num.mean (map fst Sample.three_answers))
  /\ (exists t, average_response_time q' = Some t
                /\ t == Num.mean (map snd Sample.three_answers))
  /\ (exists p, pass_rate q' = Some p
                /\ p == 100 * Num.of_nat (Derived.passes (map fst Sample.three_answers))
                        / Num.of_nat (length Sample.three_answers))
  /\ Derived.description q' = Derived.description Sample.unused_question.
Proof.
  apply (usage_counters_are_batch_statistics Sample.unused_question
           Sample.three_answers); try reflexivity.
  discriminate.
Defined.

Lemma catalogue_is_stable_witness :
  map Derived.description (questions Sample.answered)
  = map Derived.description QuestionBankService.questions_data
  /\ length (questions Sample.answered) = 15%nat
  /\ Forall (fun q => is_active q = true) (questions Sample.answered)
  /\ NoDup (map Models.id (questions Sample.answered)).
Proof.
  apply (catalogue_is_stable (R := Sample.runtime) Sample.answered).
  apply answered_reachable.
Defined.

Lemma session_counters_agree_witness :
  let s := Sample.session Sample.answered "s1" in
  interview_id s = "s1"
  /\ current_question_index s = length (responses s)
  /\ scores s = map (fun r => overall_score (evaluation r)) (responses s)
  /\ length (conversation_history s) = (3 * length (responses s))%nat
  /\ (length (questions_asked s) <= S (length (responses s)))%nat.
Proof.
  apply (session_counters_agree (R := Sample.runtime) Sample.answered "s1").
  - apply answered_reachable.
  - apply session_stored. reflexivity.
Defined.

Lemma interview_ends_only_by_its_rule_witness :
  let s := Sample.session Sample.started "s1" in
  let q := Sample.current Sample.started "s1" in
  let r := accept_answer (R := Sample.runtime) Sample.started s q Sample.answer 30
             (Sample.oracle Sample.ordinary) in
  let s2 := snd (fst r) in
  let reply :=
    snd (process_response (R := Sample.runtime) Sample.started "s1" Sample.answer
           30 (Sample.oracle Sample.ordinary)) in
  (_should_continue_interview s2 = true ->
   exists next progress,
     reply = RContinue (fst (fst r)) next progress
     /\ In next (questions (snd r))
     /\ ~ In (Models.id next) (questions_asked s))
  /\ (_should_continue_interview s2 = false ->
      exists assessment summary, reply = RCompleted assessment summary).
Proof.
  apply (interview_ends_only_by_its_rule (R := Sample.runtime) Sample.started "s1"
           Sample.answer 30 (Sample.oracle Sample.ordinary)).
  - apply started_reachable.
  - apply session_stored. reflexivity.
  - apply current_asked. reflexivity.
Defined.

Lemma interview_starts_unless_beginner_witness :
  let i := Sample.interview "s3" SkillLevel.BEGINNER in
  snd (start_interview Sample.started i 0)
  = SError "Failed to start interview. Please try again."
  /\ get_interview_state (fst (start_interview Sample.started i 0)) "s3"
     = Some (Derived.initial_state i).
Proof.
  apply (interview_starts_unless_beginner (R := Sample.runtime) Sample.started
           (Sample.interview "s3" SkillLevel.BEGINNER) 0).
  apply started_reachable.
Defined.

Lemma other_sessions_are_untouched_witness :
  let w := Sample.two_started in
  let i := Sample.interview "s1" SkillLevel.ADVANCED in
  let o := Sample.oracle Sample.ordinary in
  get_interview_state (fst (start_interview w i 0)) "s2"
  = get_interview_state w "s2"
  /\ get_interview_state
       (fst (process_response (R := Sample.runtime) w "s1" Sample.answer 30 o)) "s2"
     = get_interview_state w "s2"
  /\ get_interview_state (fst (pause_interview w "s1")) "s2"
     = get_interview_state w "s2"
  /\ get_interview_state (fst (resume_interview w "s1")) "s2"
     = get_interview_state w "s2".
Proof.
  apply (other_sessions_are_untouched (R := Sample.runtime) Sample.two_started
           "s1" "s2" Sample.answer (Sample.interview "s1" SkillLevel.ADVANCED)).
  - discriminate.
  - reflexivity.
Defined.

Lemma pause_then_resume_restores_witness :
  let w := Sample.started in
  let s := Sample.session Sample.started "s1" in
  let w1 := fst (pause_interview w "s1") in
  pause_interview w "s1"
  = (set_interview_state w "s1" (with_status InterviewStatus.PAUSED s),
     Success "Interview paused successfully")
  /\ pause_interview w1 "s1" = (w1, Error "Interview is not in progress")
  /\ resume_interview w1 "s1" = (w, Success "Interview resumed successfully")
  /\ resume_interview w "s1" = (w, Error "Interview is not paused").
Proof.
  apply (pause_then_resume_restores Sample.started "s1").
  - apply session_stored. reflexivity.
  - reflexivity.
Defined.


Lemma recorded_scores_in_range_witness :
  let s := Sample.session Sample.answered "s1" in
  Forall Derived.in_range (scores s)
  /\ Forall (fun r => Derived.scores_in_range (evaluation r)) (responses s)
  /\ forall a, final_assessment s = Some a ->
       Derived.in_range (a_overall_score a).
Proof.
  apply (recorded_scores_in_range (R := Sample.runtime) Sample.answered "s1").
  - apply answered_reachable.
  - apply session_stored. reflexivity.
Defined.


Lemma skill_level_is_monotone_witness :
  (Derived.skill_rank (_determine_skill_level 62)
   <= Derived.skill_rank (_determine_skill_level 81))%nat
  /\ (_calculate_percentile 62 <= _calculate_percentile 81)%Z.
Proof.
  assert (H : 62 <= 81) by (unfold Qle; cbn; lia).
  exact (skill_level_is_monotone 62 81 H).
Defined.

Lemma open_session_awaits_one_answer_witness :
  let s := Sample.session Sample.answered "s1" in
  _should_continue_interview s = true
  /\ (length (responses s) < 15)%nat
  /\ (current_question s <> None ->
      length (questions_asked s) = S (length (responses s))).
Proof.
  apply (open_session_awaits_one_answer (R := Sample.runtime) Sample.answered "s1").
  - apply answered_reachable.
  - apply session_stored. reflexivity.
  - intros H. vm_compute in H. discriminate H.
Defined.

End MoreWitnesses.

(** ** Completed sessions stay completed *)

Section FinalFacts.

Import Models Eval FeedbackEngine ConversationManager.
Local Open Scope Q_scope.

Context {R : Runtime}.

(** X24.  No request made for a completed session takes it out of that
    status: [pause_interview] and [resume_interview] refuse it and
    change nothing, and [process_response], which does not look at the
    status, stores the session as completed again, whether it goes on
    with a next question or ends once more. *)
Theorem completed_is_final (w : World) (sid answer : string) (rt : Q)
    (o : Oracle) (s : InterviewState) :
  get_interview_state w sid = Some s ->
  status s = InterviewStatus.COMPLETED ->
  (exists s',
      get_interview_state (fst (process_response w sid answer rt o)) sid = Some s'
      /\ status s' = InterviewStatus.COMPLETED)
  /\ pause_interview w sid = (w, Error "Interview is not in progress")
  /\ resume_interview w sid = (w, Error "Interview is not paused").
Proof.
  intros Hs Hst. split; [|split].
  - destruct (process_response_cases w sid answer rt o)
      as [(m & -> & _) | (s0 & q & Hs0 & Hq & H)].
    + exists s. split; [exact Hs | exact Hst].
    + assert (s0 = s) by congruence. subst s0.
      cbv zeta in H. rewrite accept_answer_eq in H. cbn [fst snd] in H.
      destruct H as [(next & _ & _ & ->) | (_ & ->)];
        unfold _end_interview; cbn [fst];
        eexists; (split; [apply lookup_insert_eq|]); cbn; try exact Hst;
        reflexivity.
  - unfold pause_interview. rewrite Hs, Hst. reflexivity.
  - unfold resume_interview. rewrite Hs, Hst. reflexivity.
Qed.

End FinalFacts.

(** ** The weighted score of the model class *)

Section WeightedFacts.

Import Models.
Local Open Scope Q_scope.

Lemma round_half_even_Qeq (p q : Q) :
  p == q -> Num.round_half_even p = Num.round_half_even q.
Proof.
  intros E. unfold Num.round_half_even, Num.ltb.
  rewrite (Qfloor_comp p q E).
  assert (E1 : Qle_bool (1 # 2) (p - inject_Z (Qfloor q))
               = Qle_bool (1 # 2) (q - inject_Z (Qfloor q)))
    by (rewrite E; reflexivity).
  assert (E2 : Qle_bool (p - inject_Z (Qfloor q)) (1 # 2)
               = Qle_bool (q - inject_Z (Qfloor q)) (1 # 2))
    by (rewrite E; reflexivity).
  rewrite E1, E2. reflexivity.
Qed.

Lemma round2_Qeq (p q : Q) : p == q -> Num.round2 p = Num.round2 q.
Proof.
  intros E. unfold Num.round2.
  rewrite (round_half_even_Qeq (p * 100) (q * 100)); [reflexivity|].
  rewrite E. reflexivity.
Qed.

(** X25.  The weights of [calculate_overall_score] (0.35, 0.15, 0.25,
    0.15 and 0.10) add up to one: five equal sub-scores give that
    score, rounded to two decimals, and sub-scores between 0 and 100
    give an overall score between 0 and 100. *)
Theorem weighted_score_is_an_average (c : EvaluationCriteria) :
  (forall x,
      c_technical_accuracy c = x -> c_communication_clarity c = x ->
      c_problem_solving_approach c = x -> c_completeness c = x ->
      c_efficiency c = x ->
      calculate_overall_score c = Num.round2 x)
  /\ (Derived.in_range (c_technical_accuracy c) ->
      Derived.in_range (c_communication_clarity c) ->
      Derived.in_range (c_problem_solving_approach c) ->
      Derived.in_range (c_completeness c) ->
      Derived.in_range (c_efficiency c) ->
      Derived.in_range (calculate_overall_score c)).
Proof.
  unfold calculate_overall_score, Derived.in_range. split.
  - intros x -> -> -> -> ->. apply round2_Qeq. field.
  - intros H1 H2 H3 H4 H5. split.
    + apply (round2_ge 0). change (inject_Z 0) with 0. lra.
    + apply (round2_le 100). change (inject_Z 100) with 100. lra.
Qed.

End WeightedFacts.

(** ** A completed session on a sample *)

Section FinalWitness.

Import Models Eval FeedbackEngine ConversationManager.
Local Open Scope Q_scope.

Lemma completed_is_final_witness :
  let w := Sample.ended in
  (exists s',
      get_interview_state
        (fst (process_response (R := Sample.runtime) w "s1" Sample.answer 30
                (Sample.oracle Sample.ordinary))) "s1" = Some s'
      /\ status s' = InterviewStatus.COMPLETED)
  /\ pause_interview w "s1" = (w, Error "Interview is not in progress")
  /\ resume_interview w "s1" = (w, Error "Interview is not paused").
Proof.
  apply (completed_is_final (R := Sample.runtime) Sample.ended "s1" Sample.answer
           30 (Sample.oracle Sample.ordinary) (Sample.session Sample.ended "s1")).
  - apply session_stored. reflexivity.
  - reflexivity.
Defined.

End FinalWitness.
